(** * Sales data warehouse ETL: transform and load

    A shallow embedding of [etl/transform.py] and [etl/load.py].

    A pandas DataFrame is a list of rows; a row is a record with one cell per
    column.  A PostgreSQL table is a list of rows in insertion order.  A
    function that can raise returns an [option] or a status next to the
    state it leaves. *)

From Stdlib Require Import String Ascii ZArith QArith Qcanon List Bool Lia.
From Stdlib Require Import Permutation Sorted DecimalString.
Import ListNotations.

Open Scope Z_scope.

(** ** Calendar values *)

(** A [datetime.date]: the attributes [year], [month], [day]. *)
Record date := mkdate { year : Z; month : Z; day : Z }.

(** A [pandas.Timestamp]: a calendar date and the time elapsed since
    midnight (nanoseconds). *)
Record Timestamp := mkts { ts_date : date; ts_time : Z }.

Definition date_eqb (a b : date) : bool :=
  (year a =? year b) && (month a =? month b) && (day a =? day b).

Definition Timestamp_eqb (a b : Timestamp) : bool :=
  date_eqb (ts_date a) (ts_date b) && (ts_time a =? ts_time b).

(** ** Cells *)

(** The value of one cell of a frame: missing ([NaN], [None], [NaT]), a
    number, a string, or a timestamp.  A finite float64 or int64 value is
    the rational it denotes; [Inf false] is the float [inf] and [Inf true]
    is [-inf]. *)
Inductive cell :=
| NA
| Num (q : Qc)
| Inf (negative : bool)
| Str (s : string)
| Time (t : Timestamp).

Definition Qc_eqb (a b : Qc) : bool := Qeq_bool (this a) (this b).

Definition cell_eqb (a b : cell) : bool :=
  match a, b with
  | NA, NA => true
  | Num x, Num y => Qc_eqb x y
  | Inf a, Inf b => Bool.eqb a b
  | Str s, Str t => String.eqb s t
  | Time s, Time t => Timestamp_eqb s t
  | _, _ => false
  end.

Fixpoint cells_eqb (a b : list cell) : bool :=
  match a, b with
  | [], [] => true
  | x :: a', y :: b' => cell_eqb x y && cells_eqb a' b'
  | _, _ => false
  end.

Definition notna (c : cell) : bool :=
  match c with NA => false | _ => true end.

(** ** Frames *)

(** A column of a frame whose rows have type [R]: how [df[col]] reads a
    row's cell and how an assignment to [df[col]] writes it. *)
Record column (R : Type) := mkcolumn { cget : R -> cell; cset : cell -> R -> R }.
Arguments mkcolumn {R}.
Arguments cget {R}.
Arguments cset {R}.

(** [df.columns], in order. *)
Class Frame (R : Type) := { columns : list (column R) }.

(** The elements of [l] whose key is met for the first time, in order;
    [seen] holds the keys met so far. *)
Fixpoint keep_first {A K : Type} (eqb : K -> K -> bool) (key : A -> K)
    (seen : list K) (l : list A) : list A :=
  match l with
  | [] => []
  | x :: rest =>
      if existsb (eqb (key x)) seen
      then keep_first eqb key seen rest
      else x :: keep_first eqb key (key x :: seen) rest
  end.

(** [series.unique()]: the distinct values in order of first appearance. *)
Definition unique (series : list cell) : list cell :=
  keep_first cell_eqb (fun c => c) [] series.

Section Generic.
Context {R : Type} {F : Frame R}.

(** The cells of a row under a list of columns. *)
Definition values (subset : list (column R)) (r : R) : list cell :=
  map (fun c => cget c r) subset.

(** [subset=None] stands for all the columns. *)
Definition subset_or_all (subset : option (list (column R))) : list (column R) :=
  match subset with Some cs => cs | None => columns end.

(** [df.drop_duplicates(subset=subset)] with the default [keep='first']:
    a row is dropped when an earlier row has equal cells under [subset]. *)
Definition drop_duplicates (subset : option (list (column R))) (df : list R) : list R :=
  keep_first cells_eqb (values (subset_or_all subset)) [] df.

(** [remove_duplicates(df, subset)]; the count it prints is [removed]. *)
Definition remove_duplicates (df : list R) (subset : option (list (column R))) : list R :=
  let initial_count := length df in
  let df_cleaned := drop_duplicates subset df in
  let removed := (initial_count - length df_cleaned)%nat in
  df_cleaned.

(** [df.dropna(subset=subset)]: rows with a missing cell under [subset]
    are dropped. *)
Definition dropna (subset : option (list (column R))) (df : list R) : list R :=
  filter (fun r => forallb notna (values (subset_or_all subset) r)) df.

(** The dtype test of the fill strategy: an int64 or float64 column holds
    numbers, infinities and missing values only. *)
Definition numeric_dtype (series : list cell) : bool :=
  forallb (fun c => match c with NA | Num _ | Inf _ => true | _ => false end) series.

Definition fillna (v : cell) (c : cell) : cell :=
  match c with NA => v | _ => c end.

(** One turn of the loop over [df_cleaned.columns] of the fill strategy. *)
Definition fill_column (df : list R) (col : column R) : list R :=
  if numeric_dtype (map (cget col) df)
  then map (fun r => cset col (fillna (Num 0%Qc) (cget col r)) r) df
  else map (fun r => cset col (fillna (Str "Unknown") (cget col r)) r) df.

Inductive strategy := drop | fill.

(** [handle_missing_values(df, strategy)]. *)
Definition handle_missing_values (df : list R) (s : strategy) : list R :=
  match s with
  | drop => dropna None df
  | fill => fold_left fill_column columns df
  end.

End Generic.

(** [df[col] = f(df[col])] for an elementwise [f]. *)
Definition assign {R : Type} (col : column R) (f : cell -> cell) (df : list R) : list R :=
  map (fun r => cset col (f (cget col r)) r) df.

(** The elements of a list, each evaluated in turn; [None] as soon as one
    raises. *)
Fixpoint traverse {A B : Type} (f : A -> option B) (l : list A) : option (list B) :=
  match l with
  | [] => Some []
  | x :: rest =>
      match f x with
      | None => None
      | Some y =>
          match traverse f rest with
          | None => None
          | Some ys => Some (y :: ys)
          end
      end
  end.

(** [df[col] = f(df[col])] for an elementwise [f] that can raise. *)
Definition assign_opt {R : Type} (col : column R) (f : cell -> option cell)
    (df : list R) : option (list R) :=
  traverse (fun r => option_map (fun v => cset col v r) (f (cget col r))) df.

(** ** What the libraries decide

    The parts of pandas, Python and PostgreSQL whose result depends on the
    text of a cell are parameters of the development; a [None] stands for
    the exception the library raises, or for [NaN] where it coerces. *)
Class Runtime := {
  (** [pd.to_numeric(errors='coerce')] on a string that reads as a finite
      number. *)
  parse_numeric : string -> option Qc;
  (** The strings that [pd.to_numeric] reads as an infinity ("inf",
      "-Infinity", ...), with the sign: [Some true] is minus infinity. *)
  parse_infinity : string -> option bool;
  (** The strings that [pd.to_datetime] reads as the missing timestamp
      ("NaT", "nat", "NAN", ...). *)
  nat_string : string -> bool;
  (** [pd.to_datetime(series)] at one cell of a column that is not a
      datetime64 column yet; the column fixes the format. *)
  parse_datetime_in : list cell -> cell -> option Timestamp;
  (** [pd.to_datetime] on a scalar that is not a timestamp yet. *)
  parse_datetime : cell -> option Timestamp;
  (** [int(s)] and [float(s)] on a string. *)
  int_of_string : string -> option Z;
  float_of_string : string -> option Qc;
  (** PostgreSQL's assignment of a value that is not a whole number to an
      INTEGER column. *)
  cast_integer : cell -> option Z;
  (** What the cast of a float to int64 leaves when the whole part of the
      float is outside int64: the result is the hardware's. *)
  int64_overflow : Z -> Z
}.

(** The whole part of a number, rounded towards zero: [int(x)] and
    [astype(int)] on a float. *)
Definition truncate (q : Qc) : Z := Z.quot (Qnum (this q)) (Zpos (Qden (this q))).

Definition of_Z (z : Z) : Qc := Q2Qc (inject_Z z).

Definition is_whole (q : Qc) : bool := Qc_eqb (of_Z (truncate q)) q.

(** The integers of an int64, and those of a PostgreSQL INTEGER. *)
Definition in_int64 (z : Z) : bool := (- 2 ^ 63 <=? z) && (z <? 2 ^ 63).

Definition in_int32 (z : Z) : bool := (- 2 ^ 31 <=? z) && (z <? 2 ^ 31).

Section Conversions.
Context {RT : Runtime}.

(** [pd.to_numeric(series, errors='coerce')], elementwise: a string that
    reads as an infinity gives the infinity, which is no missing value. *)
Definition to_numeric (c : cell) : cell :=
  match c with
  | NA => NA
  | Num q => Num q
  | Inf b => Inf b
  | Str s =>
      match parse_infinity s with
      | Some b => Inf b
      | None => match parse_numeric s with Some q => Num q | None => NA end
      end
  | Time _ => NA
  end.

(** The cast of a float to int64: the whole part, or what the hardware
    leaves when the whole part is outside int64. *)
Definition to_int64 (q : Qc) : Z :=
  if in_int64 (truncate q) then truncate q else int64_overflow (truncate q).

(** [series.astype(int)], elementwise; a missing value and an infinity
    raise ([IntCastingNaNError]). *)
Definition astype_int (c : cell) : option cell :=
  match c with
  | Num q => Some (Num (of_Z (to_int64 q)))
  | Inf _ => None
  | Str s => option_map (fun z => Num (of_Z z)) (int_of_string s)
  | NA => None
  | Time _ => None
  end.

(** [pd.to_datetime(series)], at the cell [c] of [series]: a timestamp is
    returned as it is; a missing value, and a string that reads as one,
    give [NaT] without an error. *)
Definition to_datetime_in (series : list cell) (c : cell) : option cell :=
  match c with
  | Time t => Some (Time t)
  | NA => Some NA
  | Str s =>
      if nat_string s then Some NA
      else option_map Time (parse_datetime_in series c)
  | _ => option_map Time (parse_datetime_in series c)
  end.

(** [pd.to_datetime(x)] on a scalar, for the caller that reads the day and
    the month of the result: the missing value gives [NaT], on which it
    raises. *)
Definition to_datetime (c : cell) : option Timestamp :=
  match c with
  | Time t => Some t
  | NA => None
  | _ => parse_datetime c
  end.

(** [pd.to_datetime(x).date()]: [None] when the conversion raises; the
    missing value gives [NaT], whose date is [NaT] again ([Some None]). *)
Definition to_date (c : cell) : option (option date) :=
  match c with
  | NA => Some None
  | _ => option_map (fun t => Some (ts_date t)) (to_datetime c)
  end.

(** [int(x)]; [int(nan)] and [int(inf)] raise. *)
Definition py_int (c : cell) : option Z :=
  match c with
  | Num q => Some (truncate q)
  | Inf _ => None
  | Str s => int_of_string s
  | NA => None
  | Time _ => None
  end.

(** [float(x)], for a measure of a fact record.  [float(inf)] is [inf]
    in Python: the loop goes on, and the INSERT command is what refuses
    the record, when the column holds decimals of a fixed precision.  A
    fact record holds rationals here, so the conversion of an infinity
    ends the load at once, with the tables as they were, as the refused
    command does. *)
Definition py_float (c : cell) : option Qc :=
  match c with
  | Num q => Some q
  | Inf _ => None
  | Str s => float_of_string s
  | NA => None
  | Time _ => None
  end.

(** The value PostgreSQL stores in an INTEGER column; a value outside 32
    bits is refused ([NumericValueOutOfRange]). *)
Definition sql_integer (c : cell) : option Z :=
  match
    match c with
    | Num q => if is_whole q then Some (truncate q) else cast_integer c
    | _ => cast_integer c
    end
  with
  | Some z => if in_int32 z then Some z else None
  | None => None
  end.

End Conversions.

(** [series > 0] on a numeric column; [NaN > 0] is false and [inf > 0]
    is true. *)
Definition gt0 (c : cell) : bool :=
  match c with
  | Num q => negb (Qle_bool (this q) 0)
  | Inf negative => negb negative
  | _ => false
  end.

(** ** The three input frames *)

(** A row of sales.csv. *)
Module Sales.
Record row := mk {
  sale_id : cell;
  sale_date : cell;
  customer_id : cell;
  product_id : cell;
  quantity : cell;
  unit_price : cell;
  total_amount : cell
}.

Definition set_sale_id (v : cell) (r : row) : row :=
  mk v (sale_date r) (customer_id r) (product_id r) (quantity r) (unit_price r) (total_amount r).
Definition set_sale_date (v : cell) (r : row) : row :=
  mk (sale_id r) v (customer_id r) (product_id r) (quantity r) (unit_price r) (total_amount r).
Definition set_customer_id (v : cell) (r : row) : row :=
  mk (sale_id r) (sale_date r) v (product_id r) (quantity r) (unit_price r) (total_amount r).
Definition set_product_id (v : cell) (r : row) : row :=
  mk (sale_id r) (sale_date r) (customer_id r) v (quantity r) (unit_price r) (total_amount r).
Definition set_quantity (v : cell) (r : row) : row :=
  mk (sale_id r) (sale_date r) (customer_id r) (product_id r) v (unit_price r) (total_amount r).
Definition set_unit_price (v : cell) (r : row) : row :=
  mk (sale_id r) (sale_date r) (customer_id r) (product_id r) (quantity r) v (total_amount r).
Definition set_total_amount (v : cell) (r : row) : row :=
  mk (sale_id r) (sale_date r) (customer_id r) (product_id r) (quantity r) (unit_price r) v.

(** The columns, named as in the frame. *)
Module Col.
Definition sale_id : column row := mkcolumn Sales.sale_id set_sale_id.
Definition sale_date : column row := mkcolumn Sales.sale_date set_sale_date.
Definition customer_id : column row := mkcolumn Sales.customer_id set_customer_id.
Definition product_id : column row := mkcolumn Sales.product_id set_product_id.
Definition quantity : column row := mkcolumn Sales.quantity set_quantity.
Definition unit_price : column row := mkcolumn Sales.unit_price set_unit_price.
Definition total_amount : column row := mkcolumn Sales.total_amount set_total_amount.
End Col.

#[export] Instance frame : Frame row :=
  {| columns := [Col.sale_id; Col.sale_date; Col.customer_id; Col.product_id; Col.quantity; Col.unit_price; Col.total_amount] |}.
End Sales.
Export (hints) Sales.

(** A row of customers.csv. *)
Module Customers.
Record row := mk {
  customer_id : cell;
  customer_name : cell;
  email : cell;
  city : cell;
  country : cell
}.

Definition set_customer_id (v : cell) (r : row) : row :=
  mk v (customer_name r) (email r) (city r) (country r).
Definition set_customer_name (v : cell) (r : row) : row :=
  mk (customer_id r) v (email r) (city r) (country r).
Definition set_email (v : cell) (r : row) : row :=
  mk (customer_id r) (customer_name r) v (city r) (country r).
Definition set_city (v : cell) (r : row) : row :=
  mk (customer_id r) (customer_name r) (email r) v (country r).
Definition set_country (v : cell) (r : row) : row :=
  mk (customer_id r) (customer_name r) (email r) (city r) v.

(** The columns, named as in the frame. *)
Module Col.
Definition customer_id : column row := mkcolumn Customers.customer_id set_customer_id.
Definition customer_name : column row := mkcolumn Customers.customer_name set_customer_name.
Definition email : column row := mkcolumn Customers.email set_email.
Definition city : column row := mkcolumn Customers.city set_city.
Definition country : column row := mkcolumn Customers.country set_country.
End Col.

#[export] Instance frame : Frame row :=
  {| columns := [Col.customer_id; Col.customer_name; Col.email; Col.city; Col.country] |}.
End Customers.
Export (hints) Customers.

(** A row of products.csv. *)
Module Products.
Record row := mk {
  product_id : cell;
  product_name : cell;
  category : cell;
  subcategory : cell;
  unit_cost : cell
}.

Definition set_product_id (v : cell) (r : row) : row :=
  mk v (product_name r) (category r) (subcategory r) (unit_cost r).
Definition set_product_name (v : cell) (r : row) : row :=
  mk (product_id r) v (category r) (subcategory r) (unit_cost r).
Definition set_category (v : cell) (r : row) : row :=
  mk (product_id r) (product_name r) v (subcategory r) (unit_cost r).
Definition set_subcategory (v : cell) (r : row) : row :=
  mk (product_id r) (product_name r) (category r) v (unit_cost r).
Definition set_unit_cost (v : cell) (r : row) : row :=
  mk (product_id r) (product_name r) (category r) (subcategory r) v.

(** The columns, named as in the frame. *)
Module Col.
Definition product_id : column row := mkcolumn Products.product_id set_product_id.
Definition product_name : column row := mkcolumn Products.product_name set_product_name.
Definition category : column row := mkcolumn Products.category set_category.
Definition subcategory : column row := mkcolumn Products.subcategory set_subcategory.
Definition unit_cost : column row := mkcolumn Products.unit_cost set_unit_cost.
End Col.

#[export] Instance frame : Frame row :=
  {| columns := [Col.product_id; Col.product_name; Col.category; Col.subcategory; Col.unit_cost] |}.
End Products.
Export (hints) Products.

(** ** transform.py *)

Section Transform.
Context {RT : Runtime}.

(** [transform_sales_data(sales_df)]; [None] when [pd.to_datetime]
    raises. *)
Definition transform_sales_data (sales_df : list Sales.row) : option (list Sales.row) :=
  let df := sales_df in
  let df := remove_duplicates df (Some [Sales.Col.sale_id]) in
  let df := handle_missing_values df drop in
  match assign_opt Sales.Col.sale_date (to_datetime_in (map Sales.sale_date df)) df with
  | None => None
  | Some df =>
      let df := assign Sales.Col.quantity to_numeric df in
      let df := assign Sales.Col.unit_price to_numeric df in
      let df := assign Sales.Col.total_amount to_numeric df in
      let df := dropna (Some [Sales.Col.quantity; Sales.Col.unit_price;
                              Sales.Col.total_amount]) df in
      let df := filter (fun r => gt0 (Sales.quantity r) && gt0 (Sales.unit_price r)
                                 && gt0 (Sales.total_amount r)) df in
      Some df
  end.

(** [transform_customers_data(customers_df)]. *)
Definition transform_customers_data (customers_df : list Customers.row)
    : option (list Customers.row) :=
  let df := customers_df in
  let df := remove_duplicates df (Some [Customers.Col.customer_id]) in
  let df := handle_missing_values df drop in
  let df := assign Customers.Col.customer_id to_numeric df in
  let df := dropna (Some [Customers.Col.customer_id]) df in
  assign_opt Customers.Col.customer_id astype_int df.

(** [transform_products_data(products_df)]. *)
Definition transform_products_data (products_df : list Products.row)
    : option (list Products.row) :=
  let df := products_df in
  let df := remove_duplicates df (Some [Products.Col.product_id]) in
  let df := handle_missing_values df drop in
  let df := assign Products.Col.product_id to_numeric df in
  let df := dropna (Some [Products.Col.product_id]) df in
  match assign_opt Products.Col.product_id astype_int df with
  | None => None
  | Some df =>
      let df := assign Products.Col.unit_cost to_numeric df in
      let df := assign Products.Col.unit_cost (fillna (Num 0%Qc)) df in
      Some df
  end.

End Transform.

(** ** The date dimension *)

(** The proleptic Gregorian calendar of [datetime]: the number of days
    before a year and before a month, the ordinal of a date (0001-01-01 is
    day 1) and the day of the week (Monday is 0). *)
Definition is_leap (y : Z) : bool :=
  (y mod 4 =? 0) && (negb (y mod 100 =? 0) || (y mod 400 =? 0)).

Definition days_before_year (y : Z) : Z :=
  let y := y - 1 in y * 365 + y / 4 - y / 100 + y / 400.

Definition days_in_month : list Z := [31; 28; 31; 30; 31; 30; 31; 31; 30; 31; 30; 31].

Definition days_before_month (y m : Z) : Z :=
  fold_right Z.add 0 (firstn (Z.to_nat (m - 1)) days_in_month)
  + (if (2 <? m) && is_leap y then 1 else 0).

Definition toordinal (d : date) : Z :=
  days_before_year (year d) + days_before_month (year d) (month d) + day d.

Definition weekday (d : date) : Z := (toordinal d + 6) mod 7.

(** [l[i]] on a Python list: a negative index counts from the end, an
    index out of range raises ([None]). *)
Definition getitem {A : Type} (l : list A) (i : Z) : option A :=
  let n := Z.of_nat (length l) in
  if (0 <=? i) && (i <? n) then nth_error l (Z.to_nat i)
  else if (- n <=? i) && (i <? 0) then nth_error l (Z.to_nat (i + n))
  else None.

(** [str(n)] for an integer, as an f-string formats it. *)
Definition str (n : Z) : string := NilZero.string_of_int (Z.to_int n).

(** A row of the date dimension frame. *)
Module DateDim.
Record row := mk {
  sale_date : date;
  day : Z;
  month : Z;
  quarter : Z;
  year : Z;
  month_name : string;
  quarter_name : string;
  day_of_week : string;
  is_weekend : bool
}.
End DateDim.

(** The order of [datetime.date] values. *)
Definition date_leb (a b : date) : bool :=
  (year a <? year b)
  || ((year a =? year b)
      && ((month a <? month b) || ((month a =? month b) && (day a <=? day b)))).

(** [date_dim.sort_values('sale_date')], as an insertion sort.  Rows with
    the same [sale_date] are equal here, so every sorting algorithm gives
    this result. *)
Fixpoint insert_row (r : DateDim.row) (l : list DateDim.row) : list DateDim.row :=
  match l with
  | [] => [r]
  | x :: rest =>
      if date_leb (DateDim.sale_date r) (DateDim.sale_date x)
      then r :: l
      else x :: insert_row r rest
  end.

Definition sort_values (l : list DateDim.row) : list DateDim.row :=
  fold_right insert_row [] l.

Definition month_names : list string :=
  ["January"; "February"; "March"; "April"; "May"; "June";
   "July"; "August"; "September"; "October"; "November"; "December"]%string.

Definition day_names : list string :=
  ["Monday"; "Tuesday"; "Wednesday"; "Thursday"; "Friday"; "Saturday"; "Sunday"]%string.

Section DateDimension.
Context {RT : Runtime}.

(** The body of the loop over [unique_dates]: the record appended to
    [date_records] for one value. *)
Definition date_record (date : cell) : option DateDim.row :=
  match to_datetime date with
  | None => None
  | Some date_obj =>
      let day := day (ts_date date_obj) in
      let month := month (ts_date date_obj) in
      let quarter := (month - 1) / 3 + 1 in
      let year := year (ts_date date_obj) in
      match getitem month_names (month - 1) with
      | None => None
      | Some month_name =>
          let quarter_name := ("Q" ++ str quarter)%string in
          match getitem day_names (weekday (ts_date date_obj)) with
          | None => None
          | Some day_of_week =>
              let is_weekend := 5 <=? weekday (ts_date date_obj) in
              Some (DateDim.mk (ts_date date_obj) day month quarter year
                      month_name quarter_name day_of_week is_weekend)
          end
      end
  end.

(** [create_date_dimension(sales_df)].  With no date at all,
    [pd.DataFrame([])] has no column and [sort_values('sale_date')]
    raises a [KeyError]. *)
Definition create_date_dimension (sales_df : list Sales.row) : option (list DateDim.row) :=
  let unique_dates := unique (map Sales.sale_date sales_df) in
  match traverse date_record unique_dates with
  | None => None
  | Some date_records =>
      match date_records with
      | [] => None
      | _ => Some (sort_values date_records)
      end
  end.

(** [transform_all(sales_df, customers_df, products_df)]. *)
Definition transform_all (sales_df : list Sales.row) (customers_df : list Customers.row)
    (products_df : list Products.row)
    : option (list Sales.row * list Customers.row * list Products.row * list DateDim.row) :=
  match transform_sales_data sales_df with
  | None => None
  | Some sales_clean =>
      match transform_customers_data customers_df with
      | None => None
      | Some customers_clean =>
          match transform_products_data products_df with
          | None => None
          | Some products_clean =>
              match create_date_dimension sales_clean with
              | None => None
              | Some date_dim =>
                  Some (sales_clean, customers_clean, products_clean, date_dim)
              end
          end
      end
  end.

End DateDimension.

(** ** The warehouse *)

(** Modelled from the spec: [sql/create_tables.sql] is not part of the
    sources.  Each dimension table adds a surrogate key that the store
    assigns from a sequence of its own; [dim_customer] and [dim_product]
    carry the [updated_at] time that the upsert refreshes, which a new row
    takes from the clock as well; the natural keys and [sale_id] are
    INTEGER columns and the conflict targets of the INSERT statements. *)
Module DimCustomer.
Record row := mk {
  customer_key : Z;
  customer_id : Z;
  customer_name : cell;
  email : cell;
  city : cell;
  country : cell;
  updated_at : Z
}.
End DimCustomer.

Module DimProduct.
Record row := mk {
  product_key : Z;
  product_id : Z;
  product_name : cell;
  category : cell;
  subcategory : cell;
  unit_cost : cell;
  updated_at : Z
}.
End DimProduct.

Module DimDate.
Record row := mk {
  date_key : Z;
  (** The nine columns written from a row of the date dimension frame. *)
  record : DateDim.row
}.
Definition sale_date (r : row) : date := DateDim.sale_date (record r).
End DimDate.

Module FactSales.
Record row := mk {
  sale_id : Z;
  date_key : Z;
  customer_key : Z;
  product_key : Z;
  quantity : Z;
  unit_price : Qc;
  total_amount : Qc
}.
End FactSales.

Record Warehouse := mkWarehouse {
  dim_customer : list DimCustomer.row;
  dim_product : list DimProduct.row;
  dim_date : list DimDate.row;
  fact_sales : list FactSales.row;
  (** The next value of each surrogate key sequence. *)
  customer_key_seq : Z;
  product_key_seq : Z;
  date_key_seq : Z
}.

(** How a call ends: it returns, or it raises. *)
Inductive status := Done | Raised.

(** ** INSERT ... ON CONFLICT *)

Section Insert.
Context {Row Rec Key : Type}.
(** The conflict target: the key of a stored row and of a proposed row
    ([None]: the value does not fit the column and the command fails). *)
Variable key_eqb : Key -> Key -> bool.
Variable row_key : Row -> Key.
Variable rec_key : Rec -> option Key.
(** The row inserted for a proposed row, given the value drawn from the
    sequence. *)
Variable new_row : Z -> Key -> Rec -> Row.
(** [DO UPDATE SET ...], or [None] for [DO NOTHING]. *)
Variable on_conflict : option (Rec -> Row -> Row).

(** One INSERT command over its proposed rows, in order.  The sequence
    default is evaluated for every proposed row.  [affected] holds the
    keys of the rows the command has inserted or updated: DO UPDATE fails
    on a row it would affect a second time.  [None] is the error. *)
Fixpoint insert_rows (proposed : list (Key * Rec)) (table : list Row) (seq : Z)
    (affected : list Key) : option (list Row) * Z :=
  match proposed with
  | [] => (Some table, seq)
  | (k, rec) :: rest =>
      if existsb (fun row => key_eqb k (row_key row)) table
      then
        match on_conflict with
        | None => insert_rows rest table (seq + 1) affected
        | Some set =>
            if existsb (key_eqb k) affected
            then (None, seq + 1)
            else insert_rows rest
                   (map (fun row => if key_eqb k (row_key row) then set rec row else row)
                        table)
                   (seq + 1) (k :: affected)
        end
      else insert_rows rest (table ++ [new_row seq k rec]) (seq + 1) (k :: affected)
  end.

(** The pages of [execute_values], of [page_size] rows each. *)
Fixpoint paginate_fuel (fuel : nat) (page_size : nat) (argslist : list Rec) : list (list Rec) :=
  match fuel with
  | O => []
  | S fuel' =>
      match argslist with
      | [] => []
      | _ => firstn page_size argslist
             :: paginate_fuel fuel' page_size (skipn page_size argslist)
      end
  end.

Definition paginate (page_size : nat) (argslist : list Rec) : list (list Rec) :=
  paginate_fuel (length argslist) page_size argslist.

(** One command per page, until one fails. *)
Fixpoint execute_pages (pages : list (list Rec)) (table : list Row) (seq : Z)
    : option (list Row) * Z :=
  match pages with
  | [] => (Some table, seq)
  | page :: rest =>
      match traverse (fun r => option_map (fun k => (k, r)) (rec_key r)) page with
      | None => (None, seq)
      | Some proposed =>
          match insert_rows proposed table seq [] with
          | (Some table', seq') => execute_pages rest table' seq'
          | (None, seq') => (None, seq')
          end
      end
  end.

(** [execute_values(cursor, insert_query, argslist)] with the default
    [page_size=100]. *)
Definition execute_values (table : list Row) (seq : Z) (argslist : list Rec)
    : option (list Row) * Z :=
  execute_pages (paginate 100 argslist) table seq.

End Insert.

(** ** load.py *)

(** A Python [dict] built by assignments: a later assignment to a key
    replaces the earlier one. *)
Section Dict.
Context {K V : Type} (eqb : K -> K -> bool).

Fixpoint dict_set (d : list (K * V)) (k : K) (v : V) : list (K * V) :=
  match d with
  | [] => [(k, v)]
  | (k', v') :: rest =>
      if eqb k k' then (k', v) :: rest else (k', v') :: dict_set rest k v
  end.

(** [d.get(k)]. *)
Fixpoint dict_get (d : list (K * V)) (k : K) : option V :=
  match d with
  | [] => None
  | (k', v) :: rest => if eqb k k' then Some v else dict_get rest k
  end.
End Dict.

(** [d.get(k)] where [k] is the date of a timestamp: [NaT] is no key of the
    lookup by date. *)
Definition get_date (d : list (date * Z)) (k : option date) : option Z :=
  match k with
  | Some k => dict_get date_eqb d k
  | None => None
  end.

(** The truth value of what [dict.get] returns for an integer key column:
    [None] and [0] are false. *)
Definition truthy (v : option Z) : bool :=
  match v with
  | None => false
  | Some k => negb (k =? 0)
  end.

(** [all(iterable)]. *)
Definition all (l : list (option Z)) : bool := forallb truthy l.

(** The integer held by a value known to be true. *)
Definition the (v : option Z) : Z :=
  match v with Some k => k | None => 0 end.

(** The fact row inserted under the [sale_id] of a fact record. *)
Definition new_fact (sale_id : Z) (rec : FactSales.row) : FactSales.row :=
  FactSales.mk sale_id (FactSales.date_key rec) (FactSales.customer_key rec)
    (FactSales.product_key rec) (FactSales.quantity rec) (FactSales.unit_price rec)
    (FactSales.total_amount rec).

(** [DO UPDATE SET quantity, unit_price, total_amount] of the fact upsert. *)
Definition set_fact_measures (rec row : FactSales.row) : FactSales.row :=
  FactSales.mk (FactSales.sale_id row) (FactSales.date_key row)
    (FactSales.customer_key row) (FactSales.product_key row)
    (FactSales.quantity rec) (FactSales.unit_price rec) (FactSales.total_amount rec).

(** The row inserted into [dim_customer] for a record, with the surrogate
    key drawn from the sequence, and the DO UPDATE SET of the upsert; [now]
    is CURRENT_TIMESTAMP. *)
Definition new_customer (now seq customer_id : Z) (r : Customers.row) : DimCustomer.row :=
  DimCustomer.mk seq customer_id (Customers.customer_name r) (Customers.email r)
    (Customers.city r) (Customers.country r) now.

Definition set_customer (now : Z) (r : Customers.row) (row : DimCustomer.row)
    : DimCustomer.row :=
  DimCustomer.mk (DimCustomer.customer_key row) (DimCustomer.customer_id row)
    (Customers.customer_name r) (Customers.email r)
    (Customers.city r) (Customers.country r) now.

(** The same for [dim_product]. *)
Definition new_product (now seq product_id : Z) (r : Products.row) : DimProduct.row :=
  DimProduct.mk seq product_id (Products.product_name r) (Products.category r)
    (Products.subcategory r) (Products.unit_cost r) now.

Definition set_product (now : Z) (r : Products.row) (row : DimProduct.row)
    : DimProduct.row :=
  DimProduct.mk (DimProduct.product_key row) (DimProduct.product_id row)
    (Products.product_name r) (Products.category r)
    (Products.subcategory r) (Products.unit_cost r) now.

(** The row inserted into [dim_date] under the [sale_date] of a record. *)
Definition new_date (seq : Z) (sale_date : date) (r : DateDim.row) : DimDate.row :=
  DimDate.mk seq
    (DateDim.mk sale_date (DateDim.day r) (DateDim.month r) (DateDim.quarter r)
       (DateDim.year r) (DateDim.month_name r) (DateDim.quarter_name r)
       (DateDim.day_of_week r) (DateDim.is_weekend r)).

Section Load.
Context {RT : Runtime}.

(** [load_dim_customer(conn, customers_df)] in a transaction that starts
    at [now]: the state left and how the call ends.  A rollback restores
    the table, not the sequence. *)
Definition load_dim_customer (now : Z) (w : Warehouse) (customers_df : list Customers.row)
    : Warehouse * status :=
  let records := customers_df in
  let values := records in
  match execute_values Z.eqb DimCustomer.customer_id
          (fun r => sql_integer (Customers.customer_id r))
          (new_customer now) (Some (set_customer now))
          (dim_customer w) (customer_key_seq w) values with
  | (Some table, seq) =>
      (mkWarehouse table (dim_product w) (dim_date w) (fact_sales w)
         seq (product_key_seq w) (date_key_seq w), Done)
  | (None, seq) =>
      (mkWarehouse (dim_customer w) (dim_product w) (dim_date w) (fact_sales w)
         seq (product_key_seq w) (date_key_seq w), Raised)
  end.

(** [load_dim_product(conn, products_df)]. *)
Definition load_dim_product (now : Z) (w : Warehouse) (products_df : list Products.row)
    : Warehouse * status :=
  let records := products_df in
  let values := records in
  match execute_values Z.eqb DimProduct.product_id
          (fun r => sql_integer (Products.product_id r))
          (new_product now) (Some (set_product now))
          (dim_product w) (product_key_seq w) values with
  | (Some table, seq) =>
      (mkWarehouse (dim_customer w) table (dim_date w) (fact_sales w)
         (customer_key_seq w) seq (date_key_seq w), Done)
  | (None, seq) =>
      (mkWarehouse (dim_customer w) (dim_product w) (dim_date w) (fact_sales w)
         (customer_key_seq w) seq (date_key_seq w), Raised)
  end.

(** [load_dim_date(conn, date_df)]: ON CONFLICT (sale_date) DO NOTHING. *)
Definition load_dim_date (w : Warehouse) (date_df : list DateDim.row)
    : Warehouse * status :=
  let records := date_df in
  let values := records in
  match execute_values date_eqb DimDate.sale_date
          (fun r => Some (DateDim.sale_date r))
          new_date None
          (dim_date w) (date_key_seq w) values with
  | (Some table, seq) =>
      (mkWarehouse (dim_customer w) (dim_product w) table (fact_sales w)
         (customer_key_seq w) (product_key_seq w) seq, Done)
  | (None, seq) =>
      (mkWarehouse (dim_customer w) (dim_product w) (dim_date w) (fact_sales w)
         (customer_key_seq w) (product_key_seq w) seq, Raised)
  end.

(** The three lookups of [load_fact_sales], filled from the rows the
    SELECT statements fetch. *)
Definition date_lookup (w : Warehouse) : list (date * Z) :=
  fold_left (fun d row => dict_set date_eqb d (DimDate.sale_date row) (DimDate.date_key row))
    (dim_date w) [].

Definition customer_lookup (w : Warehouse) : list (Z * Z) :=
  fold_left (fun d row =>
               dict_set Z.eqb d (DimCustomer.customer_id row) (DimCustomer.customer_key row))
    (dim_customer w) [].

Definition product_lookup (w : Warehouse) : list (Z * Z) :=
  fold_left (fun d row =>
               dict_set Z.eqb d (DimProduct.product_id row) (DimProduct.product_key row))
    (dim_product w) [].

(** The loop over [sales_df.iterrows()]: [fact_records] and [skipped]
    when it ends, [None] when a conversion raises. *)
Fixpoint fact_loop (w : Warehouse) (rows : list Sales.row)
    (fact_records : list FactSales.row) (skipped : nat)
    : option (list FactSales.row * nat) :=
  match rows with
  | [] => Some (fact_records, skipped)
  | row :: rest =>
      match to_date (Sales.sale_date row),
            py_int (Sales.customer_id row), py_int (Sales.product_id row) with
      | Some sale_date, Some customer_id, Some product_id =>
          let date_key := get_date (date_lookup w) sale_date in
          let customer_key := dict_get Z.eqb (customer_lookup w) customer_id in
          let product_key := dict_get Z.eqb (product_lookup w) product_id in
          if negb (all [date_key; customer_key; product_key])
          then fact_loop w rest fact_records (S skipped)
          else
            match py_int (Sales.sale_id row), py_int (Sales.quantity row),
                  py_float (Sales.unit_price row), py_float (Sales.total_amount row) with
            | Some sale_id, Some quantity, Some unit_price, Some total_amount =>
                fact_loop w rest
                  (fact_records
                   ++ [FactSales.mk sale_id (the date_key) (the customer_key)
                         (the product_key) quantity unit_price total_amount])
                  skipped
            | _, _, _, _ => None
            end
      | _, _, _ => None
      end
  end.

(** [load_fact_sales(conn, sales_df)].  The fact records hold integers
    and rationals: what the column types of [fact_sales] refuse (a
    [sale_id] or a quantity outside 32 bits) is not modelled, so a load
    that returns here may raise on such a record, with the tables as they
    were. *)
Definition load_fact_sales (w : Warehouse) (sales_df : list Sales.row)
    : Warehouse * status :=
  match fact_loop w sales_df [] O with
  | None => (w, Raised)
  | Some (fact_records, skipped) =>
      match execute_values Z.eqb FactSales.sale_id
              (fun r => Some (FactSales.sale_id r))
              (fun _ => new_fact) (Some set_fact_measures)
              (fact_sales w) 0 fact_records with
      | (Some table, _) =>
          (mkWarehouse (dim_customer w) (dim_product w) (dim_date w) table
             (customer_key_seq w) (product_key_seq w) (date_key_seq w), Done)
      | (None, _) => (w, Raised)
      end
  end.

(** [load_all(sales_df, customers_df, products_df, date_df)]; the two
    upserts that write [updated_at] read the clock at [t_customer] and at
    [t_product]. *)
Definition load_all (t_customer t_product : Z) (w : Warehouse)
    (sales_df : list Sales.row) (customers_df : list Customers.row)
    (products_df : list Products.row) (date_df : list DateDim.row)
    : Warehouse * status :=
  match load_dim_customer t_customer w customers_df with
  | (w, Raised) => (w, Raised)
  | (w, Done) =>
      match load_dim_product t_product w products_df with
      | (w, Raised) => (w, Raised)
      | (w, Done) =>
          match load_dim_date w date_df with
          | (w, Raised) => (w, Raised)
          | (w, Done) => load_fact_sales w sales_df
          end
      end
  end.

(** [main()] of run_etl.py on the three extracted frames. *)
Definition main (t_customer t_product : Z) (w : Warehouse)
    (sales : list Sales.row) (customers : list Customers.row)
    (products : list Products.row) : Warehouse * status :=
  match transform_all sales customers products with
  | None => (w, Raised)
  | Some (sales_t, customers_t, products_t, date_dim) =>
      load_all t_customer t_product w sales_t customers_t products_t date_dim
  end.

End Load.

(** ** What the fact upsert leaves of a stored row *)

(** The last of the fact records with a [sale_id]. *)
Definition last_with_sale_id (sale_id : Z) (fact_records : list FactSales.row)
    : option FactSales.row :=
  find (fun r => FactSales.sale_id r =? sale_id) (rev fact_records).

(** A stored fact row after the upsert of [fact_records]. *)
Definition upserted (fact_records : list FactSales.row) (old : FactSales.row)
    : FactSales.row :=
  match last_with_sale_id (FactSales.sale_id old) fact_records with
  | Some rec => set_fact_measures rec old
  | None => old
  end.

(** The fact records that the upsert inserts into a table: for each
    [sale_id] that the table does not store, the first record with it. *)
Definition inserted (stored fact_records : list FactSales.row) : list FactSales.row :=
  keep_first Z.eqb FactSales.sale_id (map FactSales.sale_id stored) fact_records.

(** ** What two runs are compared on *)

(** The columns of a dimension row other than [updated_at]. *)
Definition customer_content (r : DimCustomer.row) : Z * Z * cell * cell * cell * cell :=
  (DimCustomer.customer_key r, DimCustomer.customer_id r, DimCustomer.customer_name r,
   DimCustomer.email r, DimCustomer.city r, DimCustomer.country r).

Definition product_content (r : DimProduct.row) : Z * Z * cell * cell * cell * cell :=
  (DimProduct.product_key r, DimProduct.product_id r, DimProduct.product_name r,
   DimProduct.category r, DimProduct.subcategory r, DimProduct.unit_cost r).

(** Two warehouses hold the same rows in the four tables, but for
    [updated_at]. *)
Definition same_content (a b : Warehouse) : Prop :=
  map customer_content (dim_customer a) = map customer_content (dim_customer b)
  /\ map product_content (dim_product a) = map product_content (dim_product b)
  /\ dim_date a = dim_date b
  /\ fact_sales a = fact_sales b.

(** ** What the properties speak of *)

(** The order of the rows of the date dimension. *)
Definition date_le (a b : DateDim.row) : Prop :=
  date_leb (DateDim.sale_date a) (DateDim.sale_date b) = true.

(** The row that [date_record] builds holds the attributes of the date it
    converts. *)
Definition record_of (d : date) (r : DateDim.row) : Prop :=
  DateDim.sale_date r = d
  /\ DateDim.day r = day d
  /\ DateDim.month r = month d
  /\ DateDim.quarter r = (month d - 1) / 3 + 1
  /\ DateDim.year r = year d
  /\ getitem month_names (month d - 1) = Some (DateDim.month_name r)
  /\ DateDim.quarter_name r = ("Q" ++ str ((month d - 1) / 3 + 1))%string
  /\ getitem day_names (weekday d) = Some (DateDim.day_of_week r)
  /\ DateDim.is_weekend r = (5 <=? weekday d).

(** The cell holds a number greater than 0: a finite one, or the float
    [inf]. *)
Definition greater_than_0 (c : cell) : Prop :=
  (exists q, c = Num q /\ (0 < q)%Qc) \/ c = Inf false.

(** The cell holds a finite number. *)
Definition finite (c : cell) : Prop := exists q, c = Num q.

(** The cleaned row [c] is the raw row [r] with its date converted, to a
    timestamp or to [NaT], and its three measures coerced to numbers. *)
Definition cleaned_from {RT : Runtime} (r c : Sales.row) : Prop :=
  Sales.sale_id c = Sales.sale_id r
  /\ ((exists t, Sales.sale_date c = Time t) \/ Sales.sale_date c = NA)
  /\ Sales.customer_id c = Sales.customer_id r
  /\ Sales.product_id c = Sales.product_id r
  /\ Sales.quantity c = to_numeric (Sales.quantity r)
  /\ Sales.unit_price c = to_numeric (Sales.unit_price r)
  /\ Sales.total_amount c = to_numeric (Sales.total_amount r).

(** The fact record [f] is what the loop appends for the sales row [c]:
    the three lookups of [c] return the keys of [f], none of them 0, and
    the identifier and the measures of [f] are those of [c] converted. *)
Definition emitted_from {RT : Runtime} (w : Warehouse) (c : Sales.row)
    (f : FactSales.row) : Prop :=
  exists sale_date customer_id product_id,
    to_date (Sales.sale_date c) = Some (Some sale_date)
    /\ py_int (Sales.customer_id c) = Some customer_id
    /\ py_int (Sales.product_id c) = Some product_id
    /\ dict_get date_eqb (date_lookup w) sale_date = Some (FactSales.date_key f)
    /\ dict_get Z.eqb (customer_lookup w) customer_id = Some (FactSales.customer_key f)
    /\ dict_get Z.eqb (product_lookup w) product_id = Some (FactSales.product_key f)
    /\ FactSales.date_key f <> 0
    /\ FactSales.customer_key f <> 0
    /\ FactSales.product_key f <> 0
    /\ py_int (Sales.sale_id c) = Some (FactSales.sale_id f)
    /\ py_int (Sales.quantity c) = Some (FactSales.quantity f)
    /\ py_float (Sales.unit_price c) = Some (FactSales.unit_price f)
    /\ py_float (Sales.total_amount c) = Some (FactSales.total_amount f).

(** The cleaned row [c] is the raw row [r] with its identifier coerced to a
    whole number and its cost coerced to a number, 0 where it is not one. *)
Definition product_from {RT : Runtime} (r c : Products.row) : Prop :=
  (exists q, to_numeric (Products.product_id r) = Num q
             /\ Products.product_id c = Num (of_Z (to_int64 q)))
  /\ Products.product_name c = Products.product_name r
  /\ Products.category c = Products.category r
  /\ Products.subcategory c = Products.subcategory r
  /\ Products.unit_cost c = fillna (Num 0%Qc) (to_numeric (Products.unit_cost r)).

(** The cleaned customer [c] is the input row [r] with its identifier
    converted to a whole number. *)
Definition customer_from {RT : Runtime} (r c : Customers.row) : Prop :=
  (exists q, to_numeric (Customers.customer_id r) = Num q
             /\ Customers.customer_id c = Num (of_Z (to_int64 q)))
  /\ Customers.customer_name c = Customers.customer_name r
  /\ Customers.email c = Customers.email r
  /\ Customers.city c = Customers.city r
  /\ Customers.country c = Customers.country r.

(** The identifier is missing or a whole number that an int64 holds. *)
Definition whole_or_missing (c : cell) : Prop :=
  c = NA \/ exists q, c = Num q /\ is_whole q = true /\ in_int64 (truncate q) = true.

(** The row of a dimension table that a lookup of [load_fact_sales]
    answers with: the last fetched row with the natural key. *)
Definition last_customer (w : Warehouse) (customer_id : Z) : option DimCustomer.row :=
  find (fun row => customer_id =? DimCustomer.customer_id row) (rev (dim_customer w)).

Definition last_product (w : Warehouse) (product_id : Z) : option DimProduct.row :=
  find (fun row => product_id =? DimProduct.product_id row) (rev (dim_product w)).

Definition last_date (w : Warehouse) (sale_date : date) : option DimDate.row :=
  find (fun row => date_eqb sale_date (DimDate.sale_date row)) (rev (dim_date w)).

(** The three keys of the fact row are surrogate keys of stored dimension
    rows. *)
Definition linked (w : Warehouse) (f : FactSales.row) : Prop :=
  (exists d, In d (dim_date w) /\ DimDate.date_key d = FactSales.date_key f)
  /\ (exists c, In c (dim_customer w)
                /\ DimCustomer.customer_key c = FactSales.customer_key f)
  /\ (exists p, In p (dim_product w)
                /\ DimProduct.product_key p = FactSales.product_key f).

(** Each natural key and each [sale_id] is stored once, and every fact
    row is linked. *)
Definition consistent (w : Warehouse) : Prop :=
  NoDup (map DimCustomer.customer_id (dim_customer w))
  /\ NoDup (map DimProduct.product_id (dim_product w))
  /\ NoDup (map DimDate.sale_date (dim_date w))
  /\ NoDup (map FactSales.sale_id (fact_sales w))
  /\ (forall f, In f (fact_sales w) -> linked w f).

(** The fact record [f] carries the surrogate keys of the dimension rows
    [d], [c] and [p], which hold the date, the customer and the product of
    the sale [s]. *)
Definition resolved {RT : Runtime} (s : Sales.row) (d : DimDate.row)
    (c : DimCustomer.row) (p : DimProduct.row) (f : FactSales.row) : Prop :=
  to_date (Sales.sale_date s) = Some (Some (DimDate.sale_date d))
  /\ py_int (Sales.customer_id s) = Some (DimCustomer.customer_id c)
  /\ py_int (Sales.product_id s) = Some (DimProduct.product_id p)
  /\ FactSales.date_key f = DimDate.date_key d
  /\ FactSales.customer_key f = DimCustomer.customer_key c
  /\ FactSales.product_key f = DimProduct.product_key p
  /\ py_int (Sales.sale_id s) = Some (FactSales.sale_id f).

(** The row misses no cell. *)
Definition complete {R : Type} {F : Frame R} (r : R) : Prop :=
  forall col, In col columns -> cget col r <> NA.

(** ** The steps of an INSERT command *)

Section Steps.
Context {Row Rec Key : Type}.
Variable key_eqb : Key -> Key -> bool.
Variable row_key : Row -> Key.
Variable rec_key : Rec -> option Key.
Variable new_row : Z -> Key -> Rec -> Row.
Variable set : Rec -> Row -> Row.

(** The table stores a row under the key. *)
Definition has_key (k : Key) (table : list Row) : bool :=
  existsb (fun row => key_eqb k (row_key row)) table.

(** No key of [ks] is in [affected] or occurs twice. *)
Fixpoint distinct_from (affected ks : list Key) : bool :=
  match ks with
  | [] => true
  | k :: rest => negb (existsb (key_eqb k) affected) && distinct_from (k :: affected) rest
  end.

(** What one proposed row of a DO UPDATE command does to a stored row. *)
Definition update1 (p : Key * Rec) (row : Row) : Row :=
  if key_eqb (fst p) (row_key row) then set (snd p) row else row.

(** What it does to the table and the sequence. *)
Definition apply1 (st : list Row * Z) (p : Key * Rec) : list Row * Z :=
  if has_key (fst p) (fst st)
  then (map (update1 p) (fst st), snd st + 1)
  else (fst st ++ [new_row (snd st) (fst p) (snd p)], snd st + 1).

(** The proposed rows of a page, when the key of each record fits the
    column. *)
Definition convert (page : list Rec) : option (list (Key * Rec)) :=
  traverse (fun r => option_map (fun k => (k, r)) (rec_key r)) page.

(** The proposed rows of a page that a DO UPDATE command accepts: no key
    occurs twice. *)
Definition page_accepted (page : list Rec) : option (list (Key * Rec)) :=
  match convert page with
  | Some proposed =>
      if distinct_from [] (map fst proposed) then Some proposed else None
  | None => None
  end.

(** The proposed rows of the pages, when every page is accepted. *)
Definition proposals (pages : list (list Rec)) : option (list (Key * Rec)) :=
  option_map (@concat _) (traverse page_accepted pages).

(** The updates a stored row receives from the proposed rows. *)
Definition updates (ps : list (Key * Rec)) (row : Row) : Row :=
  fold_left (fun r p => update1 p r) ps row.

(** The last proposed row with a key. *)
Definition last_match (k : Key) (ps : list (Key * Rec)) : option (Key * Rec) :=
  find (fun p => key_eqb (fst p) k) (rev ps).

(** What one proposed row of a DO NOTHING command does to the table and
    the sequence. *)
Definition apply0 (st : list Row * Z) (p : Key * Rec) : list Row * Z :=
  if has_key (fst p) (fst st)
  then (fst st, snd st + 1)
  else (fst st ++ [new_row (snd st) (fst p) (snd p)], snd st + 1).

(** The proposed rows of the pages of a DO NOTHING command. *)
Definition proposals0 (pages : list (list Rec)) : option (list (Key * Rec)) :=
  option_map (@concat _) (traverse convert pages).

(** The record proposes a row under the key. *)
Definition proposes (k : Key) (r : Rec) : bool :=
  match rec_key r with
  | Some k' => key_eqb k' k
  | None => false
  end.

(** The last record of a batch that proposes a row under the key. *)
Definition last_record (k : Key) (df : list Rec) : option Rec :=
  find (proposes k) (rev df).

(** A stored row after the DO UPDATE of a batch. *)
Definition upsert_row (df : list Rec) (old : Row) : Row :=
  match last_record (row_key old) df with
  | Some r => set r old
  | None => old
  end.

End Steps.

(** ** The upserts of the two dimension loads *)

(** The key under which a record is proposed to [dim_customer] and to
    [dim_product]. *)
Definition customer_key_of {RT : Runtime} (r : Customers.row) : option Z :=
  sql_integer (Customers.customer_id r).

Definition product_key_of {RT : Runtime} (r : Products.row) : option Z :=
  sql_integer (Products.product_id r).

(** A stored customer and a stored product after the upsert of a frame. *)
Definition customer_upserted {RT : Runtime} (now : Z) (customers_df : list Customers.row)
    : DimCustomer.row -> DimCustomer.row :=
  upsert_row Z.eqb DimCustomer.customer_id customer_key_of (set_customer now) customers_df.

Definition product_upserted {RT : Runtime} (now : Z) (products_df : list Products.row)
    : DimProduct.row -> DimProduct.row :=
  upsert_row Z.eqb DimProduct.product_id product_key_of (set_product now) products_df.

(** ** A runtime and inputs for the examples *)

(** The value of a decimal digit. *)
Definition digit (c : ascii) : option Z :=
  let n := Z.of_N (N_of_ascii c) in
  if (48 <=? n) && (n <=? 57) then Some (n - 48) else None.

(** The number written by a string of decimal digits. *)
Fixpoint digits (acc : Z) (s : string) : option Z :=
  match s with
  | EmptyString => Some acc
  | String c rest =>
      match digit c with
      | None => None
      | Some d => digits (10 * acc + d) rest
      end
  end.

(** A date written [YYYY-MM-DD], at midnight. *)
Definition iso_date (s : string) : option Timestamp :=
  match digits 0 (substring 0 4 s), digits 0 (substring 5 2 s), digits 0 (substring 8 2 s) with
  | Some y, Some m, Some d =>
      if (String.length s =? 10)%nat && String.eqb (substring 4 1 s) "-"
         && String.eqb (substring 7 1 s) "-"
      then Some (mkts (mkdate y m d) 0)
      else None
  | _, _, _ => None
  end.

(** A runtime that reads [YYYY-MM-DD] dates, unsigned whole numbers and
    the usual spellings of the infinities and of the missing timestamp,
    takes every other text as not numeric, and leaves the least int64
    where a cast overflows. *)
Definition example_runtime : Runtime := {|
  parse_numeric := fun s =>
    match s with
    | EmptyString => None
    | _ => option_map of_Z (digits 0 s)
    end;
  parse_infinity := fun s =>
    if existsb (String.eqb s) ["inf"; "+inf"; "Infinity"; "+Infinity"]%string
    then Some false
    else if existsb (String.eqb s) ["-inf"; "-Infinity"]%string then Some true
    else None;
  nat_string := fun s =>
    existsb (String.eqb s) ["NaT"; "nat"; "NAT"; "nan"; "NaN"; "NAN"]%string;
  parse_datetime_in := fun _ c => match c with Str s => iso_date s | _ => None end;
  parse_datetime := fun c => match c with Str s => iso_date s | _ => None end;
  int_of_string := fun s => match s with EmptyString => None | _ => digits 0 s end;
  float_of_string := fun s =>
    match s with
    | EmptyString => None
    | _ => option_map of_Z (digits 0 s)
    end;
  cast_integer := fun _ => None;
  int64_overflow := fun _ => - 2 ^ 63
|}.

(** A number written as a fraction. *)
Definition num (n : Z) (d : positive) : cell := Num (Q2Qc (n # d)).

Definition empty_warehouse : Warehouse := mkWarehouse [] [] [] [] 1 1 1.

(** The end-to-end scenario: one customer, one product, one sale. *)
Definition alice : Customers.row :=
  Customers.mk (num 1 1) (Str "Alice") (Str "a@x.com") (Str "NY") (Str "US").

Definition widget : Products.row :=
  Products.mk (num 10 1) (Str "Widget") (Str "Tools") (Str "Hand") (num 250 100).

Definition sale_100 : Sales.row :=
  Sales.mk (num 100 1) (Str "2024-03-15") (num 1 1) (num 10 1) (num 3 1)
    (num 999 100) (num 2997 100).

(** The sale of the scenario once cleaned, and the row of its date. *)
Definition march_15 : Timestamp := mkts (mkdate 2024 3 15) 0.

Definition cleaned_sale_100 : Sales.row :=
  Sales.mk (num 100 1) (Time march_15) (num 1 1) (num 10 1) (num 3 1)
    (num 999 100) (num 2997 100).

Definition march_15_row : DateDim.row :=
  DateDim.mk (mkdate 2024 3 15) 15 3 1 2024 "March" "Q1" "Friday" false.

(** A sale on the leap day of 2024, and the row of its date. *)
Definition leap_day_sale : Sales.row :=
  Sales.mk (num 101 1) (Time (mkts (mkdate 2024 2 29) 0)) (num 1 1) (num 10 1)
    (num 1 1) (num 5 1) (num 5 1).

Definition leap_day_row : DateDim.row :=
  DateDim.mk (mkdate 2024 2 29) 29 2 1 2024 "February" "Q1" "Thursday" false.

(** Four sales whose [total_amount] column is text: a valid one, one with
    quantity 0, one with a negative unit price, one whose total amount is
    not a number; and the valid one once cleaned. *)
Definition good_sale : Sales.row :=
  Sales.mk (num 200 1) (Str "2024-03-15") (num 1 1) (num 10 1) (num 2 1)
    (num 5 1) (Str "10").

Definition zero_quantity_sale : Sales.row :=
  Sales.mk (num 201 1) (Str "2024-03-15") (num 1 1) (num 10 1) (num 0 1)
    (num 5 1) (Str "10").

Definition negative_price_sale : Sales.row :=
  Sales.mk (num 202 1) (Str "2024-03-15") (num 1 1) (num 10 1) (num 1 1)
    (num (-5) 1) (Str "10").

Definition text_total_sale : Sales.row :=
  Sales.mk (num 203 1) (Str "2024-03-15") (num 1 1) (num 10 1) (num 1 1)
    (num 5 1) (Str "abc").

Definition cleaned_good_sale : Sales.row :=
  Sales.mk (num 200 1) (Time march_15) (num 1 1) (num 10 1) (num 2 1)
    (num 5 1) (Num (of_Z 10)).

(** Three products: one without [unit_cost], one with a negative
    [unit_cost], one whose [unit_cost] is not a number. *)
Definition no_cost_product : Products.row :=
  Products.mk (num 11 1) (Str "Gadget") (Str "Tools") (Str "Hand") NA.

Definition negative_cost_product : Products.row :=
  Products.mk (num 12 1) (Str "Refund") (Str "Tools") (Str "Hand") (num (-5) 2).

Definition text_cost_product : Products.row :=
  Products.mk (num 13 1) (Str "Sample") (Str "Tools") (Str "Hand") (Str "free").

(** The product with the negative cost once cleaned. *)
Definition cleaned_negative_cost_product : Products.row :=
  Products.mk (Num (of_Z 12)) (Str "Refund") (Str "Tools") (Str "Hand") (num (-5) 2).

(** A warehouse in which the customer of the scenario has the surrogate
    key 0. *)
Definition zero_key_warehouse : Warehouse :=
  mkWarehouse
    [DimCustomer.mk 0 1 (Str "Alice") (Str "a@x.com") (Str "NY") (Str "US") 5]
    [DimProduct.mk 1 10 (Str "Widget") (Str "Tools") (Str "Hand") (num 5 2) 6]
    [DimDate.mk 1 march_15_row]
    [] 1 2 2.

(** A warehouse that holds the fact of sale 100 with other measures and
    another product. *)
Definition stale_fact_warehouse : Warehouse :=
  mkWarehouse
    [DimCustomer.mk 1 1 (Str "Alice") (Str "a@x.com") (Str "NY") (Str "US") 5]
    [DimProduct.mk 1 10 (Str "Widget") (Str "Tools") (Str "Hand") (num 5 2) 6]
    [DimDate.mk 1 march_15_row]
    [FactSales.mk 100 1 1 7 1 (Q2Qc (1 # 1)) (Q2Qc (1 # 1))]
    2 2 2.

(** The warehouse that the fact load of the sale of the scenario leaves of
    [stale_fact_warehouse]. *)
Definition refreshed_fact_warehouse : Warehouse :=
  mkWarehouse
    [DimCustomer.mk 1 1 (Str "Alice") (Str "a@x.com") (Str "NY") (Str "US") 5]
    [DimProduct.mk 1 10 (Str "Widget") (Str "Tools") (Str "Hand") (num 5 2) 6]
    [DimDate.mk 1 march_15_row]
    [FactSales.mk 100 1 1 7 3 (Q2Qc (999 # 100)) (Q2Qc (2997 # 100))]
    2 2 2.

(** The warehouse after a first run of the scenario at times 5 and 6, and
    after a second run at times 7 and 8. *)
Definition first_run_warehouse : Warehouse :=
  fst (main (RT := example_runtime) 5 6 empty_warehouse [sale_100] [alice] [widget]).

Definition second_run_warehouse : Warehouse :=
  fst (main (RT := example_runtime) 7 8 first_run_warehouse [sale_100] [alice] [widget]).

(** A second customer, for the examples with two rows. *)
Definition bob : Customers.row :=
  Customers.mk (num 2 1) (Str "Bob") (Str "b@x.com") (Str "LA") (Str "US").

(** A customer with a missing city. *)
Definition carol : Customers.row :=
  Customers.mk (num 3 1) (Str "Carol") (Str "c@x.com") NA (Str "US").

(** The customer of the scenario after a move, and the warehouse that the
    load of this record and of the second customer at time 9 leaves of
    [stale_fact_warehouse]. *)
Definition alice_moved : Customers.row :=
  Customers.mk (num 1 1) (Str "Alice") (Str "a@x.com") (Str "LA") (Str "US").

Definition moved_warehouse : Warehouse :=
  mkWarehouse
    [DimCustomer.mk 1 1 (Str "Alice") (Str "a@x.com") (Str "LA") (Str "US") 9;
     DimCustomer.mk 2 2 (Str "Bob") (Str "b@x.com") (Str "LA") (Str "US") 9]
    (dim_product stale_fact_warehouse) (dim_date stale_fact_warehouse)
    (fact_sales stale_fact_warehouse) 4 2 2.

(** The warehouse that the load of the product of the scenario at time 9
    leaves of [stale_fact_warehouse]. *)
Definition repriced_warehouse : Warehouse :=
  mkWarehouse
    (dim_customer stale_fact_warehouse)
    [DimProduct.mk 1 10 (Str "Widget") (Str "Tools") (Str "Hand") (num 250 100) 9]
    (dim_date stale_fact_warehouse) (fact_sales stale_fact_warehouse) 2 3 2.

(** A sale whose date is the text that reads as the missing timestamp,
    and the row the cleaning leaves of it. *)
Definition nat_date_sale : Sales.row :=
  Sales.mk (num 204 1) (Str "NaT") (num 1 1) (num 10 1) (num 2 1) (num 5 1) (num 10 1).

Definition cleaned_nat_date_sale : Sales.row :=
  Sales.mk (num 204 1) NA (num 1 1) (num 10 1) (num 2 1) (num 5 1) (num 10 1).

(** Two customers whose identifiers, 1.2 and 1.5, have the same whole part. *)
Definition dave : Customers.row :=
  Customers.mk (num 6 5) (Str "Dave") (Str "d@x.com") (Str "SF") (Str "US").

Definition erin : Customers.row :=
  Customers.mk (num 3 2) (Str "Erin") (Str "e@x.com") (Str "DC") (Str "US").

(** Three customers at the limits of the casts: an identifier that is
    infinite, one of 10^19, beyond int64, and one of 3000000000, beyond
    the 32 bits of an INTEGER column. *)
Definition infinite_id_customer : Customers.row :=
  Customers.mk (Str "inf") (Str "Frank") (Str "f@x.com") (Str "NY") (Str "US").

Definition huge_id_customer : Customers.row :=
  Customers.mk (num (10 ^ 19) 1) (Str "Grace") (Str "g@x.com") (Str "NY") (Str "US").

Definition wide_id_customer : Customers.row :=
  Customers.mk (num 3000000000 1) (Str "Heidi") (Str "h@x.com") (Str "NY") (Str "US").

(** A product whose identifier is minus infinity, and a sale whose
    quantity is infinite, which the cleaning keeps. *)
Definition infinite_id_product : Products.row :=
  Products.mk (Str "-Infinity") (Str "Ghost") (Str "Tools") (Str "Hand") (num 1 1).

Definition infinite_quantity_sale : Sales.row :=
  Sales.mk (num 205 1) (Time march_15) (num 1 1) (num 10 1) (Str "inf")
    (num 5 1) (num 10 1).

Definition cleaned_infinite_quantity_sale : Sales.row :=
  Sales.mk (num 205 1) (Time march_15) (num 1 1) (num 10 1) (Inf false)
    (num 5 1) (num 10 1).

(** The columns are independent: writing one of them changes the cell it
    is read from and no other. *)
Definition lawful {R : Type} (cols : list (column R)) : Prop :=
  forall i j ci cj,
    nth_error cols i = Some ci -> nth_error cols j = Some cj ->
    forall v r, cget cj (cset ci v r) = if Nat.eqb i j then v else cget cj r.

(** The value the fill strategy writes into the missing cells of a column. *)
Definition fill_value (series : list cell) : cell :=
  if numeric_dtype series then Num 0%Qc else Str "Unknown".

(** * Properties *)

(** ** Equality tests *)

Lemma Qc_eqb_eq (a b : Qc) : Qc_eqb a b = true <-> a = b.
Proof.
  unfold Qc_eqb. rewrite Qeq_bool_iff. split.
  - intros E. now apply Qc_is_canon.
  - intros ->. reflexivity.
Qed.

Lemma date_eqb_eq (a b : date) : date_eqb a b = true <-> a = b.
Proof.
  unfold date_eqb. rewrite !andb_true_iff, !Z.eqb_eq. split.
  - destruct a, b; simpl. intros [[-> ->] ->]. reflexivity.
  - intros ->. auto.
Qed.

Lemma Timestamp_eqb_eq (a b : Timestamp) : Timestamp_eqb a b = true <-> a = b.
Proof.
  unfold Timestamp_eqb. rewrite andb_true_iff, date_eqb_eq, Z.eqb_eq. split.
  - destruct a, b; simpl. intros [-> ->]. reflexivity.
  - intros ->. auto.
Qed.

Lemma cell_eqb_eq (a b : cell) : cell_eqb a b = true <-> a = b.
Proof.
  destruct a, b; simpl; try (split; [discriminate | congruence]).
  - tauto.
  - rewrite Qc_eqb_eq. split; congruence.
  - rewrite Bool.eqb_true_iff. split; congruence.
  - rewrite String.eqb_eq. split; congruence.
  - rewrite Timestamp_eqb_eq. split; congruence.
Qed.

Lemma cells_eqb_eq (a b : list cell) : cells_eqb a b = true <-> a = b.
Proof.
  revert b. induction a as [|x a IH]; intros [|y b]; simpl;
    try (split; [discriminate | congruence]).
  - tauto.
  - rewrite andb_true_iff, cell_eqb_eq, IH. split.
    + intros [-> ->]. reflexivity.
    + intros E. injection E. auto.
Qed.

(** ** First occurrences *)

Section KeepFirst.
Context {A K : Type} (eqb : K -> K -> bool) (key : A -> K).
Hypothesis eqb_eq : forall a b, eqb a b = true <-> a = b.

Lemma existsb_eqb_In (k : K) (seen : list K) :
  existsb (eqb k) seen = true <-> In k seen.
Proof.
  rewrite existsb_exists. split.
  - intros [x [Hx E]]. apply eqb_eq in E. now subst.
  - intros Hk. exists k. split; [assumption | now apply eqb_eq].
Qed.

Lemma keep_first_In (seen : list K) (l : list A) (x : A) :
  In x (keep_first eqb key seen l) -> In x l /\ ~ In (key x) seen.
Proof.
  revert seen. induction l as [|y l IH]; simpl; intros seen Hx; [contradiction|].
  destruct (existsb (eqb (key y)) seen) eqn:E.
  - apply IH in Hx. tauto.
  - destruct Hx as [-> | Hx].
    + split; [now left|]. rewrite <- existsb_eqb_In. congruence.
    + apply IH in Hx. simpl in Hx. tauto.
Qed.

Lemma keep_first_NoDup (seen : list K) (l : list A) :
  NoDup (map key (keep_first eqb key seen l)).
Proof.
  revert seen. induction l as [|y l IH]; simpl; intros seen; [constructor|].
  destruct (existsb (eqb (key y)) seen); [apply IH|].
  simpl. constructor; [|apply IH].
  rewrite in_map_iff. intros [x [E Hx]].
  apply keep_first_In in Hx. simpl in Hx. intuition congruence.
Qed.

Lemma keep_first_find (seen : list K) (l : list A) (r : A) :
  In r (keep_first eqb key seen l) ->
  find (fun x => eqb (key x) (key r)) l = Some r.
Proof.
  revert seen. induction l as [|y l IH]; simpl; intros seen Hr; [contradiction|].
  destruct (existsb (eqb (key y)) seen) eqn:E.
  - destruct (eqb (key y) (key r)) eqn:Ek; [|now apply (IH seen)].
    apply eqb_eq in Ek. apply keep_first_In in Hr.
    apply existsb_eqb_In in E. rewrite Ek in E. tauto.
  - destruct Hr as [-> | Hr].
    + replace (eqb (key r) (key r)) with true; [reflexivity|].
      symmetry. now apply eqb_eq.
    + destruct (eqb (key y) (key r)) eqn:Ek; [|now apply (IH (key y :: seen))].
      apply eqb_eq in Ek. apply keep_first_In in Hr. simpl in Hr. tauto.
Qed.

Lemma keep_first_complete (seen : list K) (l : list A) (r : A) :
  In r l -> ~ In (key r) seen ->
  exists r', In r' (keep_first eqb key seen l) /\ key r' = key r.
Proof.
  revert seen. induction l as [|y l IH]; simpl; intros seen Hr Hs; [contradiction|].
  destruct (existsb (eqb (key y)) seen) eqn:E.
  - destruct Hr as [-> | Hr]; [|now apply IH].
    apply existsb_eqb_In in E. contradiction.
  - destruct Hr as [-> | Hr]; [exists r; simpl; auto|].
    destruct (eqb (key y) (key r)) eqn:Ek.
    + apply eqb_eq in Ek. exists y. simpl. auto.
    + destruct (IH (key y :: seen) Hr) as [r' [H1 H2]].
      * simpl. intros [E' | E']; [|contradiction].
        apply eqb_eq in E'. congruence.
      * exists r'. simpl. auto.
Qed.

Lemma keep_first_sublist (seen : list K) (l : list A) :
  incl (keep_first eqb key seen l) l.
Proof. intros x Hx. now apply keep_first_In in Hx. Qed.

End KeepFirst.

(** C5.  [remove_duplicates] keeps at most one row for each value of the
    cells under [subset] (all the columns when [subset] is [None]); the row
    it keeps for a value is the first row of the input with that value, and
    every value of the input keeps a row. *)
Theorem remove_duplicates_first_occurrence :
  forall (R : Type) (F : Frame R) (df : list R) (subset : option (list (column R))),
    let key := values (subset_or_all subset) in
    let out := remove_duplicates df subset in
    NoDup (map key out)
    /\ (forall r, In r out -> find (fun x => cells_eqb (key x) (key r)) df = Some r)
    /\ (forall r, In r df -> exists r', In r' out /\ key r' = key r).
Proof.
  intros R F df subset key out. subst out. unfold remove_duplicates, drop_duplicates.
  fold key. repeat split.
  - apply keep_first_NoDup. exact cells_eqb_eq.
  - intros r Hr. eapply keep_first_find; [exact cells_eqb_eq | exact Hr].
  - intros r Hr. apply keep_first_complete; [exact cells_eqb_eq | exact Hr | intros []].
Qed.

(** ** Lists *)

Lemma traverse_Forall2 {A B : Type} (f : A -> option B) (l : list A) (l' : list B) :
  traverse f l = Some l' <-> Forall2 (fun x y => f x = Some y) l l'.
Proof.
  revert l'. induction l as [|x l IH]; simpl; intros l'.
  - split.
    + intros E. injection E as <-. constructor.
    + intros F. inversion F. reflexivity.
  - destruct (f x) as [y|] eqn:Ex.
    + destruct (traverse f l) as [ys|] eqn:El.
      * split.
        -- intros E. injection E as <-. constructor; [assumption | now apply IH].
        -- intros F. inversion F as [|? z ? zs Hz Hzs]; subst.
           apply IH in Hzs. congruence.
      * split; [discriminate|].
        intros F. inversion F as [|? z ? zs Hz Hzs]; subst.
        apply IH in Hzs. discriminate.
    + split; [discriminate|].
      intros F. inversion F; subst. congruence.
Qed.

Lemma Forall2_In_r {A B : Type} (P : A -> B -> Prop) (l : list A) (l' : list B) (y : B) :
  Forall2 P l l' -> In y l' -> exists x, In x l /\ P x y.
Proof.
  induction 1 as [|a b l l' Hab _ IH]; simpl; [contradiction|].
  intros [<- | Hy].
  - exists a. auto.
  - destruct (IH Hy) as [x [Hx Px]]. exists x. auto.
Qed.

Lemma Forall2_In_l {A B : Type} (P : A -> B -> Prop) (l : list A) (l' : list B) (x : A) :
  Forall2 P l l' -> In x l -> exists y, In y l' /\ P x y.
Proof.
  induction 1 as [|a b l l' Hab _ IH]; simpl; [contradiction|].
  intros [<- | Hx].
  - exists b. auto.
  - destruct (IH Hx) as [y [Hy Py]]. exists y. auto.
Qed.

Lemma traverse_In {A B : Type} (f : A -> option B) (l : list A) (l' : list B) (y : B) :
  traverse f l = Some l' -> In y l' -> exists x, In x l /\ f x = Some y.
Proof. rewrite traverse_Forall2. apply Forall2_In_r. Qed.

Lemma traverse_In_l {A B : Type} (f : A -> option B) (l : list A) (l' : list B) (x : A) :
  traverse f l = Some l' -> In x l -> exists y, In y l' /\ f x = Some y.
Proof. rewrite traverse_Forall2. apply Forall2_In_l. Qed.

Lemma traverse_length {A B : Type} (f : A -> option B) (l : list A) (l' : list B) :
  traverse f l = Some l' -> length l' = length l.
Proof.
  rewrite traverse_Forall2. intros F. symmetry. eapply Forall2_length. exact F.
Qed.

Lemma traverse_total {A B : Type} (f : A -> option B) (l : list A) :
  (forall x, In x l -> exists y, f x = Some y) -> exists l', traverse f l = Some l'.
Proof.
  induction l as [|x l IH]; simpl; intros Hf; [now exists []|].
  destruct (Hf x (or_introl eq_refl)) as [y ->].
  destruct IH as [ys ->]; [intros z Hz; apply Hf; now right|].
  now exists (y :: ys).
Qed.

(** ** The date dimension *)

Lemma insert_row_perm (r : DateDim.row) (l : list DateDim.row) :
  Permutation (insert_row r l) (r :: l).
Proof.
  induction l as [|x l IH]; simpl; [reflexivity|].
  destruct (date_leb _ _); [reflexivity|].
  rewrite IH. apply perm_swap.
Qed.

Lemma sort_values_perm (l : list DateDim.row) : Permutation (sort_values l) l.
Proof.
  induction l as [|x l IH]; simpl; [reflexivity|].
  rewrite insert_row_perm. now constructor.
Qed.

Lemma date_leb_total (a b : date) : date_leb a b = false -> date_leb b a = true.
Proof.
  unfold date_leb. intros E.
  apply orb_false_iff in E. destruct E as [E1 E2].
  apply Z.ltb_ge in E1.
  destruct (Z.eq_dec (year a) (year b)) as [Ey | Ey].
  - rewrite Ey in *. rewrite Z.eqb_refl in *. simpl in E2.
    apply orb_false_iff in E2. destruct E2 as [E2 E3]. apply Z.ltb_ge in E2.
    destruct (Z.eq_dec (month a) (month b)) as [Em | Em].
    + rewrite Em in *. rewrite Z.eqb_refl in *. simpl in E3.
      apply Z.leb_gt in E3.
      replace (day b <=? day a) with true by (symmetry; apply Z.leb_le; lia).
      rewrite !orb_true_r. reflexivity.
    + replace (month b <? month a) with true by (symmetry; apply Z.ltb_lt; lia).
      rewrite orb_true_r. reflexivity.
  - replace (year b <? year a) with true by (symmetry; apply Z.ltb_lt; lia).
    reflexivity.
Qed.

Lemma date_leb_trans (a b c : date) :
  date_leb a b = true -> date_leb b c = true -> date_leb a c = true.
Proof.
  unfold date_leb.
  rewrite !orb_true_iff, !andb_true_iff, !orb_true_iff, !andb_true_iff,
    !Z.ltb_lt, !Z.eqb_eq, !Z.leb_le.
  lia.
Qed.

Lemma date_leb_antisym (a b : date) :
  date_leb a b = true -> date_leb b a = true -> a = b.
Proof.
  unfold date_leb.
  rewrite !orb_true_iff, !andb_true_iff, !orb_true_iff, !andb_true_iff,
    !Z.ltb_lt, !Z.eqb_eq, !Z.leb_le.
  destruct a, b; simpl. intros H1 H2. f_equal; lia.
Qed.

Lemma insert_row_sorted (r : DateDim.row) (l : list DateDim.row) :
  StronglySorted date_le l -> StronglySorted date_le (insert_row r l).
Proof.
  induction 1 as [|x l Hs IH Hx]; simpl.
  - constructor; constructor.
  - destruct (date_leb (DateDim.sale_date r) (DateDim.sale_date x)) eqn:E.
    + constructor; [now constructor|].
      constructor; [exact E|].
      rewrite Forall_forall in *. intros y Hy.
      unfold date_le in *. eapply date_leb_trans; [exact E | now apply Hx].
    + constructor; [exact IH|].
      rewrite Forall_forall in *. intros y Hy.
      apply (Permutation_in _ (insert_row_perm r l)) in Hy.
      destruct Hy as [<- | Hy]; [|now apply Hx].
      now apply date_leb_total.
Qed.

Lemma sort_values_sorted (l : list DateDim.row) : StronglySorted date_le (sort_values l).
Proof.
  induction l as [|x l IH]; simpl; [constructor | now apply insert_row_sorted].
Qed.

Lemma date_record_inv {RT : Runtime} (c : cell) (r : DateDim.row) :
  date_record c = Some r ->
  exists t, to_datetime c = Some t /\ record_of (ts_date t) r.
Proof.
  unfold date_record. destruct (to_datetime c) as [t|]; [|discriminate].
  destruct (getitem month_names _) as [mn|] eqn:Em; [|discriminate].
  destruct (getitem day_names _) as [dn|] eqn:Ed; [|discriminate].
  intros E. injection E as <-. exists t. unfold record_of. simpl. tauto.
Qed.

Lemma record_of_unique (d : date) (r1 r2 : DateDim.row) :
  record_of d r1 -> record_of d r2 -> r1 = r2.
Proof.
  unfold record_of. destruct r1, r2; simpl.
  intros (-> & -> & -> & -> & -> & E1 & -> & E2 & ->)
         (-> & -> & -> & -> & -> & E3 & -> & E4 & ->).
  rewrite E1 in E3. rewrite E2 in E4. congruence.
Qed.

Lemma create_date_dimension_inv {RT : Runtime} (sales_df : list Sales.row) (dim : list DateDim.row) :
  create_date_dimension sales_df = Some dim ->
  exists date_records,
    traverse date_record (unique (map Sales.sale_date sales_df)) = Some date_records
    /\ date_records <> []
    /\ dim = sort_values date_records.
Proof.
  unfold create_date_dimension.
  destruct (traverse date_record _) as [recs|]; [|discriminate].
  destruct recs as [|r recs]; [discriminate|].
  intros E. injection E as <-. exists (r :: recs). repeat split. discriminate.
Qed.

Lemma create_date_dimension_In {RT : Runtime} (sales_df : list Sales.row)
    (dim : list DateDim.row) (r : DateDim.row) :
  create_date_dimension sales_df = Some dim -> In r dim ->
  exists row t, In row sales_df /\ to_datetime (Sales.sale_date row) = Some t
                /\ record_of (ts_date t) r.
Proof.
  intros E Hr. apply create_date_dimension_inv in E.
  destruct E as (recs & E & _ & ->).
  apply (Permutation_in _ (sort_values_perm recs)) in Hr.
  destruct (traverse_In _ _ _ _ E Hr) as (c & Hc & Ec).
  apply (keep_first_sublist cell_eqb _ cell_eqb_eq) in Hc. apply in_map_iff in Hc.
  destruct Hc as (row & <- & Hrow).
  apply date_record_inv in Ec. destruct Ec as (t & Et & Ht).
  exists row, t. auto.
Qed.

Lemma weekday_range (d : date) : 0 <= weekday d < 7.
Proof. unfold weekday. apply Z.mod_pos_bound. lia. Qed.

(** C3.  Every row of the date dimension has [quarter = (month-1)//3 + 1]
    for the month of its date, whatever the year: months 1 to 3 give
    quarter 1, months 4 to 6 quarter 2, months 7 to 9 quarter 3 and months
    10 to 12 quarter 4; [quarter_name] is "Q" followed by the quarter. *)
Theorem quarter_of_month :
  forall (RT : Runtime) (sales_df : list Sales.row) (dim : list DateDim.row)
         (r : DateDim.row),
    create_date_dimension sales_df = Some dim ->
    In r dim ->
    DateDim.month r = month (DateDim.sale_date r)
    /\ DateDim.quarter r = (DateDim.month r - 1) / 3 + 1
    /\ DateDim.quarter_name r = ("Q" ++ str (DateDim.quarter r))%string
    /\ (In (DateDim.month r) [1; 2; 3] ->
        DateDim.quarter r = 1 /\ DateDim.quarter_name r = "Q1"%string)
    /\ (In (DateDim.month r) [4; 5; 6] ->
        DateDim.quarter r = 2 /\ DateDim.quarter_name r = "Q2"%string)
    /\ (In (DateDim.month r) [7; 8; 9] ->
        DateDim.quarter r = 3 /\ DateDim.quarter_name r = "Q3"%string)
    /\ (In (DateDim.month r) [10; 11; 12] ->
        DateDim.quarter r = 4 /\ DateDim.quarter_name r = "Q4"%string).
Proof.
  intros RT sales_df dim r E Hr.
  destruct (create_date_dimension_In _ _ _ E Hr) as (row & t & _ & _ & Hrec).
  destruct Hrec as (Hd & _ & Hm & Hq & _ & _ & Hn & _).
  rewrite Hd, Hq, Hn, Hm.
  repeat split; try reflexivity;
    simpl In in *;
    repeat match goal with
           | D : _ \/ _ |- _ => destruct D as [D | D]
           | D : False |- _ => contradiction
           | D : _ = month _ |- _ => rewrite <- D; reflexivity
           end.
Qed.

(** C4.  Every row of the date dimension takes [day_of_week] from the seven
    names at the weekday of its date (Monday is 0, Sunday is 6), and
    [is_weekend] is true exactly on weekdays 5 and 6, that is when the name
    is Saturday or Sunday; the 29th of February 2024 is a Thursday and not
    a weekend. *)
Theorem weekend_flag :
  forall (RT : Runtime) (sales_df : list Sales.row) (dim : list DateDim.row)
         (r : DateDim.row),
    create_date_dimension sales_df = Some dim ->
    In r dim ->
    let w := weekday (DateDim.sale_date r) in
    0 <= w <= 6
    /\ nth_error day_names (Z.to_nat w) = Some (DateDim.day_of_week r)
    /\ (DateDim.is_weekend r = true <-> w = 5 \/ w = 6)
    /\ (DateDim.is_weekend r = true <->
        DateDim.day_of_week r = "Saturday"%string
        \/ DateDim.day_of_week r = "Sunday"%string)
    /\ (DateDim.sale_date r = mkdate 2024 2 29 ->
        DateDim.day_of_week r = "Thursday"%string /\ DateDim.is_weekend r = false).
Proof.
  intros RT sales_df dim r E Hr w.
  destruct (create_date_dimension_In _ _ _ E Hr) as (row & t & _ & _ & Hrec).
  destruct Hrec as (Hd & _ & _ & _ & _ & _ & _ & Hn & Hw).
  rewrite <- Hd in Hn, Hw. fold w in Hn, Hw.
  assert (Hrange : 0 <= w < 7) by apply weekday_range.
  assert (Hnth : nth_error day_names (Z.to_nat w) = Some (DateDim.day_of_week r)).
  { unfold getitem in Hn.
    replace ((0 <=? w) && (w <? Z.of_nat (length day_names))) with true in Hn; [exact Hn|].
    symmetry. apply andb_true_iff. rewrite Z.leb_le, Z.ltb_lt. simpl. lia. }
  split; [lia|]. split; [exact Hnth|].
  rewrite Hw. split; [rewrite Z.leb_le; lia|]. split.
  - assert (Hcases : w = 0 \/ w = 1 \/ w = 2 \/ w = 3 \/ w = 4 \/ w = 5 \/ w = 6) by lia.
    clearbody w.
    destruct Hcases as [-> | [-> | [-> | [-> | [-> | [-> | ->]]]]]];
      simpl in Hnth; injection Hnth as <-; simpl;
      split; try discriminate; try tauto;
      intros [D | D]; discriminate.
  - intros Ed. subst w. rewrite Ed in *. simpl in Hnth. injection Hnth as <-.
    split; reflexivity.
Qed.

Lemma quarter_of_month_witness :
  create_date_dimension (RT := example_runtime) [cleaned_sale_100] = Some [march_15_row]
  /\ In march_15_row [march_15_row]
  /\ DateDim.quarter march_15_row = (DateDim.month march_15_row - 1) / 3 + 1
  /\ DateDim.quarter_name march_15_row = "Q1"%string.
Proof.
  split; [reflexivity|]. split; [left; reflexivity|].
  pose proof (quarter_of_month example_runtime [cleaned_sale_100] [march_15_row]
                march_15_row eq_refl (or_introl eq_refl)) as (_ & Hq & _ & H123 & _).
  split; [exact Hq|].
  apply H123. simpl. auto.
Defined.

Lemma weekend_flag_witness :
  create_date_dimension (RT := example_runtime) [leap_day_sale; cleaned_sale_100]
  = Some [leap_day_row; march_15_row]
  /\ In leap_day_row [leap_day_row; march_15_row]
  /\ DateDim.day_of_week leap_day_row = "Thursday"%string
  /\ DateDim.is_weekend leap_day_row = false.
Proof.
  split; [reflexivity|]. split; [left; reflexivity|].
  apply (weekend_flag example_runtime [leap_day_sale; cleaned_sale_100]
           [leap_day_row; march_15_row] leap_day_row eq_refl (or_introl eq_refl)).
  reflexivity.
Defined.

Lemma traverse_perm {A B : Type} (f : A -> option B) (l l' : list A) :
  Permutation l l' ->
  forall r, traverse f l = Some r ->
  exists r', traverse f l' = Some r' /\ Permutation r r'.
Proof.
  induction 1 as [|x l l' _ IH|x y l|l l' l'' _ IH1 _ IH2]; simpl; intros r E.
  - injection E as <-. now exists [].
  - destruct (f x) as [b|]; [|discriminate].
    destruct (traverse f l) as [bs|]; [|discriminate].
    injection E as <-. destruct (IH bs eq_refl) as (bs' & -> & P).
    exists (b :: bs'). split; [reflexivity | now constructor].
  - destruct (f y) as [b|]; [|discriminate].
    destruct (f x) as [a|]; [|discriminate].
    destruct (traverse f l) as [bs|]; [|discriminate].
    injection E as <-. exists (a :: b :: bs). split; [reflexivity | apply perm_swap].
  - destruct (IH1 r E) as (r' & E' & P').
    destruct (IH2 r' E') as (r'' & E'' & P'').
    exists r''. split; [assumption | now transitivity r'].
Qed.

Lemma unique_In (l : list cell) (c : cell) : In c (unique l) <-> In c l.
Proof.
  unfold unique. split.
  - apply (keep_first_sublist cell_eqb _ cell_eqb_eq).
  - intros Hc.
    destruct (keep_first_complete cell_eqb (fun c => c) cell_eqb_eq [] l c Hc) as (c' & H1 & H2).
    + intros [].
    + now subst.
Qed.

Lemma unique_NoDup (l : list cell) : NoDup (unique l).
Proof.
  rewrite <- (map_id (unique l)).
  apply (keep_first_NoDup cell_eqb (fun c => c) cell_eqb_eq).
Qed.

Lemma unique_perm (l l' : list cell) :
  Permutation l l' -> Permutation (unique l) (unique l').
Proof.
  intros P. apply NoDup_Permutation; try apply unique_NoDup.
  intros c. rewrite !unique_In. split; apply Permutation_in; [assumption | now symmetry].
Qed.

(** Two sorted arrangements of the same rows are equal when rows that
    compare both ways are equal. *)
Lemma sorted_perm_eq {A : Type} (le : A -> A -> Prop) (l1 l2 : list A) :
  (forall x y, In x l1 -> In y l1 -> le x y -> le y x -> x = y) ->
  StronglySorted le l1 -> StronglySorted le l2 -> Permutation l1 l2 -> l1 = l2.
Proof.
  revert l2. induction l1 as [|x l1 IH]; intros l2 Hanti S1 S2 P.
  - apply Permutation_nil in P. now subst.
  - destruct l2 as [|y l2]; [apply Permutation_sym, Permutation_nil in P; discriminate|].
    apply StronglySorted_inv in S1. destruct S1 as [S1 F1].
    apply StronglySorted_inv in S2. destruct S2 as [S2 F2].
    rewrite Forall_forall in F1, F2.
    assert (Exy : x = y).
    { assert (Hx : In x (y :: l2)) by (apply (Permutation_in _ P); now left).
      assert (Hy : In y (x :: l1)) by (apply (Permutation_in _ (Permutation_sym P)); now left).
      destruct Hx as [Hx | Hx]; [now symmetry|].
      destruct Hy as [Hy | Hy]; [assumption|].
      apply Hanti; [now left | now right | now apply F1 | now apply F2]. }
    subst y. f_equal. apply IH; try assumption.
    + intros a b Ha Hb. apply Hanti; now right.
    + eapply Permutation_cons_inv. exact P.
Qed.

Lemma traverse_date_record_of {RT : Runtime} (cs : list cell) (recs : list DateDim.row) :
  traverse date_record cs = Some recs ->
  forall r, In r recs -> record_of (DateDim.sale_date r) r.
Proof.
  intros E r Hr. destruct (traverse_In _ _ _ _ E Hr) as (c & _ & Ec).
  apply date_record_inv in Ec. destruct Ec as (t & _ & Ht).
  assert (Hd : DateDim.sale_date r = ts_date t) by apply Ht.
  now rewrite Hd.
Qed.

(** X10.  What the date dimension is when [create_date_dimension] returns: one
    row for each distinct [sale_date] value of the frame, in ascending
    order of date, the same for every frame with the same [sale_date]
    values up to their order. *)
Theorem create_date_dimension_spec :
  forall (RT : Runtime) (sales_df : list Sales.row) (dim : list DateDim.row),
    create_date_dimension sales_df = Some dim ->
    (exists date_records,
        Forall2 (fun c r => date_record c = Some r)
          (unique (map Sales.sale_date sales_df)) date_records
        /\ Permutation dim date_records)
    /\ length dim = length (unique (map Sales.sale_date sales_df))
    /\ StronglySorted date_le dim
    /\ (forall sales_df',
           Permutation (map Sales.sale_date sales_df) (map Sales.sale_date sales_df') ->
           create_date_dimension sales_df' = Some dim).
Proof.
  intros RT sales_df dim E.
  destruct (create_date_dimension_inv _ _ E) as (recs & Et & Hne & ->).
  split; [|split; [|split]].
  - exists recs. split; [now apply traverse_Forall2 | apply sort_values_perm].
  - rewrite (Permutation_length (sort_values_perm recs)).
    now apply traverse_length in Et.
  - apply sort_values_sorted.
  - intros sales_df' P.
    destruct (traverse_perm date_record _ _ (unique_perm _ _ P) recs Et) as (recs' & Et' & P').
    unfold create_date_dimension. rewrite Et'.
    destruct recs' as [|r' recs'].
    + apply Permutation_sym, Permutation_nil in P'. contradiction.
    + f_equal. symmetry. apply (sorted_perm_eq date_le).
      * intros x y Hx Hy Hxy Hyx.
        apply (Permutation_in _ (sort_values_perm recs)) in Hx, Hy.
        pose proof (traverse_date_record_of _ _ Et x Hx) as Rx.
        pose proof (traverse_date_record_of _ _ Et y Hy) as Ry.
        rewrite (date_leb_antisym _ _ Hxy Hyx) in Rx.
        exact (record_of_unique _ _ _ Rx Ry).
      * apply sort_values_sorted.
      * apply sort_values_sorted.
      * rewrite !sort_values_perm. exact P'.
Qed.

(** X11.  [create_date_dimension] returns on every frame that has a row and
    whose [sale_date] cells are timestamps of a calendar month. *)
Theorem create_date_dimension_returns :
  forall (RT : Runtime) (sales_df : list Sales.row),
    sales_df <> [] ->
    (forall row, In row sales_df ->
       exists t, Sales.sale_date row = Time t /\ 1 <= month (ts_date t) <= 12) ->
    exists dim, create_date_dimension sales_df = Some dim.
Proof.
  intros RT sales_df Hne Hrows. unfold create_date_dimension.
  destruct (traverse_total date_record (unique (map Sales.sale_date sales_df)))
    as (recs & Et).
  - intros c Hc. apply unique_In, in_map_iff in Hc. destruct Hc as (row & <- & Hrow).
    destruct (Hrows row Hrow) as (t & -> & Hm).
    unfold date_record. simpl to_datetime. cbv iota.
    assert (Ex1 : exists mn, getitem month_names (month (ts_date t) - 1) = Some mn).
    { unfold getitem.
      replace ((0 <=? month (ts_date t) - 1)
               && (month (ts_date t) - 1 <? Z.of_nat (length month_names))) with true
        by (symmetry; apply andb_true_iff; rewrite Z.leb_le, Z.ltb_lt; simpl; lia).
      destruct (nth_error month_names (Z.to_nat (month (ts_date t) - 1))) eqn:En;
        [eauto|].
      apply nth_error_None in En. simpl in En. lia. }
    assert (Ex2 : exists dn, getitem day_names (weekday (ts_date t)) = Some dn).
    { pose proof (weekday_range (ts_date t)) as Hw. unfold getitem.
      replace ((0 <=? weekday (ts_date t))
               && (weekday (ts_date t) <? Z.of_nat (length day_names))) with true
        by (symmetry; apply andb_true_iff; rewrite Z.leb_le, Z.ltb_lt; simpl; lia).
      destruct (nth_error day_names (Z.to_nat (weekday (ts_date t)))) eqn:En;
        [eauto|].
      apply nth_error_None in En. simpl in En. lia. }
    destruct Ex1 as (mn & ->). destruct Ex2 as (dn & ->). eauto.
  - rewrite Et. destruct recs as [|r recs]; [|eauto].
    exfalso. apply traverse_length in Et.
    destruct sales_df as [|row rest]; [contradiction|].
    assert (Hin : In (Sales.sale_date row) (unique (map Sales.sale_date (row :: rest))))
      by (apply unique_In; now left).
    destruct (unique (map Sales.sale_date (row :: rest))); [contradiction | discriminate].
Qed.

(** C7.  On the frame without rows [create_date_dimension] raises: the
    frame built from no record has no [sale_date] column to sort by.  The
    cleaned frame is without rows when no sale passes the cleaning, and
    [transform_all] raises with it. *)
Theorem create_date_dimension_empty :
  (forall (RT : Runtime), create_date_dimension [] = None)
  /\ transform_sales_data (RT := example_runtime) [zero_quantity_sale] = Some []
  /\ transform_all (RT := example_runtime) [zero_quantity_sale] [alice] [widget] = None.
Proof. repeat split. Qed.

(** ** Cleaned sales *)

Lemma assign_In {R : Type} (col : column R) (f : cell -> cell) (df : list R) (c : R) :
  In c (assign col f df) <-> exists r, In r df /\ c = cset col (f (cget col r)) r.
Proof.
  unfold assign. rewrite in_map_iff. split; intros (r & H1 & H2); exists r.
  - now subst.
  - subst. tauto.
Qed.

Lemma assign_opt_In {R : Type} (col : column R) (f : cell -> option cell)
    (df df' : list R) (c : R) :
  assign_opt col f df = Some df' -> In c df' ->
  exists r v, In r df /\ f (cget col r) = Some v /\ c = cset col v r.
Proof.
  unfold assign_opt. intros E Hc.
  destruct (traverse_In _ _ _ _ E Hc) as (r & Hr & Er).
  destruct (f (cget col r)) as [v|] eqn:Ev; [|discriminate].
  simpl in Er. injection Er as <-. exists r, v. repeat split; assumption.
Qed.

Lemma dropna_In {R : Type} {F : Frame R} (subset : option (list (column R)))
    (df : list R) (r : R) :
  In r (dropna subset df)
  <-> In r df /\ forall col, In col (subset_or_all subset) -> cget col r <> NA.
Proof.
  unfold dropna. rewrite filter_In, forallb_forall. unfold values.
  split; intros [Hr Hall]; (split; [exact Hr|]).
  - intros col Hcol E. specialize (Hall (cget col r)).
    rewrite E in Hall. discriminate Hall. apply in_map_iff. eauto.
  - intros v Hv. apply in_map_iff in Hv. destruct Hv as (col & <- & Hcol).
    specialize (Hall col Hcol). now destruct (cget col r).
Qed.

Lemma remove_duplicates_incl {R : Type} {F : Frame R} (df : list R)
    (subset : option (list (column R))) :
  incl (remove_duplicates df subset) df.
Proof.
  unfold remove_duplicates, drop_duplicates.
  apply (keep_first_sublist cells_eqb _ cells_eqb_eq).
Qed.

Lemma to_datetime_in_Time {RT : Runtime} (series : list cell) (c v : cell) :
  to_datetime_in series c = Some v -> (exists t, v = Time t) \/ v = NA.
Proof.
  destruct c as [|q|b|s|t]; cbn [to_datetime_in];
    try (destruct (nat_string s); [intros E; injection E as <-; now right|]);
    try (destruct (parse_datetime_in _ _); cbn [option_map]; [|discriminate]);
    intros E; injection E as <-; eauto.
Qed.

Lemma gt0_spec (c : cell) : gt0 c = true <-> greater_than_0 c.
Proof.
  unfold greater_than_0.
  destruct c as [|q|b|s|t]; simpl;
    try (split; [discriminate | intros [(q' & E & _) | E]; discriminate]).
  - rewrite negb_true_iff. split.
    + intros E. left. exists q. split; [reflexivity|].
      unfold Qclt. simpl. apply Qnot_le_lt. intros Hle.
      apply Qle_bool_iff in Hle. congruence.
    + intros [(q' & E & Hq) | E]; [|discriminate]. injection E as <-.
      destruct (Qle_bool (this q) 0) eqn:E; [|reflexivity].
      apply Qle_bool_iff in E. unfold Qclt in Hq. simpl in Hq.
      exfalso. eapply Qlt_not_le; eassumption.
  - destruct b; simpl; split; try discriminate; auto.
    intros [(q' & E & _) | E]; discriminate.
Qed.

Lemma transform_sales_data_In {RT : Runtime} (sales_df cleaned : list Sales.row)
    (c : Sales.row) :
  transform_sales_data sales_df = Some cleaned -> In c cleaned ->
  (exists r, In r sales_df /\ cleaned_from r c)
  /\ gt0 (Sales.quantity c) = true
  /\ gt0 (Sales.unit_price c) = true
  /\ gt0 (Sales.total_amount c) = true.
Proof.
  unfold transform_sales_data.
  set (df0 := handle_missing_values _ drop).
  destruct (assign_opt Sales.Col.sale_date _ df0) as [df1|] eqn:E1; [|discriminate].
  intros E Hc. injection E as <-.
  apply filter_In in Hc. destruct Hc as [Hc Hpos].
  apply andb_true_iff in Hpos. destruct Hpos as [Hpos Ht].
  apply andb_true_iff in Hpos. destruct Hpos as [Hq Hp].
  split; [|tauto].
  apply dropna_In in Hc. destruct Hc as [Hc _].
  apply assign_In in Hc. destruct Hc as (c3 & Hc & ->).
  apply assign_In in Hc. destruct Hc as (c2 & Hc & ->).
  apply assign_In in Hc. destruct Hc as (c1 & Hc & ->).
  destruct (assign_opt_In _ _ _ _ _ E1 Hc) as (r & v & Hr & Ev & ->).
  apply to_datetime_in_Time in Ev.
  exists r. split.
  - subst df0. unfold handle_missing_values in Hr.
    apply dropna_In in Hr. destruct Hr as [Hr _].
    now apply remove_duplicates_incl in Hr.
  - unfold cleaned_from. simpl. repeat split; auto.
Qed.

(** ** The fact loop *)

Lemma truthy_spec (v : option Z) : truthy v = true <-> exists k, v = Some k /\ k <> 0.
Proof.
  destruct v as [k|]; simpl.
  - rewrite negb_true_iff, Z.eqb_neq. split.
    + intros Hk. exists k. auto.
    + intros (k' & E & Hk). now injection E as <-.
  - split; [discriminate | intros (k & E & _); discriminate].
Qed.

Lemma all_spec (a b c : option Z) :
  all [a; b; c] = true <-> truthy a = true /\ truthy b = true /\ truthy c = true.
Proof. unfold all. simpl. rewrite !andb_true_iff. tauto. Qed.

Lemma fact_loop_In {RT : Runtime} (w : Warehouse) (rows : list Sales.row) :
  forall (acc : list FactSales.row) (sk : nat) (fact_records : list FactSales.row)
         (skipped : nat) (f : FactSales.row),
    fact_loop w rows acc sk = Some (fact_records, skipped) ->
    In f fact_records ->
    In f acc \/ exists c, In c rows /\ emitted_from w c f.
Proof.
  induction rows as [|row rest IH]; intros acc sk facts skipped f E Hf;
    cbn [fact_loop] in E.
  - injection E as <- <-. now left.
  - destruct (to_date (Sales.sale_date row)) as [d|] eqn:Ed; [|discriminate].
    destruct (py_int (Sales.customer_id row)) as [cid|] eqn:Ec; [|discriminate].
    destruct (py_int (Sales.product_id row)) as [pid|] eqn:Ep; [|discriminate].
    destruct (all _) eqn:Eall; cbn [negb] in E.
    + destruct (py_int (Sales.sale_id row)) as [sid|] eqn:Es; [|discriminate].
      destruct (py_int (Sales.quantity row)) as [q|] eqn:Eq; [|discriminate].
      destruct (py_float (Sales.unit_price row)) as [p|] eqn:Epr; [|discriminate].
      destruct (py_float (Sales.total_amount row)) as [t|] eqn:Et; [|discriminate].
      destruct (IH _ _ _ _ f E Hf) as [Hacc | (c & Hc & Hem)].
      * apply in_app_or in Hacc. destruct Hacc as [Hacc | [<- | []]]; [now left|].
        right. exists row. split; [now left|].
        apply all_spec in Eall. destruct Eall as (T1 & T2 & T3).
        apply truthy_spec in T1, T2, T3.
        destruct T1 as (dk & E1 & N1), T2 as (ck & E2 & N2), T3 as (pk & E3 & N3).
        destruct d as [d|]; [|discriminate]. cbn [get_date] in *.
        exists d, cid, pid. rewrite E1, E2, E3. simpl. repeat split; assumption.
      * right. exists c. split; [now right | assumption].
    + destruct (IH _ _ _ _ f E Hf) as [Hacc | (c & Hc & Hem)]; [now left|].
      right. exists c. split; [now right | assumption].
Qed.

(** C6.  Every row of the cleaned sales frame holds a number greater than
    0 in [quantity], [unit_price] and [total_amount] (a finite number
    greater than 0, or the float [inf]), and is a row of the input with
    these three coerced; so a row whose quantity is 0, whose unit price is
    negative, be it minus infinity, or whose total amount is not numeric
    has no cleaned row, and every fact record of the loop over the cleaned
    frame is built from a cleaned row. *)
Theorem quality_filter :
  forall (RT : Runtime) (sales_df cleaned : list Sales.row),
    transform_sales_data sales_df = Some cleaned ->
    (forall c, In c cleaned ->
       greater_than_0 (Sales.quantity c)
       /\ greater_than_0 (Sales.unit_price c)
       /\ greater_than_0 (Sales.total_amount c))
    /\ (forall c, In c cleaned -> exists r, In r sales_df /\ cleaned_from r c)
    /\ (forall r,
          to_numeric (Sales.quantity r) = Num 0%Qc
          \/ (exists p, to_numeric (Sales.unit_price r) = Num p /\ (p < 0)%Qc)
          \/ to_numeric (Sales.unit_price r) = Inf true
          \/ to_numeric (Sales.total_amount r) = NA ->
          forall c, In c cleaned -> ~ cleaned_from r c)
    /\ (forall w fact_records skipped,
          fact_loop w cleaned [] O = Some (fact_records, skipped) ->
          forall f, In f fact_records -> exists c, In c cleaned /\ emitted_from w c f).
Proof.
  intros RT sales_df cleaned E.
  assert (Hpos : forall c, In c cleaned ->
            greater_than_0 (Sales.quantity c)
            /\ greater_than_0 (Sales.unit_price c)
            /\ greater_than_0 (Sales.total_amount c)).
  { intros c Hc.
    destruct (transform_sales_data_In _ _ _ E Hc) as (_ & Hq & Hp & Ht).
    apply gt0_spec in Hq, Hp, Ht. auto. }
  split; [exact Hpos|]. split; [|split].
  - intros c Hc. now destruct (transform_sales_data_In _ _ _ E Hc).
  - intros r Hbad c Hc Hfrom.
    destruct (Hpos c Hc) as (Hq & Hp & Ht).
    destruct Hfrom as (_ & _ & _ & _ & Fq & Fp & Ft).
    destruct Hbad as [B | [(p' & B & Hneg) | [B | B]]].
    + rewrite Fq, B in Hq. destruct Hq as [(q & Eq & Hq) | Eq]; [|discriminate].
      injection Eq as <-. unfold Qclt in Hq. now apply Qlt_irrefl in Hq.
    + rewrite Fp, B in Hp. destruct Hp as [(p & Ep & Hp) | Ep]; [|discriminate].
      injection Ep as <-.
      unfold Qclt in Hp, Hneg. apply (Qlt_irrefl (this 0%Qc)).
      exact (Qlt_trans _ _ _ Hp Hneg).
    + rewrite Fp, B in Hp. destruct Hp as [(p & Ep & _) | Ep]; discriminate.
    + rewrite Ft, B in Ht. destruct Ht as [(t & Et & _) | Et]; discriminate.
  - intros w facts skipped El f Hf.
    destruct (fact_loop_In _ _ _ _ _ _ _ El Hf) as [[] | Hc]. exact Hc.
Qed.

Lemma quality_filter_witness :
  transform_sales_data (RT := example_runtime)
    [good_sale; zero_quantity_sale; negative_price_sale; text_total_sale]
  = Some [cleaned_good_sale]
  /\ (forall c, In c [cleaned_good_sale] ->
        ~ cleaned_from (RT := example_runtime) zero_quantity_sale c
        /\ ~ cleaned_from (RT := example_runtime) negative_price_sale c
        /\ ~ cleaned_from (RT := example_runtime) text_total_sale c).
Proof.
  split; [reflexivity|].
  pose proof (quality_filter example_runtime
                [good_sale; zero_quantity_sale; negative_price_sale; text_total_sale]
                [cleaned_good_sale] eq_refl) as (_ & _ & Hbad & _).
  intros c Hc. repeat split.
  - apply Hbad; [|exact Hc]. left. reflexivity.
  - apply Hbad; [|exact Hc]. right. left. exists (Q2Qc (-5 # 1)). split; reflexivity.
  - apply Hbad; [|exact Hc]. right. right. right. reflexivity.
Defined.

(** ** Cleaned products *)

Lemma handle_missing_values_drop_In {R : Type} {F : Frame R} (df : list R) (r : R) :
  In r (handle_missing_values df drop) <-> In r df /\ complete r.
Proof. unfold handle_missing_values, complete. apply (dropna_In None). Qed.

Lemma to_numeric_cases {RT : Runtime} (c : cell) :
  to_numeric c = NA \/ (exists q, to_numeric c = Num q)
  \/ exists b, to_numeric c = Inf b.
Proof.
  destruct c as [|q|b|s|t]; simpl; eauto.
  destruct (parse_infinity s); [eauto|].
  destruct (parse_numeric s); eauto.
Qed.

Lemma traverse_None {A B : Type} (f : A -> option B) (l : list A) :
  traverse f l = None <-> exists x, In x l /\ f x = None.
Proof.
  induction l as [|x l IH]; cbn [traverse].
  - split; [discriminate | intros (y & [] & _)].
  - destruct (f x) as [y|] eqn:Ex.
    + destruct (traverse f l) as [ys|].
      * split; [discriminate|]. intros (z & [<- | Hz] & Ez); [congruence|].
        destruct IH as [_ IH]. discriminate IH. eauto.
      * split; [intros _ | reflexivity].
        destruct (proj1 IH eq_refl) as (z & Hz & Ez). exists z. split; [now right | exact Ez].
    + split; [intros _ | reflexivity]. exists x. split; [now left | exact Ex].
Qed.

Lemma transform_products_data_In {RT : Runtime} (products_df cleaned : list Products.row)
    (c : Products.row) :
  transform_products_data products_df = Some cleaned -> In c cleaned ->
  exists r, In r (remove_duplicates products_df (Some [Products.Col.product_id]))
            /\ complete r /\ product_from r c.
Proof.
  unfold transform_products_data.
  set (df0 := remove_duplicates products_df _).
  set (df3 := dropna (Some [Products.Col.product_id]) _).
  destruct (assign_opt Products.Col.product_id astype_int df3) as [df4|] eqn:E4;
    [|discriminate].
  intros E Hc. injection E as <-.
  apply assign_In in Hc. destruct Hc as (c5 & Hc & ->).
  apply assign_In in Hc. destruct Hc as (c4 & Hc & ->).
  destruct (assign_opt_In _ _ _ _ _ E4 Hc) as (c3 & v & H3 & Ev & ->).
  subst df3. apply dropna_In in H3. destruct H3 as [H3 Hna].
  apply assign_In in H3. destruct H3 as (r & Hr & ->).
  apply handle_missing_values_drop_In in Hr. destruct Hr as [Hr Hcomplete].
  exists r. split; [exact Hr|]. split; [exact Hcomplete|].
  simpl in Ev.
  specialize (Hna Products.Col.product_id (or_introl eq_refl)). simpl in Hna.
  destruct (to_numeric_cases (Products.product_id r)) as [En | [(q & En) | (b & En)]];
    [contradiction | | rewrite En in Ev; discriminate].
  rewrite En in Ev. simpl in Ev. injection Ev as <-.
  unfold product_from. simpl. repeat split. exists q. auto.
Qed.

(** [transform_products_data] raises exactly when a row that is the first
    of its [product_id] and misses no cell has an infinite identifier. *)
Lemma transform_products_data_None {RT : Runtime} (products_df : list Products.row) :
  transform_products_data products_df = None
  <-> exists r, In r (remove_duplicates products_df (Some [Products.Col.product_id]))
                /\ complete r
                /\ exists b, to_numeric (Products.product_id r) = Inf b.
Proof.
  unfold transform_products_data.
  set (df0 := remove_duplicates products_df _).
  set (df3 := dropna (Some [Products.Col.product_id]) _).
  assert (Hin : forall r, In r df0 -> complete r ->
            to_numeric (Products.product_id r) <> NA ->
            In (Products.set_product_id (to_numeric (Products.product_id r)) r) df3).
  { intros r Hr Hcomplete Hid. subst df3. apply dropna_In. split.
    - apply assign_In. exists r. split; [|reflexivity].
      apply handle_missing_values_drop_In. auto.
    - intros col [<- | []]. exact Hid. }
  destruct (assign_opt Products.Col.product_id astype_int df3) as [df4|] eqn:E4.
  - split; [discriminate|]. intros (r & Hr & Hcomplete & b & Eb). exfalso.
    assert (H3 := Hin r Hr Hcomplete). rewrite Eb in H3.
    destruct (traverse_In_l _ _ _ _ E4 (H3 ltac:(discriminate))) as (c4 & _ & E).
    discriminate E.
  - split; [intros _ | reflexivity].
    apply traverse_None in E4. destruct E4 as (c3 & H3 & E3).
    subst df3. apply dropna_In in H3. destruct H3 as [H3 Hna].
    apply assign_In in H3. destruct H3 as (r & Hr & ->).
    apply handle_missing_values_drop_In in Hr. destruct Hr as [Hr Hcomplete].
    specialize (Hna Products.Col.product_id (or_introl eq_refl)). simpl in Hna, E3.
    exists r. split; [exact Hr|]. split; [exact Hcomplete|].
    destruct (to_numeric_cases (Products.product_id r)) as [En | [(q & En) | (b & En)]];
      [contradiction | rewrite En in E3; discriminate | eauto].
Qed.

Lemma transform_products_data_keeps {RT : Runtime} (products_df cleaned : list Products.row)
    (r : Products.row) :
  transform_products_data products_df = Some cleaned ->
  In r (remove_duplicates products_df (Some [Products.Col.product_id])) ->
  complete r ->
  to_numeric (Products.product_id r) <> NA ->
  exists c, In c cleaned /\ product_from r c.
Proof.
  unfold transform_products_data.
  set (df0 := remove_duplicates products_df _).
  set (df3 := dropna (Some [Products.Col.product_id]) _).
  destruct (assign_opt Products.Col.product_id astype_int df3) as [df4|] eqn:E4;
    [|discriminate].
  intros E Hr Hcomplete Hid. injection E as <-.
  assert (H3 : In (Products.set_product_id (to_numeric (Products.product_id r)) r) df3).
  { subst df3. apply dropna_In. split.
    - apply assign_In. exists r. split; [|reflexivity].
      apply handle_missing_values_drop_In. auto.
    - intros col [<- | []]. exact Hid. }
  destruct (traverse_In_l _ _ _ _ E4 H3) as (c4 & H4 & E).
  simpl in E.
  destruct (to_numeric_cases (Products.product_id r)) as [En | [(q & En) | (b & En)]];
    [contradiction | | rewrite En in E; discriminate].
  rewrite En in E. simpl in E. injection E as <-.
  eexists. split.
  - apply assign_In. eexists. split; [|reflexivity].
    apply assign_In. eexists. split; [exact H4 | reflexivity].
  - unfold product_from. simpl. repeat split. exists q. auto.
Qed.

Lemma filter_keep_first_length {A K : Type} (eqb : K -> K -> bool) (key : A -> K)
    (p : A -> bool) (l : list A) :
  forall seen, (length (filter p (keep_first eqb key seen l)) <= length (filter p l))%nat.
Proof.
  induction l as [|x l IH]; simpl; intros seen; [lia|].
  destruct (existsb (eqb (key x)) seen).
  - specialize (IH seen). destruct (p x); simpl; lia.
  - simpl. specialize (IH (key x :: seen)). destruct (p x); simpl; lia.
Qed.

Lemma filter_length_mono {A : Type} (p q : A -> bool) (l : list A) :
  (forall x, p x = true -> q x = true) ->
  (length (filter p l) <= length (filter q l))%nat.
Proof.
  intros Hpq. induction l as [|x l IH]; simpl; [lia|].
  destruct (p x) eqn:Ep.
  - rewrite (Hpq x Ep). simpl. lia.
  - destruct (q x); simpl; lia.
Qed.

Lemma transform_products_data_length {RT : Runtime} (products_df cleaned : list Products.row) :
  transform_products_data products_df = Some cleaned ->
  (length cleaned
   <= length (filter (fun r => notna (Products.unit_cost r)) products_df))%nat.
Proof.
  unfold transform_products_data.
  set (df3 := dropna (Some [Products.Col.product_id]) _).
  destruct (assign_opt Products.Col.product_id astype_int df3) as [df4|] eqn:E4;
    [|discriminate].
  intros E. injection E as <-.
  unfold assign at 1 2. rewrite !length_map.
  unfold assign_opt in E4. apply traverse_length in E4. rewrite E4.
  subst df3. unfold dropna at 1.
  etransitivity; [apply List.filter_length_le|].
  unfold assign. rewrite length_map.
  unfold handle_missing_values, dropna, remove_duplicates, drop_duplicates.
  etransitivity; [apply filter_keep_first_length|].
  apply filter_length_mono. intros r Hr.
  rewrite forallb_forall in Hr. apply Hr. simpl. tauto.
Qed.

(** C2, as the code has it.  [transform_products_data] raises exactly
    when a row that is the first of its [product_id] and misses no cell
    has an infinite identifier.  When it returns, a cleaned product comes
    from an input row that misses no cell, so a product without
    [unit_cost] is removed with the rows that miss a cell, and the cleaned
    frame has no more rows than the input has rows with a [unit_cost].
    The first row of a [product_id] that misses no cell and has a numeric
    identifier is kept, its identifier cast to int64, with the number or
    the infinity that [unit_cost] holds, or with 0 when [unit_cost] is a
    text that is no number.  The sign of the number is not checked. *)
Theorem product_unit_cost :
  forall (RT : Runtime) (products_df : list Products.row),
    match transform_products_data products_df with
    | None =>
        exists r, In r (remove_duplicates products_df (Some [Products.Col.product_id]))
                  /\ complete r
                  /\ exists b, to_numeric (Products.product_id r) = Inf b
    | Some cleaned =>
        (forall r b,
            In r (remove_duplicates products_df (Some [Products.Col.product_id])) ->
            complete r ->
            to_numeric (Products.product_id r) <> Inf b)
        /\ (forall c, In c cleaned ->
              ((exists q, Products.unit_cost c = Num q)
               \/ exists b, Products.unit_cost c = Inf b)
              /\ exists r, In r products_df /\ Products.unit_cost r <> NA
                           /\ product_from r c)
        /\ (length cleaned
             <= length (filter (fun r => notna (Products.unit_cost r)) products_df))%nat
        /\ (forall r,
              In r (remove_duplicates products_df (Some [Products.Col.product_id])) ->
              complete r ->
              to_numeric (Products.product_id r) <> NA ->
              exists c, In c cleaned /\ product_from r c
                        /\ (to_numeric (Products.unit_cost r) = NA ->
                            Products.unit_cost c = Num 0%Qc)
                        /\ (forall q, to_numeric (Products.unit_cost r) = Num q ->
                            Products.unit_cost c = Num q)
                        /\ (forall b, to_numeric (Products.unit_cost r) = Inf b ->
                            Products.unit_cost c = Inf b))
    end.
Proof.
  intros RT products_df.
  pose proof (transform_products_data_None products_df) as Hnone.
  destruct (transform_products_data products_df) as [cleaned|] eqn:E;
    [|now apply Hnone].
  split; [|split; [|split]].
  - intros r b Hr Hcomplete Eb.
    assert (H : @Some (list Products.row) cleaned = None) by (apply Hnone; eauto).
    discriminate H.
  - intros c Hc.
    destruct (transform_products_data_In _ _ _ E Hc) as (r & Hr & Hcomplete & Hfrom).
    split.
    + destruct Hfrom as (_ & _ & _ & _ & ->).
      destruct (to_numeric_cases (Products.unit_cost r)) as [-> | [(q & ->) | (b & ->)]];
        simpl; eauto.
    + exists r. split; [now apply remove_duplicates_incl in Hr|].
      split; [|exact Hfrom].
      apply (Hcomplete Products.Col.unit_cost). simpl. tauto.
  - now apply transform_products_data_length.
  - intros r Hr Hcomplete Hid.
    destruct (transform_products_data_keeps _ _ _ E Hr Hcomplete Hid) as (c & Hc & Hfrom).
    exists c. split; [exact Hc|]. split; [exact Hfrom|].
    destruct Hfrom as (_ & _ & _ & _ & ->).
    split; [intros -> | split; [intros q -> | intros b ->]]; reflexivity.
Qed.

(** C2, as stated, fails: the product without [unit_cost] is not kept with
    cost 0 but removed, and the product with a negative cost is kept with
    its negative cost. *)
Lemma absent_unit_cost_removed :
  transform_products_data (RT := example_runtime)
    [no_cost_product; negative_cost_product]
  = Some [cleaned_negative_cost_product]
  /\ (forall c, In c [cleaned_negative_cost_product] ->
        Products.product_name c <> Products.product_name no_cost_product)
  /\ (exists q, Products.unit_cost cleaned_negative_cost_product = Num q /\ (q < 0)%Qc).
Proof.
  split; [reflexivity|]. split.
  - intros c [<- | []]. discriminate.
  - exists (Q2Qc (-5 # 2)). split; reflexivity.
Qed.

(** ** INSERT ... ON CONFLICT: what a command leaves *)

Section Keys.
Context {Row Key : Type}.
Variable key_eqb : Key -> Key -> bool.
Variable row_key : Row -> Key.
Hypothesis key_eqb_eq : forall a b, key_eqb a b = true <-> a = b.

Local Abbreviation has_key := (has_key key_eqb row_key).

Lemma key_eqb_refl (k : Key) : key_eqb k k = true.
Proof. now apply key_eqb_eq. Qed.

Lemma has_key_map (f : Row -> Row) (k : Key) (table : list Row) :
  (forall row, row_key (f row) = row_key row) ->
  has_key k (map f table) = has_key k table.
Proof.
  intros Hf. unfold has_key. induction table as [|row table IH]; simpl; [reflexivity|].
  now rewrite Hf, IH.
Qed.

Lemma has_key_app (k : Key) (t1 t2 : list Row) :
  has_key k (t1 ++ t2) = has_key k t1 || has_key k t2.
Proof. unfold has_key. apply existsb_app. Qed.

Lemma has_key_one (k : Key) (row : Row) : has_key k [row] = key_eqb k (row_key row).
Proof. unfold has_key. simpl. apply orb_false_r. Qed.

Lemma has_key_In (k : Key) (table : list Row) :
  has_key k table = true <-> exists row, In row table /\ row_key row = k.
Proof.
  unfold has_key. rewrite existsb_exists.
  split; intros (row & Hrow & E); exists row; (split; [assumption|]).
  - symmetry. now apply key_eqb_eq.
  - apply key_eqb_eq. now symmetry.
Qed.

Lemma has_key_false (k : Key) (table : list Row) (row : Row) :
  has_key k table = false -> In row table -> key_eqb k (row_key row) = false.
Proof.
  intros E Hrow. destruct (key_eqb k (row_key row)) eqn:Ek; [|reflexivity].
  assert (H : has_key k table = true).
  { apply has_key_In. exists row. split; [assumption|]. symmetry. now apply key_eqb_eq. }
  congruence.
Qed.

End Keys.

Section DoUpdate.
Context {Row Rec Key : Type}.
Variable key_eqb : Key -> Key -> bool.
Variable row_key : Row -> Key.
Variable new_row : Z -> Key -> Rec -> Row.
Variable set : Rec -> Row -> Row.
Hypothesis key_eqb_eq : forall a b, key_eqb a b = true <-> a = b.
Hypothesis new_row_key : forall s k rec, row_key (new_row s k rec) = k.
Hypothesis set_key : forall rec row, row_key (set rec row) = row_key row.

Local Abbreviation update1 := (update1 key_eqb row_key set).
Local Abbreviation apply1 := (apply1 key_eqb row_key new_row set).
Local Abbreviation updates := (updates key_eqb row_key set).
Local Abbreviation last_match := (last_match key_eqb).

Lemma update1_key (p : Key * Rec) (row : Row) : row_key (update1 p row) = row_key row.
Proof. unfold update1. destruct (key_eqb _ _); [apply set_key | reflexivity]. Qed.

Lemma has_key_apply1 (k : Key) (st : list Row * Z) (p : Key * Rec) :
  has_key key_eqb row_key k (fst (apply1 st p))
  = has_key key_eqb row_key k (fst st) || key_eqb k (fst p).
Proof.
  unfold apply1. destruct (has_key key_eqb row_key (fst p) (fst st)) eqn:E; cbn [fst].
  - rewrite has_key_map by apply update1_key.
    destruct (key_eqb k (fst p)) eqn:Ek; [|now rewrite orb_false_r].
    apply key_eqb_eq in Ek. subst k. now rewrite E.
  - rewrite has_key_app, has_key_one, new_row_key. reflexivity.
Qed.

Lemma apply1_conflict (k : Key) (rec : Rec) (table : list Row) (seq : Z) :
  has_key key_eqb row_key k table = true ->
  apply1 (table, seq) (k, rec) = (map (update1 (k, rec)) table, seq + 1).
Proof. unfold apply1. cbn [fst snd]. now intros ->. Qed.

Lemma apply1_insert (k : Key) (rec : Rec) (table : list Row) (seq : Z) :
  has_key key_eqb row_key k table = false ->
  apply1 (table, seq) (k, rec) = (table ++ [new_row seq k rec], seq + 1).
Proof. unfold apply1. cbn [fst snd]. now intros ->. Qed.

Lemma insert_rows_accepted (proposed : list (Key * Rec)) :
  forall table seq affected,
    (forall k, In k affected -> has_key key_eqb row_key k table = true) ->
    distinct_from key_eqb affected (map fst proposed) = true ->
    insert_rows key_eqb row_key new_row (Some set) proposed table seq affected
    = (Some (fst (fold_left apply1 proposed (table, seq))),
       snd (fold_left apply1 proposed (table, seq))).
Proof.
  induction proposed as [|[k rec] rest IH]; intros table seq affected Hinv Hok;
    [reflexivity|].
  cbn [map distinct_from fst] in Hok. apply andb_true_iff in Hok.
  destruct Hok as [Hk Hok]. apply negb_true_iff in Hk.
  assert (Hinv' : forall k', In k' (k :: affected) ->
            has_key key_eqb row_key k' (fst (apply1 (table, seq) (k, rec))) = true).
  { intros k' Hk'. rewrite has_key_apply1. cbn [fst]. destruct Hk' as [<- | Hk'].
    - now rewrite (key_eqb_refl key_eqb key_eqb_eq), orb_true_r.
    - now rewrite (Hinv _ Hk'). }
  cbn [insert_rows fold_left].
  change (existsb (fun row => key_eqb k (row_key row)) table)
    with (has_key key_eqb row_key k table).
  destruct (has_key key_eqb row_key k table) eqn:Ek.
  - rewrite (apply1_conflict _ _ _ _ Ek) in *. rewrite Hk. now apply IH.
  - rewrite (apply1_insert _ _ _ _ Ek) in *. now apply IH.
Qed.

Lemma insert_rows_refused (proposed : list (Key * Rec)) :
  forall table seq affected,
    (forall k, In k affected -> has_key key_eqb row_key k table = true) ->
    distinct_from key_eqb affected (map fst proposed) = false ->
    fst (insert_rows key_eqb row_key new_row (Some set) proposed table seq affected)
    = None.
Proof.
  induction proposed as [|[k rec] rest IH]; intros table seq affected Hinv Hok;
    [discriminate|].
  cbn [map distinct_from fst] in Hok.
  assert (Hinv' : forall k', In k' (k :: affected) ->
            has_key key_eqb row_key k' (fst (apply1 (table, seq) (k, rec))) = true).
  { intros k' Hk'. rewrite has_key_apply1. cbn [fst]. destruct Hk' as [<- | Hk'].
    - now rewrite (key_eqb_refl key_eqb key_eqb_eq), orb_true_r.
    - now rewrite (Hinv _ Hk'). }
  cbn [insert_rows].
  change (existsb (fun row => key_eqb k (row_key row)) table)
    with (has_key key_eqb row_key k table).
  destruct (has_key key_eqb row_key k table) eqn:Ek.
  - rewrite (apply1_conflict _ _ _ _ Ek) in Hinv'.
    destruct (existsb (key_eqb k) affected); [reflexivity|].
    simpl in Hok. now apply IH.
  - assert (Ea : existsb (key_eqb k) affected = false).
    { destruct (existsb (key_eqb k) affected) eqn:Ea; [|reflexivity].
      apply existsb_exists in Ea. destruct Ea as (k' & Hk' & E).
      apply key_eqb_eq in E. subst k'. rewrite (Hinv _ Hk') in Ek. discriminate. }
    rewrite (apply1_insert _ _ _ _ Ek) in Hinv'.
    rewrite Ea in Hok. simpl in Hok. now apply IH.
Qed.

Variable rec_key : Rec -> option Key.

Local Abbreviation convert := (convert rec_key).
Local Abbreviation page_accepted := (page_accepted key_eqb rec_key).
Local Abbreviation proposals := (proposals key_eqb rec_key).

Lemma execute_pages_update (pages : list (list Rec)) :
  forall table seq,
    fst (execute_pages key_eqb row_key rec_key new_row (Some set) pages table seq)
    = option_map (fun ps => fst (fold_left apply1 ps (table, seq))) (proposals pages).
Proof.
  unfold proposals.
  induction pages as [|page rest IH]; intros table seq; [reflexivity|].
  cbn [execute_pages traverse]. unfold page_accepted at 1. fold (convert page).
  destruct (convert page) as [proposed|]; [|reflexivity].
  destruct (distinct_from key_eqb [] (map fst proposed)) eqn:Ed.
  - rewrite insert_rows_accepted; [|intros k []|exact Ed].
    rewrite IH. destruct (traverse page_accepted rest) as [pps|]; [|reflexivity].
    cbn [option_map concat]. rewrite fold_left_app.
    now destruct (fold_left apply1 proposed (table, seq)).
  - pose proof (insert_rows_refused proposed table seq [] (fun k (H : In k []) => match H with end) Ed) as E.
    destruct (insert_rows _ _ _ _ _ _ _ _) as [[t|] s]; [discriminate|reflexivity].
Qed.

Lemma has_key_fold (k : Key) (ps : list (Key * Rec)) :
  forall st,
    has_key key_eqb row_key k (fst (fold_left apply1 ps st))
    = has_key key_eqb row_key k (fst st) || existsb (key_eqb k) (map fst ps).
Proof.
  induction ps as [|p ps IH]; intros st; simpl; [now rewrite orb_false_r|].
  rewrite IH, has_key_apply1. now rewrite orb_assoc.
Qed.

Lemma updates_key (ps : list (Key * Rec)) :
  forall row, row_key (updates ps row) = row_key row.
Proof.
  unfold updates. induction ps as [|p ps IH]; intros row; simpl; [reflexivity|].
  now rewrite IH, update1_key.
Qed.

(** When every proposed key is stored already, no row is added. *)
Lemma fold_apply1_present (ps : list (Key * Rec)) :
  forall table seq,
    (forall p, In p ps -> has_key key_eqb row_key (fst p) table = true) ->
    fst (fold_left apply1 ps (table, seq)) = map (updates ps) table.
Proof.
  induction ps as [|[k rec] ps IH]; intros table seq Hall.
  - simpl. now rewrite map_id.
  - cbn [fold_left].
    rewrite (apply1_conflict _ _ _ _ (Hall (k, rec) (or_introl eq_refl))).
    rewrite IH.
    + now rewrite map_map.
    + intros p Hp. rewrite has_key_map by apply update1_key. apply Hall. now right.
Qed.

Lemma last_match_snoc (k : Key) (ps : list (Key * Rec)) (p : Key * Rec) :
  last_match k (ps ++ [p]) = if key_eqb (fst p) k then Some p else last_match k ps.
Proof. unfold last_match. now rewrite rev_app_distr. Qed.

Lemma updates_snoc (ps : list (Key * Rec)) (p : Key * Rec) (row : Row) :
  updates (ps ++ [p]) row = update1 p (updates ps row).
Proof. unfold updates. now rewrite fold_left_app. Qed.

(** When [set] overwrites what an earlier [set] wrote, the updates of a
    row come down to the last one. *)
Lemma updates_last (ps : list (Key * Rec)) (row : Row) :
  (forall r1 r2 x, set r2 (set r1 x) = set r2 x) ->
  updates ps row
  = match last_match (row_key row) ps with
    | Some p => set (snd p) row
    | None => row
    end.
Proof.
  intros Hover. induction ps as [|p ps IH] using rev_ind; [reflexivity|].
  rewrite updates_snoc, last_match_snoc. unfold update1.
  rewrite updates_key. destruct (key_eqb (fst p) (row_key row)); [|exact IH].
  rewrite IH. destruct (last_match (row_key row) ps); [apply Hover | reflexivity].
Qed.

Lemma keep_first_seen_ext {A : Type} (key : A -> Key) (l : list A) :
  forall s1 s2,
    (forall k, existsb (key_eqb k) s1 = existsb (key_eqb k) s2) ->
    keep_first key_eqb key s1 l = keep_first key_eqb key s2 l.
Proof.
  induction l as [|x l IH]; intros s1 s2 Hs; [reflexivity|].
  cbn [keep_first]. rewrite (Hs (key x)).
  destruct (existsb (key_eqb (key x)) s2).
  - now apply IH.
  - f_equal. apply IH. intros k. cbn [existsb]. now rewrite Hs.
Qed.

Lemma has_key_existsb (k : Key) (table : list Row) :
  has_key key_eqb row_key k table = existsb (key_eqb k) (map row_key table).
Proof.
  unfold has_key. induction table as [|row table IH]; simpl; [reflexivity|].
  now rewrite IH.
Qed.

(** When the inserted row does not depend on the sequence, and is what
    its own record would update it to, the table after the proposed rows
    is the stored rows followed by the first proposed row of each key not
    stored yet, all with their updates. *)
Hypothesis new_row_seq : forall s s' k rec, new_row s k rec = new_row s' k rec.
Hypothesis set_new : forall s k rec, set rec (new_row s k rec) = new_row s k rec.

Lemma fold_apply1_closed (ps : list (Key * Rec)) :
  forall table seq,
    fst (fold_left apply1 ps (table, seq))
    = map (updates ps)
        (table ++ map (fun p => new_row 0 (fst p) (snd p))
                    (keep_first key_eqb fst (map row_key table) ps)).
Proof.
  induction ps as [|[k rec] ps IH]; intros table seq.
  - simpl. now rewrite app_nil_r, map_id.
  - assert (Hnews : forall seen q,
              In q (keep_first key_eqb fst seen ps) ->
              existsb (key_eqb k) seen = true ->
              update1 (k, rec) (new_row 0 (fst q) (snd q)) = new_row 0 (fst q) (snd q)).
    { intros seen q Hq Hk. unfold update1. cbn [fst snd].
      rewrite new_row_key.
      destruct (key_eqb k (fst q)) eqn:E; [|reflexivity].
      apply key_eqb_eq in E. subst k.
      apply (keep_first_In key_eqb fst key_eqb_eq) in Hq. destruct Hq as [_ Hq].
      exfalso. apply Hq. apply existsb_exists in Hk. destruct Hk as (k' & Hk' & E).
      apply key_eqb_eq in E. now subst k'. }
    cbn [fold_left keep_first fst].
    rewrite <- has_key_existsb.
    destruct (has_key key_eqb row_key k table) eqn:Ek.
    + rewrite (apply1_conflict _ _ _ _ Ek), IH.
      rewrite map_map, (map_ext _ _ (fun row => update1_key (k, rec) row)).
      unfold updates at 2. cbn [fold_left].
      fold (updates ps).
      rewrite <- (map_map (update1 (k, rec)) (updates ps)). f_equal.
      rewrite map_app. f_equal.
      rewrite map_map. apply map_ext_in. intros q Hq. symmetry.
      apply (Hnews (map row_key table) q Hq). now rewrite <- has_key_existsb.
    + rewrite (apply1_insert _ _ _ _ Ek), IH.
      unfold updates at 2. cbn [fold_left].
      fold (updates ps).
      rewrite <- (map_map (update1 (k, rec)) (updates ps)). f_equal.
      rewrite (map_app (update1 (k, rec))). cbn [map].
      rewrite <- app_assoc. cbn [app]. f_equal; [|f_equal].
      * symmetry. rewrite <- (map_id table) at 2. apply map_ext_in. intros row Hrow.
        unfold update1. cbn [fst].
        now rewrite (has_key_false key_eqb row_key key_eqb_eq _ _ _ Ek Hrow).
      * unfold update1. cbn [fst snd].
        rewrite new_row_key, (key_eqb_refl key_eqb key_eqb_eq), set_new.
        apply new_row_seq.
      * rewrite (map_app row_key). cbn [map]. rewrite new_row_key.
        rewrite (keep_first_seen_ext fst ps (map row_key table ++ [k])
                   (k :: map row_key table)).
        -- rewrite map_map. apply map_ext_in. intros q Hq. symmetry.
           apply (Hnews (k :: map row_key table) q Hq).
           cbn [existsb]. now rewrite (key_eqb_refl key_eqb key_eqb_eq).
        -- intros k'. rewrite existsb_app. cbn [existsb].
           rewrite orb_false_r. apply orb_comm.
Qed.

End DoUpdate.

(** ** Running a DO UPDATE command a second time *)

Section Rerun.
Context {Row Rec Key Content : Type}.
Variable key_eqb : Key -> Key -> bool.
Variable row_key : Row -> Key.
Variable rec_key : Rec -> option Key.
(** The first run inserts with [new_row] and updates with [set]; the
    second run, at another time, with [new_row'] and [set'];
    [content] is what the two are compared on. *)
Variables new_row new_row' : Z -> Key -> Rec -> Row.
Variables set set' : Rec -> Row -> Row.
Variable content : Row -> Content.
Hypothesis key_eqb_eq : forall a b, key_eqb a b = true <-> a = b.
Hypothesis new_row_key : forall s k rec, row_key (new_row s k rec) = k.
Hypothesis new_row'_key : forall s k rec, row_key (new_row' s k rec) = k.
Hypothesis set_key : forall rec row, row_key (set rec row) = row_key row.
Hypothesis set'_key : forall rec row, row_key (set' rec row) = row_key row.
Hypothesis set'_set :
  forall rec row, content (set' rec (set rec row)) = content (set rec row).
Hypothesis set'_new :
  forall s k rec, content (set' rec (new_row s k rec)) = content (new_row s k rec).
Hypothesis set'_set' : forall r1 r2 x, set' r2 (set' r1 x) = set' r2 x.

Let run := fold_left (apply1 key_eqb row_key new_row set).
Let run' := fold_left (apply1 key_eqb row_key new_row' set').

(** After the first run, the last proposed row of a key would change
    nothing in the content of the row stored under that key. *)
Lemma settled (ps : list (Key * Rec)) (table : list Row) (seq : Z) :
  forall row p,
    In row (fst (run ps (table, seq))) ->
    last_match key_eqb (row_key row) ps = Some p ->
    content (set' (snd p) row) = content row.
Proof.
  subst run. induction ps as [|p0 ps IH] using rev_ind; intros row p Hrow Hlast.
  - discriminate.
  - rewrite fold_left_app in Hrow. cbn [fold_left] in Hrow.
    rewrite last_match_snoc in Hlast.
    destruct (fold_left (apply1 key_eqb row_key new_row set) ps (table, seq))
      as [t s] eqn:Et.
    destruct p0 as [k rec]. cbn [fst snd] in *.
    destruct (has_key key_eqb row_key k t) eqn:Ek.
    + rewrite (apply1_conflict _ _ _ _ _ _ _ _ Ek) in Hrow. cbn [fst] in Hrow.
      apply in_map_iff in Hrow. destruct Hrow as (row0 & <- & Hrow0).
      rewrite update1_key in Hlast by exact set_key.
      unfold update1. cbn [fst snd].
      destruct (key_eqb k (row_key row0)).
      * injection Hlast as <-. apply set'_set.
      * now apply IH.
    + rewrite (apply1_insert _ _ _ _ _ _ _ _ Ek) in Hrow. cbn [fst] in Hrow.
      apply in_app_or in Hrow. destruct Hrow as [Hrow | [<- | []]].
      * rewrite (has_key_false key_eqb row_key key_eqb_eq _ _ _ Ek Hrow) in Hlast.
        now apply IH.
      * rewrite new_row_key, (key_eqb_refl key_eqb key_eqb_eq) in Hlast.
        injection Hlast as <-. apply set'_new.
Qed.

(** The second run leaves the content of the table as the first run left
    it. *)
Lemma rerun_content (ps : list (Key * Rec)) (table : list Row) (seq seq' : Z) :
  map content (fst (run' ps (fst (run ps (table, seq)), seq')))
  = map content (fst (run ps (table, seq))).
Proof.
  subst run'. rewrite fold_apply1_present; try assumption.
  - rewrite map_map. apply map_ext_in. intros row Hrow.
    rewrite updates_last by assumption.
    destruct (last_match key_eqb (row_key row) ps) as [p|] eqn:El; [|reflexivity].
    eapply settled; eassumption.
  - intros p Hp. subst run. rewrite has_key_fold by assumption.
    replace (existsb (key_eqb (fst p)) (map fst ps)) with true; [apply orb_true_r|].
    symmetry. apply existsb_exists. exists (fst p). split.
    + now apply in_map.
    + now apply key_eqb_eq.
Qed.

(** [execute_values] a second time on the table it left: it ends the
    same way and leaves the same content. *)
Lemma execute_pages_rerun (pages : list (list Rec)) (table : list Row) (seq seq' : Z) :
  match fst (execute_pages key_eqb row_key rec_key new_row (Some set) pages table seq) with
  | Some t1 =>
      exists t2,
        fst (execute_pages key_eqb row_key rec_key new_row' (Some set') pages t1 seq')
        = Some t2
        /\ map content t2 = map content t1
  | None =>
      forall t, fst (execute_pages key_eqb row_key rec_key new_row' (Some set') pages t seq')
                = None
  end.
Proof.
  rewrite execute_pages_update by assumption.
  destruct (proposals key_eqb rec_key pages) as [ps|] eqn:Ep; cbn [option_map].
  - eexists. rewrite execute_pages_update, Ep by assumption. cbn [option_map].
    split; [reflexivity|]. apply rerun_content.
  - intros t. now rewrite execute_pages_update, Ep by assumption.
Qed.

End Rerun.

(** ** DO NOTHING *)

Section DoNothing.
Context {Row Rec Key : Type}.
Variable key_eqb : Key -> Key -> bool.
Variable row_key : Row -> Key.
Variable rec_key : Rec -> option Key.
Variable new_row : Z -> Key -> Rec -> Row.
Hypothesis key_eqb_eq : forall a b, key_eqb a b = true <-> a = b.
Hypothesis new_row_key : forall s k rec, row_key (new_row s k rec) = k.

Local Abbreviation apply0 := (apply0 key_eqb row_key new_row).
Local Abbreviation proposals0 := (proposals0 rec_key).

Lemma insert_rows_nothing (proposed : list (Key * Rec)) :
  forall table seq affected,
    insert_rows key_eqb row_key new_row None proposed table seq affected
    = (Some (fst (fold_left apply0 proposed (table, seq))),
       snd (fold_left apply0 proposed (table, seq))).
Proof.
  induction proposed as [|[k rec] rest IH]; intros table seq affected; [reflexivity|].
  cbn [insert_rows fold_left]. unfold apply0 at 2 4. cbn [fst snd].
  change (existsb (fun row => key_eqb k (row_key row)) table)
    with (has_key key_eqb row_key k table).
  destruct (has_key key_eqb row_key k table); apply IH.
Qed.

Lemma has_key_apply0 (k : Key) (st : list Row * Z) (p : Key * Rec) :
  has_key key_eqb row_key k (fst (apply0 st p))
  = has_key key_eqb row_key k (fst st) || key_eqb k (fst p).
Proof.
  unfold apply0. destruct (has_key key_eqb row_key (fst p) (fst st)) eqn:E; cbn [fst].
  - destruct (key_eqb k (fst p)) eqn:Ek; [|now rewrite orb_false_r].
    apply key_eqb_eq in Ek. subst k. now rewrite E.
  - rewrite has_key_app, has_key_one, new_row_key. reflexivity.
Qed.

Lemma has_key_fold0 (k : Key) (ps : list (Key * Rec)) :
  forall st,
    has_key key_eqb row_key k (fst (fold_left apply0 ps st))
    = has_key key_eqb row_key k (fst st) || existsb (key_eqb k) (map fst ps).
Proof.
  induction ps as [|p ps IH]; intros st; simpl; [now rewrite orb_false_r|].
  rewrite IH, has_key_apply0. now rewrite orb_assoc.
Qed.

(** The rows stored before stay as they are; the new rows follow. *)
Lemma fold_apply0_old (ps : list (Key * Rec)) :
  forall table seq,
  exists news, fst (fold_left apply0 ps (table, seq)) = table ++ news.
Proof.
  induction ps as [|[k rec] ps IH]; intros table seq.
  - exists []. simpl. now rewrite app_nil_r.
  - cbn [fold_left]. unfold apply0 at 2. cbn [fst snd].
    destruct (has_key key_eqb row_key k table); [apply IH|].
    destruct (IH (table ++ [new_row seq k rec]) (seq + 1)) as (news & ->).
    rewrite <- app_assoc. eauto.
Qed.

Lemma fold_apply0_present (ps : list (Key * Rec)) :
  forall table seq,
    (forall p, In p ps -> has_key key_eqb row_key (fst p) table = true) ->
    fst (fold_left apply0 ps (table, seq)) = table.
Proof.
  induction ps as [|[k rec] ps IH]; intros table seq Hall; [reflexivity|].
  cbn [fold_left]. unfold apply0 at 2. cbn [fst snd].
  pose proof (Hall (k, rec) (or_introl eq_refl)) as Ek. cbn [fst] in Ek.
  rewrite Ek. apply IH.
  intros p Hp. apply Hall. now right.
Qed.

Lemma execute_pages_nothing (pages : list (list Rec)) :
  forall table seq,
    fst (execute_pages key_eqb row_key rec_key new_row None pages table seq)
    = option_map (fun ps => fst (fold_left apply0 ps (table, seq))) (proposals0 pages).
Proof.
  unfold proposals0.
  induction pages as [|page rest IH]; intros table seq; [reflexivity|].
  cbn [execute_pages traverse]. fold (convert rec_key page).
  destruct (convert rec_key page) as [proposed|]; [|reflexivity].
  rewrite insert_rows_nothing, IH.
  destruct (traverse (convert rec_key) rest) as [pps|]; [|reflexivity].
  cbn [option_map concat]. rewrite fold_left_app.
  now destruct (fold_left apply0 proposed (table, seq)).
Qed.

(** [execute_values] a second time on the table it left: it ends the
    same way and leaves the table as it is. *)
Lemma execute_pages_nothing_rerun (pages : list (list Rec)) (table : list Row)
    (seq seq' : Z) :
  match fst (execute_pages key_eqb row_key rec_key new_row None pages table seq) with
  | Some t1 =>
      fst (execute_pages key_eqb row_key rec_key new_row None pages t1 seq') = Some t1
  | None =>
      forall t, fst (execute_pages key_eqb row_key rec_key new_row None pages t seq')
                = None
  end.
Proof.
  rewrite execute_pages_nothing.
  destruct (proposals0 pages) as [ps|] eqn:Ep; cbn [option_map].
  - rewrite execute_pages_nothing, Ep. cbn [option_map]. f_equal.
    apply fold_apply0_present. intros p Hp. rewrite has_key_fold0.
    replace (existsb (key_eqb (fst p)) (map fst ps)) with true; [apply orb_true_r|].
    symmetry. apply existsb_exists. exists (fst p). split.
    + now apply in_map.
    + now apply key_eqb_eq.
  - intros t. now rewrite execute_pages_nothing, Ep.
Qed.

End DoNothing.

(** ** Surrogate key resolution *)

(** One turn of the loop on a row whose three natural keys convert: the
    row is skipped when a lookup misses or returns 0, and a fact record
    with the three keys is appended otherwise. *)
Theorem fact_loop_step :
  forall (RT : Runtime) (w : Warehouse) (row : Sales.row) (rest : list Sales.row)
         (acc : list FactSales.row) (sk : nat) (d : option date) (cid pid : Z),
    to_date (Sales.sale_date row) = Some d ->
    py_int (Sales.customer_id row) = Some cid ->
    py_int (Sales.product_id row) = Some pid ->
    let date_key := get_date (date_lookup w) d in
    let customer_key := dict_get Z.eqb (customer_lookup w) cid in
    let product_key := dict_get Z.eqb (product_lookup w) pid in
    (date_key = None \/ customer_key = None \/ product_key = None
     \/ date_key = Some 0 \/ customer_key = Some 0 \/ product_key = Some 0 ->
     fact_loop w (row :: rest) acc sk = fact_loop w rest acc (S sk))
    /\ (forall dk ck pk sid q p t,
          date_key = Some dk -> customer_key = Some ck -> product_key = Some pk ->
          dk <> 0 -> ck <> 0 -> pk <> 0 ->
          py_int (Sales.sale_id row) = Some sid ->
          py_int (Sales.quantity row) = Some q ->
          py_float (Sales.unit_price row) = Some p ->
          py_float (Sales.total_amount row) = Some t ->
          fact_loop w (row :: rest) acc sk
          = fact_loop w rest (acc ++ [FactSales.mk sid dk ck pk q p t]) sk).
Proof.
  intros RT w row rest acc sk d cid pid Ed Ec Ep date_key customer_key product_key.
  split.
  - intros Hmiss. cbn [fact_loop]. rewrite Ed, Ec, Ep.
    fold date_key customer_key product_key.
    destruct (all [date_key; customer_key; product_key]) eqn:Eall; [|reflexivity].
    apply all_spec in Eall. destruct Eall as (T1 & T2 & T3).
    apply truthy_spec in T1, T2, T3.
    destruct T1 as (dk & E1 & N1), T2 as (ck & E2 & N2), T3 as (pk & E3 & N3).
    rewrite E1, E2, E3 in Hmiss.
    destruct Hmiss as [H | [H | [H | [H | [H | H]]]]];
      try discriminate; injection H as ->; contradiction.
  - intros dk ck pk sid q p t E1 E2 E3 N1 N2 N3 Es Eq Epr Et.
    cbn [fact_loop]. rewrite Ed, Ec, Ep.
    fold date_key customer_key product_key.
    replace (all [date_key; customer_key; product_key]) with true.
    + cbn [negb]. rewrite Es, Eq, Epr, Et, E1, E2, E3. reflexivity.
    + symmetry. apply all_spec. rewrite E1, E2, E3.
      repeat split; apply truthy_spec; eauto.
Qed.

(** C1.  In a warehouse where the customer of the sale has the surrogate
    key 0, the three lookups of the sale return a key, and yet the loop
    emits no fact record for it and counts it as skipped. *)
Theorem zero_key_lookup_hit_skipped :
  forall (RT : Runtime),
    dict_get date_eqb (date_lookup zero_key_warehouse) (mkdate 2024 3 15) = Some 1
    /\ dict_get Z.eqb (customer_lookup zero_key_warehouse) 1 = Some 0
    /\ dict_get Z.eqb (product_lookup zero_key_warehouse) 10 = Some 1
    /\ fact_loop zero_key_warehouse [cleaned_sale_100] [] O = Some ([], 1%nat)
    /\ load_fact_sales zero_key_warehouse [cleaned_sale_100] = (zero_key_warehouse, Done).
Proof. intros RT. repeat split. Qed.

(** C10.  There are a warehouse and a cleaned sale whose three lookups
    return a key while the sale is skipped; and whenever the three lookups
    of a row return keys of which one is 0, the loop appends nothing for
    the row and adds one to [skipped]. *)
Theorem zero_key_is_skipped :
  forall (RT : Runtime),
    (exists w row d cid pid dk ck pk,
        to_date (Sales.sale_date row) = Some (Some d)
        /\ py_int (Sales.customer_id row) = Some cid
        /\ py_int (Sales.product_id row) = Some pid
        /\ dict_get date_eqb (date_lookup w) d = Some dk
        /\ dict_get Z.eqb (customer_lookup w) cid = Some ck
        /\ dict_get Z.eqb (product_lookup w) pid = Some pk
        /\ fact_loop w [row] [] O = Some ([], 1%nat))
    /\ (forall w row rest acc sk d cid pid dk ck pk,
          to_date (Sales.sale_date row) = Some (Some d) ->
          py_int (Sales.customer_id row) = Some cid ->
          py_int (Sales.product_id row) = Some pid ->
          dict_get date_eqb (date_lookup w) d = Some dk ->
          dict_get Z.eqb (customer_lookup w) cid = Some ck ->
          dict_get Z.eqb (product_lookup w) pid = Some pk ->
          dk = 0 \/ ck = 0 \/ pk = 0 ->
          fact_loop w (row :: rest) acc sk = fact_loop w rest acc (S sk)).
Proof.
  intros RT. split.
  - exists zero_key_warehouse, cleaned_sale_100, (mkdate 2024 3 15), 1, 10, 1, 0, 1.
    repeat split.
  - intros w row rest acc sk d cid pid dk ck pk Ed Ec Ep E1 E2 E3 Hzero.
    cbn [fact_loop]. rewrite Ed, Ec, Ep. cbn [get_date]. rewrite E1, E2, E3.
    destruct (all [Some dk; Some ck; Some pk]) eqn:Eall; [|reflexivity].
    apply all_spec in Eall. destruct Eall as (T1 & T2 & T3).
    apply truthy_spec in T1, T2, T3.
    destruct T1 as (dk' & D1 & N1), T2 as (ck' & D2 & N2), T3 as (pk' & D3 & N3).
    injection D1 as <-. injection D2 as <-. injection D3 as <-. lia.
Qed.

(** ** The fact upsert *)

Lemma paginate_fuel_concat {A : Type} (page_size : nat) :
  (0 < page_size)%nat ->
  forall (fuel : nat) (l : list A),
    (length l <= fuel)%nat -> concat (paginate_fuel fuel page_size l) = l.
Proof.
  intros Hpos. induction fuel as [|fuel IH]; intros l Hl.
  - destruct l; [reflexivity | simpl in Hl; lia].
  - destruct l as [|x l]; [reflexivity|].
    cbn [paginate_fuel concat]. rewrite IH.
    + apply firstn_skipn.
    + rewrite length_skipn. cbn [length] in *. lia.
Qed.

Lemma paginate_concat {A : Type} (l : list A) : concat (paginate 100 l) = l.
Proof. unfold paginate. apply paginate_fuel_concat; lia. Qed.

Lemma convert_total {Rec Key : Type} (key : Rec -> Key) (page : list Rec) :
  convert (fun r => Some (key r)) page = Some (map (fun r => (key r, r)) page).
Proof.
  unfold convert. induction page as [|r page IH]; [reflexivity|].
  cbn [traverse]. rewrite IH. reflexivity.
Qed.

Lemma proposals_total {Rec Key : Type} (key_eqb : Key -> Key -> bool) (key : Rec -> Key)
    (pages : list (list Rec)) (ps : list (Key * Rec)) :
  proposals key_eqb (fun r => Some (key r)) pages = Some ps ->
  ps = map (fun r => (key r, r)) (concat pages).
Proof.
  unfold proposals. revert ps. induction pages as [|page rest IH]; intros ps; simpl.
  - intros E. now injection E as <-.
  - unfold page_accepted at 1. rewrite convert_total.
    destruct (distinct_from key_eqb [] _); [|discriminate].
    destruct (traverse _ rest) as [pps|]; [|discriminate].
    simpl. intros E. injection E as <-.
    rewrite map_app. f_equal. now apply IH.
Qed.

Lemma find_map {A B : Type} (f : A -> B) (g : B -> bool) (l : list A) :
  find g (map f l) = option_map f (find (fun x => g (f x)) l).
Proof.
  induction l as [|x l IH]; simpl; [reflexivity|].
  destruct (g (f x)); [reflexivity | exact IH].
Qed.

Lemma set_fact_measures_twice (r1 r2 x : FactSales.row) :
  set_fact_measures r2 (set_fact_measures r1 x) = set_fact_measures r2 x.
Proof. reflexivity. Qed.

Lemma updates_upserted (fact_records : list FactSales.row) (old : FactSales.row) :
  updates Z.eqb FactSales.sale_id set_fact_measures
    (map (fun r => (FactSales.sale_id r, r)) fact_records) old
  = upserted fact_records old.
Proof.
  rewrite (updates_last Z.eqb FactSales.sale_id set_fact_measures
             (fun _ _ => eq_refl) _ _ set_fact_measures_twice).
  unfold last_match, upserted, last_with_sale_id.
  rewrite <- map_rev, find_map. cbn [fst].
  destruct (find _ (rev fact_records)); reflexivity.
Qed.

Lemma keep_first_map {A B K : Type} (eqb : K -> K -> bool) (f : A -> B) (g : B -> K)
    (l : list A) :
  forall seen,
    keep_first eqb g seen (map f l) = map f (keep_first eqb (fun x => g (f x)) seen l).
Proof.
  induction l as [|x l IH]; intros seen; [reflexivity|].
  cbn [map keep_first]. destruct (existsb (eqb (g (f x))) seen).
  - apply IH.
  - cbn [map]. f_equal. apply IH.
Qed.

Lemma new_fact_same (r : FactSales.row) : new_fact (FactSales.sale_id r) r = r.
Proof. now destruct r. Qed.

(** C8.  When [load_fact_sales] returns, every fact row stored before is
    still at its place, with its [sale_id], [date_key], [customer_key] and
    [product_key] as they were; its three measures are those of the last
    fact record of the batch with its [sale_id], if there is one, and the
    row is as it was otherwise.  The rows that follow are the first record
    of each [sale_id] not stored before, with the measures of the last
    record with that [sale_id].  The dimension tables are not written. *)
Theorem fact_upsert_keeps_linkage :
  forall (RT : Runtime) (w w' : Warehouse) (sales_df : list Sales.row),
    load_fact_sales w sales_df = (w', Done) ->
    exists fact_records skipped,
      fact_loop w sales_df [] O = Some (fact_records, skipped)
      /\ fact_sales w'
         = map (upserted fact_records)
             (fact_sales w ++ inserted (fact_sales w) fact_records)
      /\ dim_customer w' = dim_customer w
      /\ dim_product w' = dim_product w
      /\ dim_date w' = dim_date w
      /\ (forall old,
            let new := upserted fact_records old in
            FactSales.sale_id new = FactSales.sale_id old
            /\ FactSales.date_key new = FactSales.date_key old
            /\ FactSales.customer_key new = FactSales.customer_key old
            /\ FactSales.product_key new = FactSales.product_key old
            /\ match last_with_sale_id (FactSales.sale_id old) fact_records with
               | Some rec =>
                   FactSales.quantity new = FactSales.quantity rec
                   /\ FactSales.unit_price new = FactSales.unit_price rec
                   /\ FactSales.total_amount new = FactSales.total_amount rec
               | None => new = old
               end).
Proof.
  intros RT w w' sales_df. unfold load_fact_sales.
  destruct (fact_loop w sales_df [] O) as [[fact_records skipped]|]; [|discriminate].
  unfold execute_values.
  pose proof (execute_pages_update Z.eqb FactSales.sale_id (fun _ => new_fact)
                set_fact_measures Z.eqb_eq (fun _ _ _ => eq_refl) (fun _ _ => eq_refl)
                (fun r => Some (FactSales.sale_id r))
                (paginate 100 fact_records) (fact_sales w) 0) as Hpages.
  destruct (execute_pages _ _ _ _ _ _ _ _) as [[table|] seq]; [|discriminate].
  intros E. injection E as <-. cbn [fst] in Hpages.
  destruct (proposals Z.eqb _ (paginate 100 fact_records)) as [ps|] eqn:Ep;
    [|discriminate].
  apply proposals_total in Ep. rewrite paginate_concat in Ep. subst ps.
  cbn [option_map] in Hpages. injection Hpages as ->.
  rewrite (fold_apply1_closed Z.eqb FactSales.sale_id (fun _ => new_fact)
             set_fact_measures Z.eqb_eq (fun _ _ _ => eq_refl) (fun _ _ => eq_refl)
             (fun _ _ _ _ => eq_refl) (fun _ _ _ => eq_refl)).
  exists fact_records, skipped. cbn [fact_sales dim_customer dim_product dim_date].
  split; [reflexivity|]. split.
  - rewrite (map_ext _ _ (updates_upserted fact_records)). f_equal. f_equal.
    rewrite keep_first_map, map_map. cbn [fst snd]. unfold inserted.
    rewrite (map_ext _ _ new_fact_same). apply map_id.
  - repeat split; unfold upserted;
      destruct (last_with_sale_id (FactSales.sale_id old) fact_records);
      repeat split.
Qed.

Lemma fact_upsert_keeps_linkage_witness :
  load_fact_sales (RT := example_runtime) stale_fact_warehouse [cleaned_sale_100]
  = (refreshed_fact_warehouse, Done)
  /\ exists fact_records skipped,
      fact_loop (RT := example_runtime) stale_fact_warehouse [cleaned_sale_100] [] O
      = Some (fact_records, skipped)
      /\ fact_sales refreshed_fact_warehouse
         = map (upserted fact_records)
             (fact_sales stale_fact_warehouse
              ++ inserted (fact_sales stale_fact_warehouse) fact_records).
Proof.
  split; [reflexivity|].
  destruct (fact_upsert_keeps_linkage example_runtime stale_fact_warehouse
              refreshed_fact_warehouse [cleaned_sale_100] eq_refl)
    as (fact_records & skipped & Hloop & Hfacts & _).
  exists fact_records, skipped. split; assumption.
Defined.

(** ** Running the pipeline a second time *)

Lemma customer_lookup_content (a b : Warehouse) :
  map customer_content (dim_customer a) = map customer_content (dim_customer b) ->
  customer_lookup a = customer_lookup b.
Proof.
  unfold customer_lookup. generalize (@nil (Z * Z)).
  generalize (dim_customer b). induction (dim_customer a) as [|x l IH];
    intros [|y l'] d E; try discriminate; [reflexivity|].
  cbn [map] in E. unfold customer_content in E.
  injection E as Ekey Eid _ _ _ _ El.
  cbn [fold_left]. rewrite Ekey, Eid. now apply IH.
Qed.

Lemma product_lookup_content (a b : Warehouse) :
  map product_content (dim_product a) = map product_content (dim_product b) ->
  product_lookup a = product_lookup b.
Proof.
  unfold product_lookup. generalize (@nil (Z * Z)).
  generalize (dim_product b). induction (dim_product a) as [|x l IH];
    intros [|y l'] d E; try discriminate; [reflexivity|].
  cbn [map] in E. unfold product_content in E.
  injection E as Ekey Eid _ _ _ _ El.
  cbn [fold_left]. rewrite Ekey, Eid. now apply IH.
Qed.

Lemma date_lookup_content (a b : Warehouse) :
  dim_date a = dim_date b -> date_lookup a = date_lookup b.
Proof. unfold date_lookup. now intros ->. Qed.

Lemma fact_loop_lookups {RT : Runtime} (a b : Warehouse) (rows : list Sales.row) :
  date_lookup a = date_lookup b ->
  customer_lookup a = customer_lookup b ->
  product_lookup a = product_lookup b ->
  forall acc sk, fact_loop a rows acc sk = fact_loop b rows acc sk.
Proof.
  intros Ed Ec Ep. induction rows as [|row rest IH]; intros acc sk; [reflexivity|].
  cbn [fact_loop]. rewrite Ed, Ec, Ep.
  destruct (to_date (Sales.sale_date row)); [|reflexivity].
  destruct (py_int (Sales.customer_id row)); [|reflexivity].
  destruct (py_int (Sales.product_id row)); [|reflexivity].
  destruct (negb _); [apply IH|].
  destruct (py_int (Sales.sale_id row)); [|reflexivity].
  destruct (py_int (Sales.quantity row)); [|reflexivity].
  destruct (py_float (Sales.unit_price row)); [|reflexivity].
  destruct (py_float (Sales.total_amount row)); [|reflexivity].
  apply IH.
Qed.

(** Each load writes its own table only. *)
Lemma load_dim_customer_frame {RT : Runtime} (now : Z) (w : Warehouse)
    (df : list Customers.row) :
  dim_product (fst (load_dim_customer now w df)) = dim_product w
  /\ dim_date (fst (load_dim_customer now w df)) = dim_date w
  /\ fact_sales (fst (load_dim_customer now w df)) = fact_sales w.
Proof.
  unfold load_dim_customer.
  destruct (execute_values _ _ _ _ _ _ _ _) as [[t|] s]; simpl; auto.
Qed.

Lemma load_dim_product_frame {RT : Runtime} (now : Z) (w : Warehouse)
    (df : list Products.row) :
  dim_customer (fst (load_dim_product now w df)) = dim_customer w
  /\ dim_date (fst (load_dim_product now w df)) = dim_date w
  /\ fact_sales (fst (load_dim_product now w df)) = fact_sales w.
Proof.
  unfold load_dim_product.
  destruct (execute_values _ _ _ _ _ _ _ _) as [[t|] s]; simpl; auto.
Qed.

Lemma load_dim_date_frame (w : Warehouse) (df : list DateDim.row) :
  dim_customer (fst (load_dim_date w df)) = dim_customer w
  /\ dim_product (fst (load_dim_date w df)) = dim_product w
  /\ fact_sales (fst (load_dim_date w df)) = fact_sales w.
Proof.
  unfold load_dim_date.
  destruct (execute_values _ _ _ _ _ _ _ _) as [[t|] s]; simpl; auto.
Qed.

Lemma load_fact_sales_frame {RT : Runtime} (w : Warehouse) (df : list Sales.row) :
  dim_customer (fst (load_fact_sales w df)) = dim_customer w
  /\ dim_product (fst (load_fact_sales w df)) = dim_product w
  /\ dim_date (fst (load_fact_sales w df)) = dim_date w.
Proof.
  unfold load_fact_sales.
  destruct (fact_loop w df [] O) as [[recs sk]|]; [|simpl; auto].
  destruct (execute_values _ _ _ _ _ _ _ _) as [[t|] s]; simpl; auto.
Qed.

(** Each load, run again on the table it left, ends the same way and
    leaves the content of the table. *)
Lemma load_dim_customer_rerun {RT : Runtime} (now now' : Z) (w wx : Warehouse)
    (df : list Customers.row) :
  dim_customer wx = dim_customer (fst (load_dim_customer now w df)) ->
  snd (load_dim_customer now' wx df) = snd (load_dim_customer now w df)
  /\ map customer_content (dim_customer (fst (load_dim_customer now' wx df)))
     = map customer_content (dim_customer wx).
Proof.
  unfold load_dim_customer, execute_values.
  pose proof (execute_pages_rerun Z.eqb DimCustomer.customer_id
                (fun r => sql_integer (Customers.customer_id r))
                (new_customer now) (new_customer now')
                (set_customer now) (set_customer now') customer_content
                Z.eqb_eq (fun _ _ _ => eq_refl) (fun _ _ _ => eq_refl)
                (fun _ _ => eq_refl) (fun _ _ => eq_refl)
                (fun _ _ => eq_refl) (fun _ _ _ => eq_refl) (fun _ _ _ => eq_refl)
                (paginate 100 df) (dim_customer w) (customer_key_seq w)
                (customer_key_seq wx)) as Hrerun.
  destruct (execute_pages _ _ _ (new_customer now) _ _ _ _) as [[t1|] s1];
    cbn [fst snd dim_customer] in *; intros Hwx; rewrite Hwx.
  - destruct Hrerun as (t2 & E2 & Hc).
    destruct (execute_pages _ _ _ (new_customer now') _ _ _ _) as [[t2'|] s2];
      cbn [fst] in E2; [|discriminate].
    injection E2 as ->. cbn [fst snd dim_customer]. auto.
  - specialize (Hrerun (dim_customer w)).
    destruct (execute_pages _ _ _ (new_customer now') _ _ _ _) as [[t2'|] s2];
      cbn [fst] in Hrerun; [discriminate|].
    cbn [fst snd dim_customer]. auto.
Qed.

Lemma load_dim_product_rerun {RT : Runtime} (now now' : Z) (w wx : Warehouse)
    (df : list Products.row) :
  dim_product wx = dim_product (fst (load_dim_product now w df)) ->
  snd (load_dim_product now' wx df) = snd (load_dim_product now w df)
  /\ map product_content (dim_product (fst (load_dim_product now' wx df)))
     = map product_content (dim_product wx).
Proof.
  unfold load_dim_product, execute_values.
  pose proof (execute_pages_rerun Z.eqb DimProduct.product_id
                (fun r => sql_integer (Products.product_id r))
                (new_product now) (new_product now')
                (set_product now) (set_product now') product_content
                Z.eqb_eq (fun _ _ _ => eq_refl) (fun _ _ _ => eq_refl)
                (fun _ _ => eq_refl) (fun _ _ => eq_refl)
                (fun _ _ => eq_refl) (fun _ _ _ => eq_refl) (fun _ _ _ => eq_refl)
                (paginate 100 df) (dim_product w) (product_key_seq w)
                (product_key_seq wx)) as Hrerun.
  destruct (execute_pages _ _ _ (new_product now) _ _ _ _) as [[t1|] s1];
    cbn [fst snd dim_product] in *; intros Hwx; rewrite Hwx.
  - destruct Hrerun as (t2 & E2 & Hc).
    destruct (execute_pages _ _ _ (new_product now') _ _ _ _) as [[t2'|] s2];
      cbn [fst] in E2; [|discriminate].
    injection E2 as ->. cbn [fst snd dim_product]. auto.
  - specialize (Hrerun (dim_product w)).
    destruct (execute_pages _ _ _ (new_product now') _ _ _ _) as [[t2'|] s2];
      cbn [fst] in Hrerun; [discriminate|].
    cbn [fst snd dim_product]. auto.
Qed.

Lemma load_dim_date_rerun (w wx : Warehouse) (df : list DateDim.row) :
  dim_date wx = dim_date (fst (load_dim_date w df)) ->
  snd (load_dim_date wx df) = snd (load_dim_date w df)
  /\ dim_date (fst (load_dim_date wx df)) = dim_date wx.
Proof.
  unfold load_dim_date, execute_values.
  pose proof (execute_pages_nothing_rerun date_eqb DimDate.sale_date
                (fun r => Some (DateDim.sale_date r)) new_date
                date_eqb_eq (fun _ _ _ => eq_refl)
                (paginate 100 df) (dim_date w) (date_key_seq w) (date_key_seq wx))
    as Hrerun.
  destruct (execute_pages _ _ _ _ _ _ (dim_date w) _) as [[t1|] s1];
    cbn [fst snd dim_date] in *; intros Hwx; rewrite Hwx.
  - destruct (execute_pages _ _ _ _ _ _ t1 _) as [[t2'|] s2];
      cbn [fst] in Hrerun; [|discriminate].
    injection Hrerun as ->. cbn [fst snd dim_date]. auto.
  - specialize (Hrerun (dim_date w)).
    destruct (execute_pages _ _ _ _ _ _ (dim_date w) _) as [[t2'|] s2];
      cbn [fst] in Hrerun; [discriminate|].
    cbn [fst snd dim_date]. auto.
Qed.

Lemma load_fact_sales_rerun {RT : Runtime} (w wx : Warehouse) (df : list Sales.row) :
  date_lookup wx = date_lookup w ->
  customer_lookup wx = customer_lookup w ->
  product_lookup wx = product_lookup w ->
  fact_sales wx = fact_sales (fst (load_fact_sales w df)) ->
  snd (load_fact_sales wx df) = snd (load_fact_sales w df)
  /\ fact_sales (fst (load_fact_sales wx df)) = fact_sales wx.
Proof.
  intros Ed Ec Ep. unfold load_fact_sales.
  rewrite (fact_loop_lookups wx w df Ed Ec Ep).
  destruct (fact_loop w df [] O) as [[recs sk]|]; [|cbn [fst snd]; auto].
  unfold execute_values.
  pose proof (execute_pages_rerun Z.eqb FactSales.sale_id
                (fun r => Some (FactSales.sale_id r))
                (fun _ => new_fact) (fun _ => new_fact)
                set_fact_measures set_fact_measures (fun r => r)
                Z.eqb_eq (fun _ _ _ => eq_refl) (fun _ _ _ => eq_refl)
                (fun _ _ => eq_refl) (fun _ _ => eq_refl)
                (fun _ _ => eq_refl) (fun _ _ _ => eq_refl) (fun _ _ _ => eq_refl)
                (paginate 100 recs) (fact_sales w) 0 0) as Hrerun.
  destruct (execute_pages _ _ _ _ _ _ (fact_sales w) _) as [[t1|] s1];
    cbn [fst snd fact_sales] in *; intros Hwx; rewrite Hwx.
  - destruct Hrerun as (t2 & E2 & Hc). rewrite !map_id in Hc.
    destruct (execute_pages _ _ _ _ _ _ t1 _) as [[t2'|] s2];
      cbn [fst] in E2; [|discriminate].
    injection E2 as ->. cbn [fst snd fact_sales]. auto.
  - specialize (Hrerun (fact_sales w)).
    destruct (execute_pages _ _ _ _ _ _ (fact_sales w) _) as [[t2'|] s2];
      cbn [fst] in Hrerun; [discriminate|].
    cbn [fst snd fact_sales]. rewrite Hwx. auto.
Qed.

Ltac frame_of E :=
  lazymatch type of E with
  | load_dim_customer ?t ?w ?df = _ =>
      let F := fresh "F" in
      pose proof (load_dim_customer_frame t w df) as F;
      rewrite E in F; cbn [fst] in F; destruct F as (? & ? & ?)
  | load_dim_product ?t ?w ?df = _ =>
      let F := fresh "F" in
      pose proof (load_dim_product_frame t w df) as F;
      rewrite E in F; cbn [fst] in F; destruct F as (? & ? & ?)
  | load_dim_date ?w ?df = _ =>
      let F := fresh "F" in
      pose proof (load_dim_date_frame w df) as F;
      rewrite E in F; cbn [fst] in F; destruct F as (? & ? & ?)
  | load_fact_sales ?w ?df = _ =>
      let F := fresh "F" in
      pose proof (load_fact_sales_frame w df) as F;
      rewrite E in F; cbn [fst] in F; destruct F as (? & ? & ?)
  end.

(** The second run of a stage, from the state [wx], given the equation
    [E] of its first run. *)
Ltac rerun_of E wx :=
  lazymatch type of E with
  | load_dim_customer ?t ?w ?df = _ =>
      lazymatch goal with
      | |- context [load_dim_customer ?t' wx df] =>
          let R := fresh "R" in
          let E' := fresh "E" in
          pose proof (load_dim_customer_rerun t t' w wx df) as R;
          rewrite E in R; cbn [fst snd] in R;
          destruct (load_dim_customer t' wx df) as [? ?] eqn:E';
          cbn [fst snd] in R;
          lapply R; [clear R; intros [-> ?] | congruence];
          frame_of E'
      end
  | load_dim_product ?t ?w ?df = _ =>
      lazymatch goal with
      | |- context [load_dim_product ?t' wx df] =>
          let R := fresh "R" in
          let E' := fresh "E" in
          pose proof (load_dim_product_rerun t t' w wx df) as R;
          rewrite E in R; cbn [fst snd] in R;
          destruct (load_dim_product t' wx df) as [? ?] eqn:E';
          cbn [fst snd] in R;
          lapply R; [clear R; intros [-> ?] | congruence];
          frame_of E'
      end
  | load_dim_date ?w ?df = _ =>
      let R := fresh "R" in
      let E' := fresh "E" in
      pose proof (load_dim_date_rerun w wx df) as R;
      rewrite E in R; cbn [fst snd] in R;
      destruct (load_dim_date wx df) as [? ?] eqn:E';
      cbn [fst snd] in R;
      lapply R; [clear R; intros [-> ?] | congruence];
      frame_of E'
  end.

Lemma load_all_rerun {RT : Runtime} (t1 t2 t1' t2' : Z) (w : Warehouse)
    (sales_df : list Sales.row) (customers_df : list Customers.row)
    (products_df : list Products.row) (date_df : list DateDim.row) :
  let r1 := load_all t1 t2 w sales_df customers_df products_df date_df in
  let r2 := load_all t1' t2' (fst r1) sales_df customers_df products_df date_df in
  snd r2 = snd r1 /\ same_content (fst r2) (fst r1).
Proof.
  intros r1 r2. subst r2 r1. unfold load_all, same_content.
  destruct (load_dim_customer t1 w customers_df) as [wc sc] eqn:Ec. frame_of Ec.
  destruct sc.
  - destruct (load_dim_product t2 wc products_df) as [wp sp] eqn:Ep. frame_of Ep.
    destruct sp.
    + destruct (load_dim_date wp date_df) as [wd sd] eqn:Ed. frame_of Ed.
      destruct sd.
      * destruct (load_fact_sales wd sales_df) as [wf sf] eqn:Ef. frame_of Ef.
        cbn [fst snd].
        rerun_of Ec wf. rerun_of Ep w0. rerun_of Ed w1.
        pose proof (load_fact_sales_rerun wd w2 sales_df) as R.
        rewrite Ef in R. cbn [fst snd] in R.
        destruct (load_fact_sales w2 sales_df) as [wf' sf'] eqn:Ef'. frame_of Ef'.
        cbn [fst snd] in R |- *.
        destruct R as [-> R].
        -- apply date_lookup_content. congruence.
        -- apply customer_lookup_content. congruence.
        -- apply product_lookup_content. congruence.
        -- congruence.
        -- repeat split; congruence.
      * cbn [fst snd]. rerun_of Ec wd. rerun_of Ep w0. rerun_of Ed w1.
        cbn [fst snd]. repeat split; congruence.
    + cbn [fst snd]. rerun_of Ec wp. rerun_of Ep w0.
      cbn [fst snd]. repeat split; congruence.
  - cbn [fst snd]. rerun_of Ec wc. cbn [fst snd]. repeat split; congruence.
Qed.

(** C9, as the code has it.  A second run of the pipeline on the same
    input, from the warehouse the first run left, ends as the first run
    ended and leaves the same rows in the four tables, with the same
    values in every column but [updated_at] of [dim_customer] and
    [dim_product], which the upsert sets to the time of the run. *)
Theorem rerun_same_content :
  forall (RT : Runtime) (t1 t2 t1' t2' : Z) (w : Warehouse)
         (sales : list Sales.row) (customers : list Customers.row)
         (products : list Products.row),
    let r1 := main t1 t2 w sales customers products in
    let r2 := main t1' t2' (fst r1) sales customers products in
    snd r2 = snd r1
    /\ same_content (fst r2) (fst r1)
    /\ length (dim_customer (fst r2)) = length (dim_customer (fst r1))
    /\ length (dim_product (fst r2)) = length (dim_product (fst r1))
    /\ length (dim_date (fst r2)) = length (dim_date (fst r1))
    /\ length (fact_sales (fst r2)) = length (fact_sales (fst r1)).
Proof.
  intros RT t1 t2 t1' t2' w sales customers products r1 r2.
  assert (H : snd r2 = snd r1 /\ same_content (fst r2) (fst r1)).
  { subst r2 r1. unfold main.
    destruct (transform_all sales customers products)
      as [[[[sales_t customers_t] products_t] date_dim]|].
    - apply load_all_rerun.
    - cbn [fst snd]. unfold same_content. auto. }
  destruct H as (Hs & Hc & Hp & Hd & Hf).
  split; [exact Hs|]. split; [unfold same_content; auto|].
  repeat split.
  - apply (f_equal (@length _)) in Hc. now rewrite !length_map in Hc.
  - apply (f_equal (@length _)) in Hp. now rewrite !length_map in Hp.
  - now rewrite Hd.
  - now rewrite Hf.
Qed.

(** C9, as stated, fails: the second run, at a later time, leaves another
    [updated_at] in [dim_customer] than the first run did. *)
Lemma rerun_changes_updated_at :
  map DimCustomer.updated_at (dim_customer first_run_warehouse) = [5]
  /\ map DimCustomer.updated_at (dim_customer second_run_warehouse) = [7]
  /\ dim_customer second_run_warehouse <> dim_customer first_run_warehouse.
Proof.
  split; [reflexivity|]. split; [reflexivity|].
  intros E. apply (f_equal (map DimCustomer.updated_at)) in E.
  vm_compute in E. discriminate E.
Qed.

(** * More of the code *)

(** ** [remove_duplicates] and [handle_missing_values] *)

Lemma keep_first_distinct {A K : Type} (eqb : K -> K -> bool) (key : A -> K)
    (eqb_eq : forall a b, eqb a b = true <-> a = b) (l : list A) :
  forall seen,
    NoDup (map key l) ->
    (forall x, In x l -> ~ In (key x) seen) ->
    keep_first eqb key seen l = l.
Proof.
  induction l as [|x l IH]; intros seen Hnd Hseen; [reflexivity|].
  cbn [keep_first map] in *. apply NoDup_cons_iff in Hnd. destruct Hnd as [Hx Hnd].
  destruct (existsb (eqb (key x)) seen) eqn:E.
  - apply (existsb_eqb_In eqb eqb_eq) in E. exfalso. apply (Hseen x); [now left | exact E].
  - f_equal. apply IH; [exact Hnd|].
    intros y Hy [E' | Hin].
    + apply Hx. rewrite E'. now apply in_map.
    + apply (Hseen y); [now right | exact Hin].
Qed.

(** X1.  Removing the duplicates of a frame that has none under [subset]
    returns the frame as it is. *)
Theorem remove_duplicates_distinct :
  forall (R : Type) (F : Frame R) (df : list R) (subset : option (list (column R))),
    NoDup (map (values (subset_or_all subset)) df) ->
    remove_duplicates df subset = df.
Proof.
  intros R F df subset Hnd. unfold remove_duplicates, drop_duplicates.
  apply keep_first_distinct; [exact cells_eqb_eq | exact Hnd | intros x _ []].
Qed.

Lemma remove_duplicates_distinct_witness :
  NoDup (map (values (subset_or_all (Some [Customers.Col.customer_id]))) [alice; bob])
  /\ remove_duplicates [alice; bob] (Some [Customers.Col.customer_id]) = [alice; bob].
Proof.
  assert (Hnd : NoDup (map (values (subset_or_all (Some [Customers.Col.customer_id])))
                         [alice; bob])).
  { repeat constructor; simpl; intuition discriminate. }
  split; [exact Hnd|].
  exact (remove_duplicates_distinct Customers.row Customers.frame [alice; bob]
           (Some [Customers.Col.customer_id]) Hnd).
Defined.

(** X2.  [remove_duplicates] is idempotent: a second call under the same
    [subset] removes nothing more. *)
Theorem remove_duplicates_idempotent :
  forall (R : Type) (F : Frame R) (df : list R) (subset : option (list (column R))),
    remove_duplicates (remove_duplicates df subset) subset = remove_duplicates df subset.
Proof.
  intros R F df subset. unfold remove_duplicates, drop_duplicates.
  apply keep_first_distinct; [exact cells_eqb_eq | | intros x _ []].
  apply keep_first_NoDup. exact cells_eqb_eq.
Qed.

Lemma filter_all {A : Type} (p : A -> bool) (l : list A) :
  (forall x, In x l -> p x = true) -> filter p l = l.
Proof.
  induction l as [|x l IH]; intros Hp; [reflexivity|].
  simpl. rewrite (Hp x (or_introl eq_refl)). f_equal. apply IH.
  intros y Hy. apply Hp. now right.
Qed.

(** X3.  With the strategy [drop], [handle_missing_values] keeps exactly
    the rows that miss no cell, loses no such row, returns no more rows
    than it got, and changes nothing when it is called again. *)
Theorem handle_missing_values_drop_complete :
  forall (R : Type) (F : Frame R) (df : list R),
    let out := handle_missing_values df drop in
    (forall r, In r out <-> In r df /\ complete r)
    /\ (length out <= length df)%nat
    /\ handle_missing_values out drop = out.
Proof.
  intros R F df out. subst out. split; [|split].
  - intros r. apply handle_missing_values_drop_In.
  - unfold handle_missing_values, dropna. apply List.filter_length_le.
  - unfold handle_missing_values, dropna. apply filter_all.
    intros r Hr. now apply filter_In in Hr.
Qed.

Lemma fill_column_series {R : Type} (df : list R) (c : column R) :
  fill_column df c
  = map (fun r => cset c (fillna (fill_value (map (cget c) df)) (cget c r)) r) df.
Proof. unfold fill_column, fill_value. now destruct (numeric_dtype _). Qed.

Lemma fill_fold {R : Type} {F : Frame R} (Hlaw : lawful (@columns R F)) (cs : list (column R)) :
  forall (offset : nat) (df : list R),
    (forall k c, nth_error cs k = Some c -> nth_error columns (offset + k) = Some c) ->
    forall j cj,
      nth_error columns j = Some cj ->
      map (cget cj) (fold_left fill_column cs df)
      = if (offset <=? j)%nat && (j <? offset + length cs)%nat
        then map (fillna (fill_value (map (cget cj) df))) (map (cget cj) df)
        else map (cget cj) df.
Proof.
  induction cs as [|c cs IH]; intros offset df Hcs j cj Hj.
  - cbn [fold_left length]. replace (offset + 0)%nat with offset by lia.
    destruct (offset <=? j)%nat eqn:E1; [|reflexivity].
    replace (j <? offset)%nat with false; [reflexivity|].
    symmetry. apply Nat.ltb_ge. now apply Nat.leb_le.
  - cbn [fold_left length].
    assert (Hc : nth_error columns offset = Some c).
    { rewrite <- (Nat.add_0_r offset). now apply Hcs. }
    assert (Hcol : map (cget cj) (fill_column df c)
                   = if Nat.eqb offset j
                     then map (fillna (fill_value (map (cget cj) df))) (map (cget cj) df)
                     else map (cget cj) df).
    { rewrite fill_column_series, !map_map.
      destruct (Nat.eqb offset j) eqn:E.
      - apply Nat.eqb_eq in E. subst j. rewrite Hj in Hc. injection Hc as <-.
        apply map_ext. intros r. rewrite (Hlaw offset offset cj cj Hj Hj).
        now rewrite Nat.eqb_refl.
      - apply map_ext. intros r. rewrite (Hlaw offset j c cj Hc Hj). now rewrite E. }
    assert (Hcs' : forall k c', nth_error cs k = Some c' ->
                     nth_error columns (S offset + k) = Some c').
    { intros k c' Hk. replace (S offset + k)%nat with (offset + S k)%nat by lia.
      now apply Hcs. }
    rewrite (IH (S offset) (fill_column df c) Hcs' j cj Hj), Hcol.
    destruct (Nat.eqb offset j) eqn:E.
    + apply Nat.eqb_eq in E. subst j.
      replace (S offset <=? offset)%nat with false by (symmetry; apply Nat.leb_gt; lia).
      replace (offset <=? offset)%nat with true by (symmetry; apply Nat.leb_le; lia).
      replace (offset <? offset + S (length cs))%nat with true
        by (symmetry; apply Nat.ltb_lt; lia).
      reflexivity.
    + apply Nat.eqb_neq in E.
      replace (offset + S (length cs))%nat with (S offset + length cs)%nat by lia.
      destruct (S offset <=? j)%nat eqn:E1.
      * apply Nat.leb_le in E1.
        replace (offset <=? j)%nat with true by (symmetry; apply Nat.leb_le; lia).
        reflexivity.
      * apply Nat.leb_gt in E1.
        replace (offset <=? j)%nat with false by (symmetry; apply Nat.leb_gt; lia).
        reflexivity.
Qed.

(** X4.  With the strategy [fill], on a frame whose columns are
    independent, [handle_missing_values] keeps every row and leaves no
    missing cell: in each column the missing cells become 0 when the column
    holds numbers only, and "Unknown" otherwise, and the other cells stay.
    The fill of a column writes into the frame, as [fillna] with
    [inplace=True] on [df_cleaned[col]] does when pandas runs without
    copy-on-write. *)
Theorem handle_missing_values_fill_complete :
  forall (R : Type) (F : Frame R) (df : list R),
    lawful (@columns R F) ->
    let out := handle_missing_values df fill in
    length out = length df
    /\ (forall col, In col columns ->
          map (cget col) out
          = map (fillna (fill_value (map (cget col) df))) (map (cget col) df))
    /\ (forall r, In r out -> complete r).
Proof.
  intros R F df Hlaw out. subst out. unfold handle_missing_values.
  assert (Hcols : forall col, In col columns ->
            map (cget col) (fold_left fill_column columns df)
            = map (fillna (fill_value (map (cget col) df))) (map (cget col) df)).
  { intros col Hcol. apply In_nth_error in Hcol. destruct Hcol as (j & Hj).
    rewrite (fill_fold Hlaw columns 0 df (fun k c H => H) j col Hj).
    replace (j <? 0 + length columns)%nat with true; [reflexivity|].
    symmetry. apply Nat.ltb_lt. simpl. apply nth_error_Some. congruence. }
  split; [|split].
  - clear Hcols Hlaw. generalize df. induction (@columns R F) as [|c cs IH]; intros df0;
      [reflexivity|].
    cbn [fold_left]. rewrite IH, fill_column_series. apply length_map.
  - exact Hcols.
  - intros r Hr col Hcol E.
    assert (Hin : In (cget col r) (map (cget col) (fold_left fill_column columns df)))
      by now apply in_map.
    rewrite (Hcols col Hcol), E in Hin.
    apply in_map_iff in Hin. destruct Hin as (c & Ec & _).
    unfold fillna, fill_value in Ec.
    destruct c; try discriminate.
    destruct (numeric_dtype _); discriminate.
Qed.

Lemma customers_lawful : lawful (@columns Customers.row Customers.frame).
Proof.
  intros i j ci cj Hi Hj v r.
  destruct i as [|[|[|[|[|i]]]]]; simpl in Hi; try (destruct i; discriminate);
    injection Hi as <-;
    destruct j as [|[|[|[|[|j]]]]]; simpl in Hj; try (destruct j; discriminate);
    injection Hj as <-; reflexivity.
Qed.

Lemma handle_missing_values_fill_complete_witness :
  lawful (@columns Customers.row Customers.frame)
  /\ handle_missing_values [alice; carol] fill
     = [alice; Customers.mk (num 3 1) (Str "Carol") (Str "c@x.com") (Str "Unknown")
                 (Str "US")]
  /\ forall r, In r (handle_missing_values [alice; carol] fill) -> complete r.
Proof.
  split; [exact customers_lawful|]. split; [reflexivity|].
  apply (handle_missing_values_fill_complete Customers.row Customers.frame
           [alice; carol] customers_lawful).
Defined.

(** ** [transform_sales_data] *)

(** A selection of rows with distinct keys has distinct keys. *)
Lemma NoDup_map_filter {R K : Type} (key : R -> K) (keep : R -> bool) :
  forall df : list R, NoDup (map key df) -> NoDup (map key (filter keep df)).
Proof.
  intros df. induction df as [|r df IH]; cbn [map filter]; intros Hnd; [constructor|].
  apply NoDup_cons_iff in Hnd. destruct Hnd as [Hr Hnd].
  destruct (keep r); [|now apply IH].
  cbn [map]. constructor; [|now apply IH].
  intros Hin. apply Hr. apply in_map_iff in Hin. destruct Hin as (y & E & Hy).
  apply filter_In in Hy. apply in_map_iff. exists y. tauto.
Qed.

Lemma NoDup_map_outer {A B C : Type} (f : A -> B) (g : B -> C) (l : list A) :
  NoDup (map (fun x => g (f x)) l) -> NoDup (map f l).
Proof.
  intros Hnd. rewrite <- map_map in Hnd. eapply NoDup_map_inv. exact Hnd.
Qed.

Lemma map_all {A : Type} (f : A -> A) (l : list A) :
  (forall x, In x l -> f x = x) -> map f l = l.
Proof.
  intros Hf. rewrite <- (map_id l) at 2. now apply map_ext_in.
Qed.

Lemma traverse_all {A : Type} (f : A -> option A) (l : list A) :
  (forall x, In x l -> f x = Some x) -> traverse f l = Some l.
Proof.
  induction l as [|x l IH]; intros Hf; [reflexivity|].
  simpl. rewrite (Hf x (or_introl eq_refl)), IH; [reflexivity|].
  intros y Hy. apply Hf. now right.
Qed.

Lemma Forall2_map_eq {A B C : Type} (f : A -> C) (g : B -> C) (l : list A) (l' : list B) :
  Forall2 (fun x y => g y = f x) l l' -> map g l' = map f l.
Proof. induction 1; simpl; congruence. Qed.

(** The frame after the conversion of the dates, and what the cleaned
    frame is made of. *)
Lemma transform_sales_data_shape {RT : Runtime} (sales_df cleaned : list Sales.row) :
  transform_sales_data sales_df = Some cleaned ->
  exists df1,
    Forall2 (fun r c => exists v, c = Sales.set_sale_date v r
                                  /\ ((exists t, v = Time t) \/ v = NA))
      (handle_missing_values (remove_duplicates sales_df (Some [Sales.Col.sale_id])) drop)
      df1
    /\ cleaned
       = filter (fun r => gt0 (Sales.quantity r) && gt0 (Sales.unit_price r)
                          && gt0 (Sales.total_amount r))
           (dropna (Some [Sales.Col.quantity; Sales.Col.unit_price;
                          Sales.Col.total_amount])
              (assign Sales.Col.total_amount to_numeric
                 (assign Sales.Col.unit_price to_numeric
                    (assign Sales.Col.quantity to_numeric df1)))).
Proof.
  unfold transform_sales_data.
  set (df0 := handle_missing_values _ drop).
  destruct (assign_opt Sales.Col.sale_date _ df0) as [df1|] eqn:E1; [|discriminate].
  intros E. injection E as <-. exists df1. split; [|reflexivity].
  unfold assign_opt in E1. apply traverse_Forall2 in E1.
  eapply Forall2_impl; [|exact E1].
  intros r c Hc. cbn [cget cset Sales.Col.sale_date] in Hc.
  destruct (to_datetime_in _ (Sales.sale_date r)) as [v|] eqn:Ev; [|discriminate].
  apply to_datetime_in_Time in Ev.
  exists v. simpl in Hc. injection Hc as <-. auto.
Qed.

Lemma cleaned_sale_id_NoDup {RT : Runtime} (sales_df cleaned : list Sales.row) :
  transform_sales_data sales_df = Some cleaned -> NoDup (map Sales.sale_id cleaned).
Proof.
  intros E. destruct (transform_sales_data_shape _ _ E) as (df1 & H1 & ->).
  apply NoDup_map_filter. unfold dropna. apply NoDup_map_filter.
  unfold assign. rewrite !map_map. cbn [cget cset Sales.Col.total_amount
    Sales.Col.unit_price Sales.Col.quantity Sales.sale_id Sales.set_total_amount
    Sales.set_unit_price Sales.set_quantity].
  change (NoDup (map Sales.sale_id df1)).
  assert (Hids : map Sales.sale_id df1
                 = map Sales.sale_id
                     (handle_missing_values
                        (remove_duplicates sales_df (Some [Sales.Col.sale_id])) drop)).
  { apply Forall2_map_eq. eapply Forall2_impl; [|exact H1].
    intros r c (v & -> & _). reflexivity. }
  rewrite Hids. unfold handle_missing_values, dropna. apply NoDup_map_filter.
  apply (NoDup_map_outer Sales.sale_id (fun c => [c])).
  apply (keep_first_NoDup cells_eqb
           (values (subset_or_all (Some [Sales.Col.sale_id]))) cells_eqb_eq).
Qed.

(** X5.  The cleaned sales frame holds each [sale_id] once. *)
Theorem cleaned_sales_unique_sale_id :
  forall (RT : Runtime) (sales_df cleaned : list Sales.row),
    transform_sales_data sales_df = Some cleaned ->
    NoDup (map Sales.sale_id cleaned).
Proof. intros RT sales_df cleaned. apply cleaned_sale_id_NoDup. Qed.

Lemma cleaned_sales_unique_sale_id_witness :
  transform_sales_data (RT := example_runtime)
    [good_sale; zero_quantity_sale; negative_price_sale; text_total_sale]
  = Some [cleaned_good_sale]
  /\ NoDup (map Sales.sale_id [cleaned_good_sale]).
Proof.
  split; [reflexivity|].
  exact (cleaned_sales_unique_sale_id example_runtime
           [good_sale; zero_quantity_sale; negative_price_sale; text_total_sale]
           [cleaned_good_sale] eq_refl).
Defined.

Lemma greater_than_0_numeric {RT : Runtime} (c : cell) :
  greater_than_0 c -> to_numeric c = c /\ notna c = true.
Proof. intros [(q & -> & _) | ->]; split; reflexivity. Qed.

Lemma cleaned_sales_row {RT : Runtime} (sales_df cleaned : list Sales.row) (c : Sales.row) :
  transform_sales_data sales_df = Some cleaned -> In c cleaned ->
  Sales.sale_id c <> NA
  /\ ((exists t, Sales.sale_date c = Time t) \/ Sales.sale_date c = NA)
  /\ Sales.customer_id c <> NA
  /\ Sales.product_id c <> NA
  /\ greater_than_0 (Sales.quantity c)
  /\ greater_than_0 (Sales.unit_price c)
  /\ greater_than_0 (Sales.total_amount c).
Proof.
  intros E Hc. destruct (transform_sales_data_shape _ _ E) as (df1 & H1 & ->).
  apply filter_In in Hc. destruct Hc as [Hc Hpos].
  apply andb_true_iff in Hpos. destruct Hpos as [Hqp Ht].
  apply andb_true_iff in Hqp. destruct Hqp as [Hq Hp].
  apply gt0_spec in Hq, Hp, Ht.
  apply dropna_In in Hc. destruct Hc as [Hc _].
  apply assign_In in Hc. destruct Hc as (c3 & Hc & ->).
  apply assign_In in Hc. destruct Hc as (c2 & Hc & ->).
  apply assign_In in Hc. destruct Hc as (c1 & Hc & ->).
  destruct (Forall2_In_r _ _ _ _ H1 Hc) as (r & Hr & v & -> & Hv).
  apply handle_missing_values_drop_In in Hr. destruct Hr as [_ Hcomplete].
  cbn in Hq, Hp, Ht |- *.
  repeat split; auto.
  - apply (Hcomplete Sales.Col.sale_id). simpl. tauto.
  - apply (Hcomplete Sales.Col.customer_id). simpl. tauto.
  - apply (Hcomplete Sales.Col.product_id). simpl. tauto.
Qed.

(** X6.  Cleaning a cleaned sales frame a second time removes the rows
    whose date the first cleaning read as [NaT], and nothing else: the
    first cleaning drops the missing values before it converts the dates.
    A cleaned frame without such a row is returned as it is. *)
Theorem transform_sales_data_again :
  forall (RT : Runtime) (sales_df cleaned : list Sales.row),
    transform_sales_data sales_df = Some cleaned ->
    transform_sales_data cleaned
    = Some (filter (fun c => notna (Sales.sale_date c)) cleaned)
    /\ ((forall c, In c cleaned -> Sales.sale_date c <> NA) ->
        transform_sales_data cleaned = Some cleaned).
Proof.
  intros RT sales_df cleaned E.
  assert (Hrow := fun c => cleaned_sales_row sales_df cleaned c E).
  set (dated := filter (fun c => notna (Sales.sale_date c)) cleaned).
  assert (Hdated : forall c, In c dated ->
            (exists t, Sales.sale_date c = Time t)
            /\ greater_than_0 (Sales.quantity c)
            /\ greater_than_0 (Sales.unit_price c)
            /\ greater_than_0 (Sales.total_amount c)).
  { intros c Hc. apply filter_In in Hc. destruct Hc as [Hc Hd].
    destruct (Hrow c Hc) as (_ & [Ht | Hna] & _ & _ & Hq & Hp & Ha); [auto|].
    rewrite Hna in Hd. discriminate. }
  assert (H0 : remove_duplicates cleaned (Some [Sales.Col.sale_id]) = cleaned).
  { unfold remove_duplicates, drop_duplicates.
    apply keep_first_distinct; [exact cells_eqb_eq | | intros x _ []].
    change (NoDup (map (fun r => [Sales.sale_id r]) cleaned)).
    rewrite <- (map_map Sales.sale_id (fun c => [c])).
    apply Finite.Injective_map_NoDup; [|now apply cleaned_sale_id_NoDup with sales_df].
    intros a b Hab. now injection Hab. }
  assert (H1 : handle_missing_values cleaned drop = dated).
  { unfold handle_missing_values, dropna. apply filter_ext_in. intros c Hc.
    destruct (Hrow c Hc) as (Hs & _ & Hcu & Hpr & Hq & Hp & Ha).
    apply greater_than_0_numeric in Hq, Hp, Ha.
    destruct Hq as [_ Hq], Hp as [_ Hp], Ha as [_ Ha].
    cbn. rewrite Hq, Hp, Ha, !andb_true_r.
    destruct (Sales.sale_id c), (Sales.customer_id c), (Sales.product_id c);
      try contradiction; cbn; now rewrite ?andb_true_r. }
  assert (H2 : assign_opt Sales.Col.sale_date (to_datetime_in (map Sales.sale_date dated))
                 dated = Some dated).
  { unfold assign_opt. apply traverse_all. intros c Hc.
    destruct (Hdated c Hc) as ((t & Hd) & _).
    cbn. rewrite Hd. cbn. f_equal. destruct c. cbn in Hd. now subst. }
  assert (H3 : assign Sales.Col.quantity to_numeric dated = dated).
  { unfold assign. apply map_all. intros c Hc.
    destruct (Hdated c Hc) as (_ & Hq & _). apply greater_than_0_numeric in Hq.
    cbn. rewrite (proj1 Hq). now destruct c. }
  assert (H4 : assign Sales.Col.unit_price to_numeric dated = dated).
  { unfold assign. apply map_all. intros c Hc.
    destruct (Hdated c Hc) as (_ & _ & Hp & _). apply greater_than_0_numeric in Hp.
    cbn. rewrite (proj1 Hp). now destruct c. }
  assert (H5 : assign Sales.Col.total_amount to_numeric dated = dated).
  { unfold assign. apply map_all. intros c Hc.
    destruct (Hdated c Hc) as (_ & _ & _ & Ha). apply greater_than_0_numeric in Ha.
    cbn. rewrite (proj1 Ha). now destruct c. }
  assert (H6 : dropna (Some [Sales.Col.quantity; Sales.Col.unit_price;
                             Sales.Col.total_amount]) dated = dated).
  { unfold dropna. apply filter_all. intros c Hc.
    destruct (Hdated c Hc) as (_ & Hq & Hp & Ha).
    apply greater_than_0_numeric in Hq, Hp, Ha.
    cbn. now rewrite (proj2 Hq), (proj2 Hp), (proj2 Ha). }
  assert (H7 : filter (fun r => gt0 (Sales.quantity r) && gt0 (Sales.unit_price r)
                                && gt0 (Sales.total_amount r)) dated = dated).
  { apply filter_all. intros c Hc.
    destruct (Hdated c Hc) as (_ & Hq & Hp & Ha).
    apply gt0_spec in Hq, Hp, Ha. now rewrite Hq, Hp, Ha. }
  assert (Hagain : transform_sales_data cleaned = Some dated).
  { unfold transform_sales_data. rewrite H0, H1, H2, H3, H4, H5, H6, H7. reflexivity. }
  split; [exact Hagain|].
  intros Hdates. rewrite Hagain. f_equal. subst dated. apply filter_all.
  intros c Hc. specialize (Hdates c Hc). now destruct (Sales.sale_date c).
Qed.

Lemma transform_sales_data_again_witness :
  transform_sales_data (RT := example_runtime)
    [good_sale; zero_quantity_sale; nat_date_sale; text_total_sale]
  = Some [cleaned_good_sale; cleaned_nat_date_sale]
  /\ transform_sales_data (RT := example_runtime)
       [cleaned_good_sale; cleaned_nat_date_sale]
     = Some [cleaned_good_sale].
Proof.
  split; [reflexivity|].
  exact (proj1 (transform_sales_data_again example_runtime
                  [good_sale; zero_quantity_sale; nat_date_sale; text_total_sale]
                  [cleaned_good_sale; cleaned_nat_date_sale] eq_refl)).
Defined.

(** ** [transform_customers_data] *)

Lemma keep_first_length {A K : Type} (eqb : K -> K -> bool) (key : A -> K) (l : list A) :
  forall seen, (length (keep_first eqb key seen l) <= length l)%nat.
Proof.
  induction l as [|x l IH]; simpl; intros seen; [lia|].
  destruct (existsb (eqb (key x)) seen); simpl.
  - specialize (IH seen). lia.
  - specialize (IH (key x :: seen)). lia.
Qed.

Lemma transform_customers_data_In {RT : Runtime} (customers_df cleaned : list Customers.row)
    (c : Customers.row) :
  transform_customers_data customers_df = Some cleaned -> In c cleaned ->
  exists r, In r (remove_duplicates customers_df (Some [Customers.Col.customer_id]))
            /\ complete r /\ customer_from r c.
Proof.
  unfold transform_customers_data.
  set (df0 := remove_duplicates customers_df _).
  set (df3 := dropna (Some [Customers.Col.customer_id]) _).
  intros E4 Hc.
  destruct (assign_opt_In _ _ _ _ _ E4 Hc) as (c3 & v & H3 & Ev & ->).
  subst df3. apply dropna_In in H3. destruct H3 as [H3 Hna].
  apply assign_In in H3. destruct H3 as (r & Hr & ->).
  apply handle_missing_values_drop_In in Hr. destruct Hr as [Hr Hcomplete].
  exists r. split; [exact Hr|]. split; [exact Hcomplete|].
  simpl in Ev.
  specialize (Hna Customers.Col.customer_id (or_introl eq_refl)). simpl in Hna.
  destruct (to_numeric_cases (Customers.customer_id r)) as [En | [(q & En) | (b & En)]];
    [contradiction | | rewrite En in Ev; discriminate].
  rewrite En in Ev. simpl in Ev. injection Ev as <-.
  unfold customer_from. simpl. repeat split. exists q. auto.
Qed.

(** [transform_customers_data] raises exactly when a row that is the
    first of its [customer_id] and misses no cell has an infinite
    identifier. *)
Lemma transform_customers_data_None {RT : Runtime} (customers_df : list Customers.row) :
  transform_customers_data customers_df = None
  <-> exists r, In r (remove_duplicates customers_df (Some [Customers.Col.customer_id]))
                /\ complete r
                /\ exists b, to_numeric (Customers.customer_id r) = Inf b.
Proof.
  unfold transform_customers_data.
  set (df0 := remove_duplicates customers_df _).
  set (df3 := dropna (Some [Customers.Col.customer_id]) _).
  assert (Hin : forall r, In r df0 -> complete r ->
            to_numeric (Customers.customer_id r) <> NA ->
            In (Customers.set_customer_id (to_numeric (Customers.customer_id r)) r) df3).
  { intros r Hr Hcomplete Hid. subst df3. apply dropna_In. split.
    - apply assign_In. exists r. split; [|reflexivity].
      apply handle_missing_values_drop_In. auto.
    - intros col [<- | []]. exact Hid. }
  destruct (assign_opt Customers.Col.customer_id astype_int df3) as [df4|] eqn:E4.
  - split; [discriminate|]. intros (r & Hr & Hcomplete & b & Eb). exfalso.
    assert (H3 := Hin r Hr Hcomplete). rewrite Eb in H3.
    destruct (traverse_In_l _ _ _ _ E4 (H3 ltac:(discriminate))) as (c4 & _ & E).
    discriminate E.
  - split; [intros _ | reflexivity].
    apply traverse_None in E4. destruct E4 as (c3 & H3 & E3).
    subst df3. apply dropna_In in H3. destruct H3 as [H3 Hna].
    apply assign_In in H3. destruct H3 as (r & Hr & ->).
    apply handle_missing_values_drop_In in Hr. destruct Hr as [Hr Hcomplete].
    specialize (Hna Customers.Col.customer_id (or_introl eq_refl)). simpl in Hna, E3.
    exists r. split; [exact Hr|]. split; [exact Hcomplete|].
    destruct (to_numeric_cases (Customers.customer_id r)) as [En | [(q & En) | (b & En)]];
      [contradiction | rewrite En in E3; discriminate | eauto].
Qed.

Lemma transform_customers_data_keeps {RT : Runtime}
    (customers_df cleaned : list Customers.row) (r : Customers.row) :
  transform_customers_data customers_df = Some cleaned ->
  In r (remove_duplicates customers_df (Some [Customers.Col.customer_id])) ->
  complete r ->
  to_numeric (Customers.customer_id r) <> NA ->
  exists c, In c cleaned /\ customer_from r c.
Proof.
  unfold transform_customers_data.
  set (df0 := remove_duplicates customers_df _).
  set (df3 := dropna (Some [Customers.Col.customer_id]) _).
  intros E4 Hr Hcomplete Hid.
  assert (H3 : In (Customers.set_customer_id (to_numeric (Customers.customer_id r)) r) df3).
  { subst df3. apply dropna_In. split.
    - apply assign_In. exists r. split; [|reflexivity].
      apply handle_missing_values_drop_In. auto.
    - intros col [<- | []]. exact Hid. }
  destruct (traverse_In_l _ _ _ _ E4 H3) as (c4 & H4 & E).
  simpl in E.
  destruct (to_numeric_cases (Customers.customer_id r)) as [En | [(q & En) | (b & En)]];
    [contradiction | | rewrite En in E; discriminate].
  rewrite En in E. simpl in E. injection E as <-.
  eexists. split; [exact H4|].
  unfold customer_from. simpl. repeat split. exists q. auto.
Qed.

(** X7.  [transform_customers_data] raises exactly when a row that is the
    first of its [customer_id] and misses no cell has an infinite
    identifier.  When it returns, a cleaned customer comes from a row of
    the input that misses no cell and is the first of its [customer_id];
    its identifier is the number the input holds cast to int64 (the whole
    part, when an int64 holds it), its other cells are the input's.  Every
    first row of a [customer_id] that misses no cell and has a numeric
    identifier is kept, and the frame never grows. *)
Theorem transform_customers_data_spec :
  forall (RT : Runtime) (customers_df : list Customers.row),
    match transform_customers_data customers_df with
    | None =>
        exists r,
          In r (remove_duplicates customers_df (Some [Customers.Col.customer_id]))
          /\ complete r
          /\ exists b, to_numeric (Customers.customer_id r) = Inf b
    | Some cleaned =>
        (forall r b,
            In r (remove_duplicates customers_df (Some [Customers.Col.customer_id])) ->
            complete r ->
            to_numeric (Customers.customer_id r) <> Inf b)
        /\ (forall c, In c cleaned ->
              exists r, In r customers_df /\ complete r /\ customer_from r c)
        /\ (forall r,
              In r (remove_duplicates customers_df (Some [Customers.Col.customer_id])) ->
              complete r ->
              to_numeric (Customers.customer_id r) <> NA ->
              exists c, In c cleaned /\ customer_from r c)
        /\ (forall r c q,
              customer_from r c ->
              to_numeric (Customers.customer_id r) = Num q ->
              in_int64 (truncate q) = true ->
              Customers.customer_id c = Num (of_Z (truncate q)))
        /\ (length cleaned <= length customers_df)%nat
    end.
Proof.
  intros RT customers_df.
  pose proof (transform_customers_data_None customers_df) as Hnone.
  destruct (transform_customers_data customers_df) as [cleaned|] eqn:E;
    [|now apply Hnone].
  split; [|split; [|split; [|split]]].
  - intros r b Hr Hcomplete Eb.
    assert (H : @Some (list Customers.row) cleaned = None) by (apply Hnone; eauto).
    discriminate H.
  - intros c Hc.
    destruct (transform_customers_data_In _ _ _ E Hc) as (r & Hr & Hcomplete & Hfrom).
    exists r. split; [|auto]. eapply remove_duplicates_incl. exact Hr.
  - intros r. now apply transform_customers_data_keeps.
  - intros r c q ((q' & Eq' & Ec) & _) Eq Hrange.
    rewrite Eq in Eq'. injection Eq' as <-.
    rewrite Ec. unfold to_int64. now rewrite Hrange.
  - unfold transform_customers_data, assign_opt in E. apply traverse_length in E.
    rewrite E. unfold dropna at 1.
    etransitivity; [apply List.filter_length_le|].
    unfold assign. rewrite length_map.
    unfold handle_missing_values, dropna.
    etransitivity; [apply List.filter_length_le|].
    unfold remove_duplicates, drop_duplicates.
    apply keep_first_length.
Qed.

Lemma customers_complete_id (r : Customers.row) :
  complete r -> Customers.customer_id r <> NA.
Proof. intros H. apply (H Customers.Col.customer_id). simpl. tauto. Qed.

Lemma set_customer_id_same (r : Customers.row) :
  Customers.set_customer_id (Customers.customer_id r) r = r.
Proof. now destruct r. Qed.

Lemma customers_whole_ids :
  forall (RT : Runtime) (customers_df : list Customers.row),
    (forall r, In r customers_df -> whole_or_missing (Customers.customer_id r)) ->
    transform_customers_data customers_df
    = Some (handle_missing_values
              (remove_duplicates customers_df (Some [Customers.Col.customer_id])) drop)
    /\ NoDup (map Customers.customer_id
                (handle_missing_values
                   (remove_duplicates customers_df (Some [Customers.Col.customer_id]))
                   drop)).
Proof.
  intros RT customers_df Hwhole.
  set (dfc := handle_missing_values (remove_duplicates customers_df _) drop).
  assert (Hid : forall r, In r dfc ->
                  exists q, Customers.customer_id r = Num q /\ of_Z (to_int64 q) = q).
  { intros r Hr. subst dfc. apply handle_missing_values_drop_In in Hr.
    destruct Hr as [Hr Hcomplete]. apply remove_duplicates_incl in Hr.
    destruct (Hwhole r Hr) as [E | (q & E & Hq & Hrange)].
    - now apply customers_complete_id in Hcomplete.
    - exists q. split; [exact E|]. unfold to_int64. rewrite Hrange.
      now apply Qc_eqb_eq. }
  split.
  - unfold transform_customers_data. fold dfc.
    assert (H1 : assign Customers.Col.customer_id to_numeric dfc = dfc).
    { unfold assign. apply map_all. intros r Hr. destruct (Hid r Hr) as (q & E & _).
      cbn. rewrite E. cbn. rewrite <- E. apply set_customer_id_same. }
    assert (H2 : dropna (Some [Customers.Col.customer_id]) dfc = dfc).
    { unfold dropna. apply filter_all. intros r Hr. destruct (Hid r Hr) as (q & E & _).
      cbn. now rewrite E. }
    rewrite H1, H2. unfold assign_opt. apply traverse_all.
    intros r Hr. destruct (Hid r Hr) as (q & E & Hq).
    cbn. rewrite E. cbn. rewrite Hq, <- E. f_equal. apply set_customer_id_same.
  - subst dfc. unfold handle_missing_values, dropna. apply NoDup_map_filter.
    apply (NoDup_map_outer Customers.customer_id (fun c => [c])).
    apply (keep_first_NoDup cells_eqb
             (values (subset_or_all (Some [Customers.Col.customer_id]))) cells_eqb_eq).
Qed.

(** X8.  On a frame whose identifiers are whole numbers that an int64
    holds (or missing),
    [transform_customers_data] is the removal of the later rows of each
    [customer_id] followed by the removal of the rows that miss a cell: no
    cell is rewritten, and the cleaned frame holds each [customer_id]
    once. *)
Theorem transform_customers_data_whole_ids :
  forall (RT : Runtime) (customers_df : list Customers.row),
    (forall r, In r customers_df -> whole_or_missing (Customers.customer_id r)) ->
    transform_customers_data customers_df
    = Some (handle_missing_values
              (remove_duplicates customers_df (Some [Customers.Col.customer_id])) drop)
    /\ NoDup (map Customers.customer_id
                (handle_missing_values
                   (remove_duplicates customers_df (Some [Customers.Col.customer_id]))
                   drop)).
Proof. exact customers_whole_ids. Qed.

Lemma transform_customers_data_whole_ids_witness :
  transform_customers_data (RT := example_runtime) [alice; bob; carol; alice]
  = Some (handle_missing_values
            (remove_duplicates [alice; bob; carol; alice]
               (Some [Customers.Col.customer_id])) drop)
  /\ NoDup (map Customers.customer_id
              (handle_missing_values
                 (remove_duplicates [alice; bob; carol; alice]
                    (Some [Customers.Col.customer_id])) drop)).
Proof.
  apply (transform_customers_data_whole_ids example_runtime [alice; bob; carol; alice]).
  intros r Hr. right.
  destruct Hr as [<- | [<- | [<- | [<- | []]]]]; eexists; repeat split; reflexivity.
Defined.

Lemma NoDup_map_inj {A B : Type} (g : A -> B) (l : list A) (x y : A) :
  NoDup (map g l) -> In x l -> In y l -> g x = g y -> x = y.
Proof.
  induction l as [|a l IH]; simpl; intros Hnd Hx Hy E; [contradiction|].
  apply NoDup_cons_iff in Hnd. destruct Hnd as [Ha Hnd].
  destruct Hx as [-> | Hx], Hy as [-> | Hy]; auto.
  - exfalso. apply Ha. rewrite E. now apply in_map.
  - exfalso. apply Ha. rewrite <- E. now apply in_map.
Qed.

(** X9.  The conversion to whole numbers comes after the removal of
    duplicates: two rows that miss no cell, are the first of their
    identifiers, and whose identifiers are different numbers with the same
    whole part, both reach the cleaned frame, which then holds one
    [customer_id] twice. *)
Theorem transform_customers_data_collision :
  forall (RT : Runtime) (customers_df cleaned : list Customers.row)
         (r1 r2 : Customers.row) (q1 q2 : Qc),
    transform_customers_data customers_df = Some cleaned ->
    In r1 (remove_duplicates customers_df (Some [Customers.Col.customer_id])) ->
    In r2 (remove_duplicates customers_df (Some [Customers.Col.customer_id])) ->
    complete r1 -> complete r2 ->
    Customers.customer_id r1 = Num q1 ->
    Customers.customer_id r2 = Num q2 ->
    q1 <> q2 ->
    truncate q1 = truncate q2 ->
    ~ NoDup (map Customers.customer_id cleaned).
Proof.
  intros RT customers_df cleaned r1 r2 q1 q2 E H1 H2 Hc1 Hc2 E1 E2 Hne Htr Hnd.
  unfold transform_customers_data in E.
  set (df3 := dropna (Some [Customers.Col.customer_id]) _) in E.
  set (h := fun r : Customers.row =>
              match astype_int (Customers.customer_id r) with
              | Some v => v
              | None => NA
              end).
  assert (Hids : map Customers.customer_id cleaned = map h df3).
  { apply Forall2_map_eq. unfold assign_opt in E. apply traverse_Forall2 in E.
    eapply Forall2_impl; [|exact E].
    intros r c Hrc. unfold h. cbn in Hrc.
    destruct (astype_int (Customers.customer_id r)); [|discriminate].
    cbn in Hrc. injection Hrc as <-. reflexivity. }
  assert (Hin : forall r q, In r (remove_duplicates customers_df
                                    (Some [Customers.Col.customer_id])) ->
                  complete r -> Customers.customer_id r = Num q -> In r df3).
  { intros r q Hr Hc Eq. subst df3. apply dropna_In. split.
    - apply assign_In. exists r. split; [now apply handle_missing_values_drop_In|].
      cbn. rewrite Eq. cbn. rewrite <- Eq. symmetry. apply set_customer_id_same.
    - intros col [<- | []]. cbn. now rewrite Eq. }
  rewrite Hids in Hnd.
  assert (Heq : r1 = r2).
  { apply (NoDup_map_inj h df3); eauto.
    unfold h. rewrite E1, E2. cbn [astype_int]. unfold to_int64. now rewrite Htr. }
  subst r2. rewrite E1 in E2. now injection E2.
Qed.

Lemma transform_customers_data_collision_witness :
  transform_customers_data (RT := example_runtime) [dave; erin]
  = Some [Customers.set_customer_id (num 1 1) dave;
          Customers.set_customer_id (num 1 1) erin]
  /\ ~ NoDup (map Customers.customer_id
                [Customers.set_customer_id (num 1 1) dave;
                 Customers.set_customer_id (num 1 1) erin]).
Proof.
  split; [reflexivity|].
  apply (transform_customers_data_collision example_runtime [dave; erin] _ dave erin
           (Q2Qc (6 # 5)) (Q2Qc (3 # 2))).
  - reflexivity.
  - left. reflexivity.
  - right. left. reflexivity.
  - intros col Hcol. cbn in Hcol.
    destruct Hcol as [<- | [<- | [<- | [<- | [<- | []]]]]]; discriminate.
  - intros col Hcol. cbn in Hcol.
    destruct Hcol as [<- | [<- | [<- | [<- | [<- | []]]]]]; discriminate.
  - reflexivity.
  - reflexivity.
  - intros E. apply (f_equal (fun q => Qnum (this q))) in E. discriminate.
  - reflexivity.
Defined.

(** ** [create_date_dimension] and [transform_all] *)

Lemma create_date_dimension_spec_witness :
  create_date_dimension (RT := example_runtime)
    [cleaned_sale_100; leap_day_sale; cleaned_sale_100]
  = Some [leap_day_row; march_15_row]
  /\ length [leap_day_row; march_15_row]
     = length (unique (map Sales.sale_date
                         [cleaned_sale_100; leap_day_sale; cleaned_sale_100]))
  /\ StronglySorted date_le [leap_day_row; march_15_row]
  /\ create_date_dimension (RT := example_runtime)
       [leap_day_sale; cleaned_sale_100; cleaned_sale_100]
     = Some [leap_day_row; march_15_row].
Proof.
  split; [reflexivity|].
  destruct (create_date_dimension_spec example_runtime
              [cleaned_sale_100; leap_day_sale; cleaned_sale_100]
              [leap_day_row; march_15_row] eq_refl) as (_ & Hlen & Hsorted & Hperm).
  split; [exact Hlen|]. split; [exact Hsorted|].
  apply Hperm. apply perm_swap.
Defined.

Lemma create_date_dimension_returns_witness :
  exists dim,
    create_date_dimension (RT := example_runtime) [cleaned_sale_100; leap_day_sale]
    = Some dim.
Proof.
  apply (create_date_dimension_returns example_runtime [cleaned_sale_100; leap_day_sale]).
  - discriminate.
  - intros row [<- | [<- | []]]; eexists; (split; [reflexivity | simpl; lia]).
Defined.

(** A cleaned frame on which [create_date_dimension] returns holds no
    [NaT]: the date record of [NaT] raises. *)
Lemma cleaned_sale_dated {RT : Runtime} (sales_df cleaned : list Sales.row)
    (dim : list DateDim.row) (c : Sales.row) :
  transform_sales_data sales_df = Some cleaned ->
  create_date_dimension cleaned = Some dim ->
  In c cleaned -> exists t, Sales.sale_date c = Time t.
Proof.
  intros Es Ed Hc.
  destruct (cleaned_sales_row _ _ _ Es Hc) as (_ & [Ht | Hna] & _); [exact Ht|].
  exfalso. destruct (create_date_dimension_inv _ _ Ed) as (recs & Et & _ & _).
  assert (Hin : In NA (unique (map Sales.sale_date cleaned))).
  { apply unique_In. rewrite <- Hna. now apply in_map. }
  destruct (traverse_In_l _ _ _ _ Et Hin) as (r & _ & Er). discriminate Er.
Qed.

Lemma transform_all_inv :
  forall (RT : Runtime) (sales_df : list Sales.row) (customers_df : list Customers.row)
         (products_df : list Products.row)
         (sales_clean : list Sales.row) (customers_clean : list Customers.row)
         (products_clean : list Products.row) (date_dim : list DateDim.row),
    transform_all sales_df customers_df products_df
    = Some (sales_clean, customers_clean, products_clean, date_dim) ->
    transform_sales_data sales_df = Some sales_clean
    /\ transform_customers_data customers_df = Some customers_clean
    /\ transform_products_data products_df = Some products_clean
    /\ create_date_dimension sales_clean = Some date_dim
    /\ sales_clean <> []
    /\ (forall c, In c sales_clean ->
          exists t r, Sales.sale_date c = Time t /\ In r date_dim
                      /\ record_of (ts_date t) r)
    /\ (forall r, In r date_dim ->
          exists c t, In c sales_clean /\ Sales.sale_date c = Time t
                      /\ record_of (ts_date t) r).
Proof.
  intros RT sales_df customers_df products_df sc cc pc dd. unfold transform_all.
  destruct (transform_sales_data sales_df) as [sc'|] eqn:Es; [|discriminate].
  destruct (transform_customers_data customers_df) as [cc'|]; [|discriminate].
  destruct (transform_products_data products_df) as [pc'|]; [|discriminate].
  destruct (create_date_dimension sc') as [dd'|] eqn:Ed; [|discriminate].
  intros E. injection E as -> -> -> ->.
  do 3 (split; [reflexivity|]). split; [exact Ed|]. split; [|split].
  - intros ->. discriminate.
  - intros c Hc.
    destruct (cleaned_sale_dated _ _ _ _ Es Ed Hc) as (t & Ht).
    destruct (create_date_dimension_inv _ _ Ed) as (recs & Et & _ & ->).
    assert (Hin : In (Time t) (unique (map Sales.sale_date sc))).
    { apply unique_In. rewrite <- Ht. now apply in_map. }
    destruct (traverse_In_l _ _ _ _ Et Hin) as (r & Hr & Er).
    apply date_record_inv in Er. destruct Er as (t' & Et' & Hrec).
    cbn in Et'. injection Et' as <-.
    exists t, r. split; [exact Ht|]. split; [|exact Hrec].
    apply (Permutation_in _ (Permutation_sym (sort_values_perm recs))). exact Hr.
  - intros r Hr.
    destruct (create_date_dimension_In _ _ _ Ed Hr) as (c & t & Hc & Et & Hrec).
    destruct (cleaned_sale_dated _ _ _ _ Es Ed Hc) as (t' & Ht').
    rewrite Ht' in Et. cbn in Et. injection Et as ->.
    exists c, t. auto.
Qed.

(** X12.  When [transform_all] returns, its four frames are those of the
    four transformations, the cleaned sales frame has a row, every cleaned
    sale finds the row of its date in the date dimension, and every row of
    the date dimension is the row of the date of a cleaned sale. *)
Theorem transform_all_dates_covered :
  forall (RT : Runtime) (sales_df : list Sales.row) (customers_df : list Customers.row)
         (products_df : list Products.row)
         (sales_clean : list Sales.row) (customers_clean : list Customers.row)
         (products_clean : list Products.row) (date_dim : list DateDim.row),
    transform_all sales_df customers_df products_df
    = Some (sales_clean, customers_clean, products_clean, date_dim) ->
    transform_sales_data sales_df = Some sales_clean
    /\ transform_customers_data customers_df = Some customers_clean
    /\ transform_products_data products_df = Some products_clean
    /\ create_date_dimension sales_clean = Some date_dim
    /\ sales_clean <> []
    /\ (forall c, In c sales_clean ->
          exists t r, Sales.sale_date c = Time t /\ In r date_dim
                      /\ record_of (ts_date t) r)
    /\ (forall r, In r date_dim ->
          exists c t, In c sales_clean /\ Sales.sale_date c = Time t
                      /\ record_of (ts_date t) r).
Proof. exact transform_all_inv. Qed.

Lemma transform_all_dates_covered_witness :
  transform_all (RT := example_runtime) [sale_100] [alice] [widget]
  = Some ([cleaned_sale_100], [alice], [widget], [march_15_row])
  /\ forall c, In c [cleaned_sale_100] ->
       exists t r, Sales.sale_date c = Time t /\ In r [march_15_row]
                   /\ record_of (ts_date t) r.
Proof.
  split; [reflexivity|].
  apply (transform_all_dates_covered example_runtime [sale_100] [alice] [widget]
           [cleaned_sale_100] [alice] [widget] [march_15_row] eq_refl).
Defined.

Lemma NoDup_map_inj_on {A B : Type} (f : A -> B) (l : list A) :
  (forall x y, In x l -> In y l -> f x = f y -> x = y) ->
  NoDup l -> NoDup (map f l).
Proof.
  induction l as [|a l IH]; simpl; intros Hinj Hnd; [constructor|].
  apply NoDup_cons_iff in Hnd. destruct Hnd as [Ha Hnd]. constructor.
  - intros Hin. apply in_map_iff in Hin. destruct Hin as (x & E & Hx).
    assert (x = a) by (apply Hinj; auto). now subst x.
  - apply IH; [|exact Hnd]. intros x y Hx Hy. apply Hinj; auto.
Qed.

Lemma Forall2_map_eq_in {A B C : Type} (P : A -> B -> Prop) (f : A -> C) (g : B -> C)
    (l : list A) (l' : list B) :
  Forall2 P l l' ->
  (forall x y, In x l -> P x y -> g y = f x) ->
  map g l' = map f l.
Proof.
  induction 1 as [|x y l l' Hxy _ IH]; intros Hfg; [reflexivity|].
  cbn [map]. f_equal.
  - apply Hfg; [now left | exact Hxy].
  - apply IH. intros a b Ha. apply Hfg. now right.
Qed.

(** X13.  The dates are told apart as timestamps: when no [sale_date] of
    the frame carries a time of day, the date dimension holds each
    calendar date once. *)
Theorem create_date_dimension_one_row_per_day :
  forall (RT : Runtime) (sales_df : list Sales.row) (dim : list DateDim.row),
    (forall row, In row sales_df ->
       exists d, Sales.sale_date row = Time (mkts d 0)) ->
    create_date_dimension sales_df = Some dim ->
    NoDup (map DateDim.sale_date dim).
Proof.
  intros RT sales_df dim Hmid E.
  destruct (create_date_dimension_inv _ _ E) as (recs & Et & _ & ->).
  apply (Permutation_NoDup
           (Permutation_map DateDim.sale_date (Permutation_sym (sort_values_perm recs)))).
  set (day_of := fun c : cell => match c with
                                 | Time t => ts_date t
                                 | _ => mkdate 0 0 0
                                 end).
  assert (Hcells : forall c, In c (unique (map Sales.sale_date sales_df)) ->
                     exists d, c = Time (mkts d 0)).
  { intros c Hc. apply unique_In, in_map_iff in Hc. destruct Hc as (row & <- & Hrow).
    now apply Hmid. }
  assert (Hdates : map DateDim.sale_date recs
                   = map day_of (unique (map Sales.sale_date sales_df))).
  { apply traverse_Forall2 in Et.
    apply (Forall2_map_eq_in _ _ _ _ _ Et). intros c r Hc Hcr.
    destruct (Hcells c Hc) as (d & ->).
    apply date_record_inv in Hcr. destruct Hcr as (t & Ht & Hrec).
    cbn in Ht. injection Ht as <-. apply Hrec. }
  rewrite Hdates. apply NoDup_map_inj_on; [|apply unique_NoDup].
  intros x y Hx Hy Exy.
  destruct (Hcells x Hx) as (dx & ->). destruct (Hcells y Hy) as (dy & ->).
  cbn in Exy. now subst dy.
Qed.

Lemma create_date_dimension_one_row_per_day_witness :
  create_date_dimension (RT := example_runtime)
    [cleaned_sale_100; leap_day_sale; cleaned_sale_100]
  = Some [leap_day_row; march_15_row]
  /\ NoDup (map DateDim.sale_date [leap_day_row; march_15_row]).
Proof.
  split; [reflexivity|].
  apply (create_date_dimension_one_row_per_day example_runtime
           [cleaned_sale_100; leap_day_sale; cleaned_sale_100]).
  - intros row [<- | [<- | [<- | []]]]; eexists; reflexivity.
  - reflexivity.
Defined.

(** ** The lookups of [load_fact_sales] *)

Lemma find_app_or {A : Type} (p : A -> bool) (l1 l2 : list A) :
  find p (l1 ++ l2) = match find p l1 with Some x => Some x | None => find p l2 end.
Proof.
  induction l1 as [|x l1 IH]; cbn [app find]; [reflexivity|].
  destruct (p x); [reflexivity | exact IH].
Qed.

Section Lookup.
Context {K V Row : Type}.
Variable eqb : K -> K -> bool.
Hypothesis eqb_eq : forall a b, eqb a b = true <-> a = b.
Variable key : Row -> K.
Variable val : Row -> V.

(** Reading a dict after an assignment. *)
Lemma dict_get_set (d : list (K * V)) (k x : K) (v : V) :
  dict_get eqb (dict_set eqb d k v) x = if eqb x k then Some v else dict_get eqb d x.
Proof.
  induction d as [|[k' v'] d IH]; cbn [dict_set dict_get]; [reflexivity|].
  destruct (eqb k k') eqn:Ek; cbn [dict_get].
  - apply eqb_eq in Ek. subst k'. destruct (eqb x k); reflexivity.
  - rewrite IH. destruct (eqb x k') eqn:Ex; [|reflexivity].
    destruct (eqb x k) eqn:Ex'; [|reflexivity].
    apply eqb_eq in Ex, Ex'.
    assert (Ek' : eqb k k' = true) by (apply eqb_eq; congruence).
    congruence.
Qed.

(** The dict filled from the fetched rows answers with the last row of
    the key. *)
Lemma lookup_fold (rows : list Row) :
  forall d k,
    dict_get eqb (fold_left (fun d row => dict_set eqb d (key row) (val row)) rows d) k
    = match find (fun row => eqb k (key row)) (rev rows) with
      | Some row => Some (val row)
      | None => dict_get eqb d k
      end.
Proof.
  induction rows as [|row rows IH]; intros d k; [reflexivity|].
  cbn [fold_left rev]. rewrite IH, find_app_or.
  destruct (find _ (rev rows)); [reflexivity|].
  cbn [find]. rewrite dict_get_set. destruct (eqb k (key row)); reflexivity.
Qed.

Lemma lookup_hit (rows : list Row) (k : K) (v : V) :
  dict_get eqb (fold_left (fun d row => dict_set eqb d (key row) (val row)) rows []) k
  = Some v ->
  exists row, In row rows /\ key row = k /\ val row = v.
Proof.
  rewrite lookup_fold.
  destruct (find _ (rev rows)) as [row|] eqn:E; [|discriminate].
  intros Ev. injection Ev as <-. apply find_some in E. destruct E as [Hrow Ek].
  exists row. split; [now apply in_rev|]. split; [|reflexivity].
  symmetry. now apply eqb_eq.
Qed.

Lemma lookup_stored (rows : list Row) (row : Row) :
  In row rows ->
  exists v,
    dict_get eqb (fold_left (fun d row => dict_set eqb d (key row) (val row)) rows [])
      (key row) = Some v.
Proof.
  intros Hrow. rewrite lookup_fold.
  destruct (find _ (rev rows)) as [row'|] eqn:E; [eauto|].
  apply in_rev in Hrow. apply (find_none _ _ E) in Hrow.
  assert (Ek : eqb (key row) (key row) = true) by now apply eqb_eq.
  congruence.
Qed.

End Lookup.

(** X14.  Each lookup of [load_fact_sales] answers a natural key with the
    surrogate key of the last fetched row that holds it, and with [None]
    when no row holds it. *)
Theorem lookups_last_row :
  forall (w : Warehouse),
    (forall customer_id,
        dict_get Z.eqb (customer_lookup w) customer_id
        = option_map DimCustomer.customer_key (last_customer w customer_id))
    /\ (forall product_id,
          dict_get Z.eqb (product_lookup w) product_id
          = option_map DimProduct.product_key (last_product w product_id))
    /\ (forall sale_date,
          dict_get date_eqb (date_lookup w) sale_date
          = option_map DimDate.date_key (last_date w sale_date))
    /\ (forall customer_id,
          dict_get Z.eqb (customer_lookup w) customer_id = None
          <-> forall row, In row (dim_customer w) ->
                DimCustomer.customer_id row <> customer_id).
Proof.
  intros w. split; [|split; [|split]].
  - intros k. unfold customer_lookup, last_customer.
    rewrite (lookup_fold Z.eqb Z.eqb_eq). now destruct (find _ _).
  - intros k. unfold product_lookup, last_product.
    rewrite (lookup_fold Z.eqb Z.eqb_eq). now destruct (find _ _).
  - intros k. unfold date_lookup, last_date.
    rewrite (lookup_fold date_eqb date_eqb_eq). now destruct (find _ _).
  - intros k. unfold customer_lookup. rewrite (lookup_fold Z.eqb Z.eqb_eq). split.
    + destruct (find _ _) eqn:E; [discriminate|]. intros _ row Hrow Ek.
      apply in_rev in Hrow. apply (find_none _ _ E) in Hrow.
      rewrite Ek, Z.eqb_refl in Hrow. discriminate.
    + intros Hnone. destruct (find _ _) as [row|] eqn:E; [|reflexivity].
      apply find_some in E. destruct E as [Hrow Ek]. apply in_rev in Hrow.
      apply Z.eqb_eq in Ek. symmetry in Ek. now apply Hnone in Hrow.
Qed.

(** ** The loop over the sales rows *)

Lemma fact_loop_accounts {RT : Runtime} (w : Warehouse) (rows : list Sales.row) :
  forall (acc : list FactSales.row) (sk : nat) (facts : list FactSales.row)
         (skipped : nat),
    fact_loop w rows acc sk = Some (facts, skipped) ->
    exists emitted,
      facts = acc ++ emitted
      /\ (length emitted + skipped = sk + length rows)%nat
      /\ (sk <= skipped)%nat.
Proof.
  induction rows as [|row rest IH]; intros acc sk facts skipped E; cbn [fact_loop] in E.
  - injection E as <- <-. exists []. rewrite app_nil_r. cbn [length]. split; [reflexivity | lia].
  - destruct (to_date (Sales.sale_date row)) as [d|]; [|discriminate].
    destruct (py_int (Sales.customer_id row)) as [cid|]; [|discriminate].
    destruct (py_int (Sales.product_id row)) as [pid|]; [|discriminate].
    destruct (all _); cbn [negb] in E.
    + destruct (py_int (Sales.sale_id row)) as [sid|]; [|discriminate].
      destruct (py_int (Sales.quantity row)) as [q|]; [|discriminate].
      destruct (py_float (Sales.unit_price row)) as [p|]; [|discriminate].
      destruct (py_float (Sales.total_amount row)) as [t|]; [|discriminate].
      destruct (IH _ _ _ _ E) as (emitted & -> & Hlen & Hsk).
      eexists. rewrite <- app_assoc. split; [reflexivity|].
      cbn [app length]. lia.
    + destruct (IH _ _ _ _ E) as (emitted & -> & Hlen & Hsk).
      exists emitted. split; [reflexivity|]. cbn [length]. lia.
Qed.

(** X15.  The loop accounts for every sales row: when it ends, the fact
    records are those it started with followed by one record for each row
    it did not skip, and the rows emitted and the rows skipped add up to
    the rows of the frame. *)
Theorem fact_loop_accounts_for_every_row :
  forall (RT : Runtime) (w : Warehouse) (rows : list Sales.row)
         (acc : list FactSales.row) (sk : nat)
         (fact_records : list FactSales.row) (skipped : nat),
    fact_loop w rows acc sk = Some (fact_records, skipped) ->
    exists emitted,
      fact_records = acc ++ emitted
      /\ (length emitted + (skipped - sk) = length rows)%nat
      /\ (sk <= skipped)%nat.
Proof.
  intros RT w rows acc sk facts skipped E.
  destruct (fact_loop_accounts _ _ _ _ _ _ E) as (emitted & -> & Hlen & Hsk).
  exists emitted. split; [reflexivity|]. lia.
Qed.

Lemma fact_loop_accounts_for_every_row_witness :
  fact_loop (RT := example_runtime) zero_key_warehouse
    [cleaned_sale_100; leap_day_sale] [] 0
  = Some ([], 2%nat)
  /\ exists emitted : list FactSales.row,
       [] = [] ++ emitted
       /\ (length emitted + (2 - 0) = length [cleaned_sale_100; leap_day_sale])%nat
       /\ (0 <= 2)%nat.
Proof.
  split; [reflexivity|].
  exact (fact_loop_accounts_for_every_row example_runtime zero_key_warehouse
           [cleaned_sale_100; leap_day_sale] [] 0 [] 2 eq_refl).
Defined.

Lemma emitted_resolved {RT : Runtime} (w : Warehouse) (s : Sales.row) (f : FactSales.row) :
  emitted_from w s f ->
  exists d c p,
    In d (dim_date w) /\ In c (dim_customer w) /\ In p (dim_product w)
    /\ resolved s d c p f.
Proof.
  intros (sd & cid & pid & Ed & Ec & Ep & Ldk & Lck & Lpk & _ & _ & _ & Es & _).
  apply (lookup_hit date_eqb date_eqb_eq) in Ldk. destruct Ldk as (d & Hd & Kd & Vd).
  apply (lookup_hit Z.eqb Z.eqb_eq) in Lck. destruct Lck as (c & Hc & Kc & Vc).
  apply (lookup_hit Z.eqb Z.eqb_eq) in Lpk. destruct Lpk as (p & Hp & Kp & Vp).
  exists d, c, p. unfold resolved. rewrite Kd, Kc, Kp. auto 10.
Qed.

(** X16.  Every fact record of the loop carries the surrogate keys of
    stored dimension rows that hold the date, the customer and the product
    of the sale it is built from, and none of the three keys is 0. *)
Theorem fact_loop_resolves_keys :
  forall (RT : Runtime) (w : Warehouse) (sales_df : list Sales.row)
         (fact_records : list FactSales.row) (skipped : nat) (f : FactSales.row),
    fact_loop w sales_df [] O = Some (fact_records, skipped) ->
    In f fact_records ->
    (exists s d c p,
        In s sales_df /\ In d (dim_date w) /\ In c (dim_customer w)
        /\ In p (dim_product w) /\ resolved s d c p f)
    /\ FactSales.date_key f <> 0
    /\ FactSales.customer_key f <> 0
    /\ FactSales.product_key f <> 0.
Proof.
  intros RT w sales_df facts skipped f E Hf.
  destruct (fact_loop_In _ _ _ _ _ _ _ E Hf) as [[] | (s & Hs & Hem)].
  split.
  - destruct (emitted_resolved _ _ _ Hem) as (d & c & p & Hd & Hc & Hp & Hres).
    exists s, d, c, p. auto.
  - destruct Hem as (sd & cid & pid & _ & _ & _ & _ & _ & _ & N1 & N2 & N3 & _).
    auto.
Qed.

Lemma fact_loop_resolves_keys_witness :
  fact_loop (RT := example_runtime) first_run_warehouse [cleaned_sale_100] [] O
  = Some ([FactSales.mk 100 1 1 1 3 (Q2Qc (999 # 100)) (Q2Qc (2997 # 100))], 0%nat)
  /\ FactSales.customer_key
       (FactSales.mk 100 1 1 1 3 (Q2Qc (999 # 100)) (Q2Qc (2997 # 100))) <> 0.
Proof.
  split; [reflexivity|].
  apply (fact_loop_resolves_keys example_runtime first_run_warehouse [cleaned_sale_100]
           [FactSales.mk 100 1 1 1 3 (Q2Qc (999 # 100)) (Q2Qc (2997 # 100))] 0%nat
           (FactSales.mk 100 1 1 1 3 (Q2Qc (999 # 100)) (Q2Qc (2997 # 100)))
           eq_refl (or_introl eq_refl)).
Defined.

(** ** What an INSERT command leaves of the stored rows *)

Lemma traverse_app {A B : Type} (f : A -> option B) (l1 l2 : list A) :
  traverse f (l1 ++ l2)
  = match traverse f l1, traverse f l2 with
    | Some a, Some b => Some (a ++ b)
    | _, _ => None
    end.
Proof.
  induction l1 as [|x l1 IH]; cbn [app traverse].
  - now destruct (traverse f l2).
  - destruct (f x); [|reflexivity]. rewrite IH.
    destruct (traverse f l1); [|reflexivity]. now destruct (traverse f l2).
Qed.

Lemma Forall2_rev_rev {A B : Type} (R : A -> B -> Prop) (l : list A) (l' : list B) :
  Forall2 R l l' -> Forall2 R (rev l) (rev l').
Proof.
  induction 1 as [|x y l l' Hxy _ IH]; cbn [rev]; [constructor|].
  apply Forall2_app; [exact IH | now constructor].
Qed.

Lemma Forall2_find {A B : Type} (R : A -> B -> Prop) (p : A -> bool) (q : B -> bool)
    (h : B -> A) (l : list A) (l' : list B) :
  (forall a b, R a b -> p a = q b /\ h b = a) ->
  Forall2 R l l' -> find p l = option_map h (find q l').
Proof.
  intros HR. induction 1 as [|x y l l' Hxy _ IH]; cbn [find]; [reflexivity|].
  destruct (HR _ _ Hxy) as [-> <-]. destruct (q y); [reflexivity | exact IH].
Qed.

Lemma NoDup_keep_first_app {A K : Type} (eqb : K -> K -> bool) (key : A -> K)
    (eqb_eq : forall a b, eqb a b = true <-> a = b) (seen : list K) (l : list A) :
  NoDup seen -> NoDup (seen ++ map key (keep_first eqb key seen l)).
Proof.
  intros Hseen. apply NoDup_app; [exact Hseen | now apply keep_first_NoDup |].
  intros k Hk Hin. apply in_map_iff in Hin. destruct Hin as (x & <- & Hx).
  apply (keep_first_In eqb key eqb_eq) in Hx. tauto.
Qed.

Section Stored.
Context {Row Rec Key : Type}.
Variable key_eqb : Key -> Key -> bool.
Variable row_key : Row -> Key.
Variable rec_key : Rec -> option Key.
Variable new_row : Z -> Key -> Rec -> Row.
Hypothesis key_eqb_eq : forall a b, key_eqb a b = true <-> a = b.
Hypothesis new_row_key : forall s k rec, row_key (new_row s k rec) = k.

Local Abbreviation convert := (convert rec_key).
Local Abbreviation apply0 := (apply0 key_eqb row_key new_row).

Lemma convert_inv (df : list Rec) (ps : list (Key * Rec)) :
  convert df = Some ps ->
  Forall2 (fun r p => rec_key r = Some (fst p) /\ snd p = r) df ps.
Proof.
  unfold convert. rewrite traverse_Forall2. apply Forall2_impl.
  intros r p E. destruct (rec_key r); [|discriminate].
  cbn in E. injection E as <-. auto.
Qed.

Lemma convert_In (df : list Rec) (ps : list (Key * Rec)) (p : Key * Rec) :
  convert df = Some ps -> In p ps -> In (snd p) df /\ rec_key (snd p) = Some (fst p).
Proof.
  intros E Hp. apply convert_inv in E.
  destruct (Forall2_In_r _ _ _ _ E Hp) as (r & Hr & Ek & Es). now subst r.
Qed.

Lemma convert_In_l (df : list Rec) (ps : list (Key * Rec)) (r : Rec) :
  convert df = Some ps -> In r df -> exists k, rec_key r = Some k /\ In (k, r) ps.
Proof.
  intros E Hr. apply convert_inv in E.
  destruct (Forall2_In_l _ _ _ _ E Hr) as ([k r'] & Hp & Ek & Es).
  cbn [fst snd] in *. subst r'. eauto.
Qed.

Lemma convert_last (df : list Rec) (ps : list (Key * Rec)) (k : Key) :
  convert df = Some ps ->
  last_record key_eqb rec_key k df = option_map snd (last_match key_eqb k ps).
Proof.
  intros E. apply convert_inv, Forall2_rev_rev in E.
  unfold last_record, last_match. refine (Forall2_find _ _ _ _ _ _ _ E).
  intros r p [Ek Es]. unfold proposes. now rewrite Ek.
Qed.

Lemma convert_app (l1 l2 : list Rec) :
  convert (l1 ++ l2)
  = match convert l1, convert l2 with
    | Some a, Some b => Some (a ++ b)
    | _, _ => None
    end.
Proof. apply traverse_app. Qed.

Lemma proposals0_convert (pages : list (list Rec)) :
  proposals0 rec_key pages = convert (concat pages).
Proof.
  unfold proposals0. induction pages as [|page rest IH]; [reflexivity|].
  cbn [traverse concat]. rewrite convert_app, <- IH.
  destruct (convert page); [|reflexivity].
  now destruct (traverse convert rest).
Qed.

Lemma proposals_convert (pages : list (list Rec)) (ps : list (Key * Rec)) :
  proposals key_eqb rec_key pages = Some ps -> convert (concat pages) = Some ps.
Proof.
  unfold proposals. revert ps.
  induction pages as [|page rest IH]; intros ps; cbn [traverse concat option_map].
  - intros E. now injection E as <-.
  - unfold page_accepted at 1. fold (convert page).
    destruct (convert page) as [proposed|] eqn:Ec; [|discriminate].
    destruct (distinct_from key_eqb [] _); [|discriminate].
    destruct (traverse _ rest) as [pps|]; [|discriminate].
    cbn [option_map]. intros E. injection E as <-.
    now rewrite convert_app, Ec, (IH _ eq_refl).
Qed.

Section Update.
Variable set : Rec -> Row -> Row.
Hypothesis set_key : forall rec row, row_key (set rec row) = row_key row.

Local Abbreviation update1 := (update1 key_eqb row_key set).
Local Abbreviation apply1 := (apply1 key_eqb row_key new_row set).
Local Abbreviation updates := (updates key_eqb row_key set).
Local Abbreviation upsert_row := (upsert_row key_eqb row_key rec_key set).

(** The rows stored before keep their places, with their updates; the
    new rows follow. *)
Lemma fold_apply1_old (ps : list (Key * Rec)) :
  forall table seq,
  exists news, fst (fold_left apply1 ps (table, seq)) = map (updates ps) table ++ news.
Proof.
  induction ps as [|[k rec] ps IH]; intros table seq.
  - exists []. cbn. now rewrite app_nil_r, map_id.
  - cbn [fold_left].
    destruct (has_key key_eqb row_key k table) eqn:Ek.
    + rewrite (apply1_conflict key_eqb row_key new_row set _ _ _ _ Ek).
      destruct (IH (map (update1 (k, rec)) table) (seq + 1)) as (news & ->).
      exists news. now rewrite map_map.
    + rewrite (apply1_insert key_eqb row_key new_row set _ _ _ _ Ek).
      destruct (IH (table ++ [new_row seq k rec]) (seq + 1)) as (news & ->).
      rewrite map_app, <- app_assoc. eexists. f_equal.
      apply map_ext_in. intros row Hrow. unfold updates at 2. cbn [fold_left].
      unfold update1 at 2. cbn [fst].
      now rewrite (has_key_false key_eqb row_key key_eqb_eq _ _ _ Ek Hrow).
Qed.

(** The keys of the table after a DO UPDATE command. *)
Lemma fold_apply1_keys (ps : list (Key * Rec)) :
  forall table seq,
    map row_key (fst (fold_left apply1 ps (table, seq)))
    = map row_key table ++ map fst (keep_first key_eqb fst (map row_key table) ps).
Proof.
  induction ps as [|[k rec] ps IH]; intros table seq.
  - cbn. now rewrite app_nil_r.
  - cbn [fold_left keep_first fst].
    rewrite <- (has_key_existsb key_eqb row_key).
    destruct (has_key key_eqb row_key k table) eqn:Ek.
    + rewrite (apply1_conflict key_eqb row_key new_row set _ _ _ _ Ek), IH.
      rewrite map_map.
      now rewrite (map_ext _ _ (update1_key key_eqb row_key set set_key (k, rec))).
    + rewrite (apply1_insert key_eqb row_key new_row set _ _ _ _ Ek), IH.
      rewrite map_app. cbn [map]. rewrite new_row_key, <- app_assoc. cbn [app].
      do 3 f_equal. apply keep_first_seen_ext.
      intros k'. rewrite existsb_app. cbn [existsb]. rewrite orb_false_r. apply orb_comm.
Qed.

Lemma updates_upsert_row (df : list Rec) (ps : list (Key * Rec)) (old : Row) :
  (forall r1 r2 x, set r2 (set r1 x) = set r2 x) ->
  convert df = Some ps ->
  updates ps old = upsert_row df old.
Proof.
  intros Hover E.
  rewrite (updates_last key_eqb row_key set set_key _ _ Hover).
  unfold upsert_row. rewrite (convert_last _ _ _ E).
  now destruct (last_match key_eqb (row_key old) ps).
Qed.

(** [execute_values] with DO UPDATE, when it returns. *)
Lemma execute_values_update (table table' : list Row) (seq seq' : Z) (df : list Rec) :
  (forall r1 r2 x, set r2 (set r1 x) = set r2 x) ->
  execute_values key_eqb row_key rec_key new_row (Some set) table seq df
  = (Some table', seq') ->
  exists ps news,
    convert df = Some ps
    /\ table' = map (upsert_row df) table ++ news
    /\ map row_key news = map fst (keep_first key_eqb fst (map row_key table) ps).
Proof.
  intros Hover E. unfold execute_values in E.
  pose proof (execute_pages_update key_eqb row_key new_row set key_eqb_eq new_row_key
                set_key rec_key (paginate 100 df) table seq) as Hpages.
  rewrite E in Hpages. cbn [fst] in Hpages.
  destruct (proposals key_eqb rec_key (paginate 100 df)) as [ps|] eqn:Ep;
    [|discriminate].
  apply proposals_convert in Ep. rewrite paginate_concat in Ep.
  cbn [option_map] in Hpages. injection Hpages as ->.
  pose proof (fold_apply1_keys ps table seq) as Hkeys.
  destruct (fold_apply1_old ps table seq) as (news & Hold).
  rewrite Hold in Hkeys |- *.
  exists ps, news. split; [exact Ep|]. split.
  - f_equal. apply map_ext. intros old. now apply updates_upsert_row.
  - rewrite map_app, map_map in Hkeys.
    rewrite (map_ext _ _ (updates_key key_eqb row_key set set_key ps)) in Hkeys.
    now apply app_inv_head in Hkeys.
Qed.

End Update.

(** The new rows of a DO NOTHING command: one for the first record of
    each key that is not stored. *)
Lemma fold_apply0_news (ps : list (Key * Rec)) :
  forall table seq,
  exists news,
    fst (fold_left apply0 ps (table, seq)) = table ++ news
    /\ Forall2 (fun p row => exists s, row = new_row s (fst p) (snd p))
         (keep_first key_eqb fst (map row_key table) ps) news.
Proof.
  induction ps as [|[k rec] ps IH]; intros table seq.
  - exists []. cbn. rewrite app_nil_r. split; [reflexivity | constructor].
  - cbn [fold_left keep_first fst]. unfold apply0 at 2. cbn [fst snd].
    rewrite <- (has_key_existsb key_eqb row_key).
    destruct (has_key key_eqb row_key k table); [apply IH|].
    destruct (IH (table ++ [new_row seq k rec]) (seq + 1)) as (news & -> & Hnews).
    exists (new_row seq k rec :: news). rewrite <- app_assoc. split; [reflexivity|].
    constructor; [now exists seq|].
    rewrite map_app in Hnews. cbn [map] in Hnews. rewrite new_row_key in Hnews.
    rewrite (keep_first_seen_ext key_eqb fst ps (k :: map row_key table)
               (map row_key table ++ [k])); [exact Hnews|].
    intros k'. rewrite existsb_app. cbn [existsb]. rewrite orb_false_r. apply orb_comm.
Qed.

(** [execute_values] with DO NOTHING returns whenever the keys convert. *)
Lemma execute_values_nothing (table : list Row) (seq : Z) (df : list Rec)
    (ps : list (Key * Rec)) :
  convert df = Some ps ->
  exists news seq',
    execute_values key_eqb row_key rec_key new_row None table seq df
    = (Some (table ++ news), seq')
    /\ Forall2 (fun p row => exists s, row = new_row s (fst p) (snd p))
         (keep_first key_eqb fst (map row_key table) ps) news
    /\ map row_key news = map fst (keep_first key_eqb fst (map row_key table) ps).
Proof.
  intros Ec. unfold execute_values.
  pose proof (execute_pages_nothing key_eqb row_key rec_key new_row
                (paginate 100 df) table seq) as Hpages.
  rewrite proposals0_convert, paginate_concat, Ec in Hpages. cbn [option_map] in Hpages.
  destruct (fold_apply0_news ps table seq) as (news & Hold & Hnews).
  rewrite Hold in Hpages.
  destruct (execute_pages _ _ _ _ _ _ _ _) as [t s]. cbn [fst] in Hpages. subst t.
  exists news, s. split; [reflexivity|]. split; [exact Hnews|].
  apply Forall2_map_eq. eapply Forall2_impl; [|exact Hnews].
  intros p row (s' & ->). apply new_row_key.
Qed.

(** Every new row of a DO NOTHING command takes its serial key from the
    sequence, at the value the command found or above. *)
Lemma fold_apply0_serial (ps : list (Key * Rec)) :
  forall table seq,
  exists news,
    fst (fold_left apply0 ps (table, seq)) = table ++ news
    /\ Forall (fun row => exists s k rec, row = new_row s k rec /\ seq <= s) news.
Proof.
  induction ps as [|[k rec] ps IH]; intros table seq.
  - exists []. cbn. rewrite app_nil_r. split; [reflexivity | constructor].
  - cbn [fold_left]. unfold apply0 at 2. cbn [fst snd].
    destruct (has_key key_eqb row_key k table).
    + destruct (IH table (seq + 1)) as (news & E & Hnews).
      exists news. split; [exact E|]. eapply Forall_impl; [|exact Hnews].
      intros row (s & k' & rec' & -> & Hs). exists s, k', rec'. split; [reflexivity | lia].
    + destruct (IH (table ++ [new_row seq k rec]) (seq + 1)) as (news & -> & Hnews).
      exists (new_row seq k rec :: news). rewrite <- app_assoc. split; [reflexivity|].
      constructor; [exists seq, k, rec; split; [reflexivity | lia]|].
      eapply Forall_impl; [|exact Hnews].
      intros row (s & k' & rec' & -> & Hs). exists s, k', rec'. split; [reflexivity | lia].
Qed.

Lemma execute_values_serial (table : list Row) (seq : Z) (df : list Rec)
    (ps : list (Key * Rec)) (news : list Row) (seq' : Z) :
  convert df = Some ps ->
  execute_values key_eqb row_key rec_key new_row None table seq df
  = (Some (table ++ news), seq') ->
  Forall (fun row => exists s k rec, row = new_row s k rec /\ seq <= s) news.
Proof.
  intros Ec E. unfold execute_values in E.
  pose proof (execute_pages_nothing key_eqb row_key rec_key new_row
                (paginate 100 df) table seq) as Hpages.
  rewrite proposals0_convert, paginate_concat, Ec, E in Hpages.
  cbn [option_map fst] in Hpages.
  destruct (fold_apply0_serial ps table seq) as (news' & Hold & Hser).
  rewrite Hold in Hpages. injection Hpages as Hpages.
  apply app_inv_head in Hpages. now subst news'.
Qed.

(** What the keys of the new rows tell. *)
Lemma news_keys (table news : list Row) (df : list Rec) (ps : list (Key * Rec)) :
  convert df = Some ps ->
  map row_key news = map fst (keep_first key_eqb fst (map row_key table) ps) ->
  (NoDup (map row_key table) -> NoDup (map row_key table ++ map row_key news))
  /\ (forall row, In row news ->
        exists r, In r df /\ rec_key r = Some (row_key row))
  /\ (forall r, In r df ->
        exists k, rec_key r = Some k
                  /\ In k (map row_key table ++ map row_key news)).
Proof.
  intros Ec Hkeys. rewrite Hkeys. split; [|split].
  - now apply NoDup_keep_first_app.
  - intros row Hrow. apply (in_map row_key) in Hrow. rewrite Hkeys in Hrow.
    apply in_map_iff in Hrow. destruct Hrow as (p & Ep & Hp).
    apply (keep_first_In key_eqb fst key_eqb_eq) in Hp. destruct Hp as [Hp _].
    destruct (convert_In _ _ _ Ec Hp) as [Hr Ek].
    exists (snd p). split; [exact Hr|]. now rewrite Ek, Ep.
  - intros r Hr. destruct (convert_In_l _ _ _ Ec Hr) as (k & Ek & Hp).
    exists k. split; [exact Ek|]. apply in_or_app.
    destruct (existsb (key_eqb k) (map row_key table)) eqn:Es.
    { left. now apply (existsb_eqb_In key_eqb key_eqb_eq). }
    right.
    assert (Hout : ~ In k (map row_key table)).
    { intros Hin. apply (existsb_eqb_In key_eqb key_eqb_eq) in Hin. congruence. }
    destruct (keep_first_complete key_eqb fst key_eqb_eq _ _ _ Hp Hout) as (p' & Hp' & E').
    cbn [fst] in E'. rewrite <- E'. now apply in_map.
Qed.

End Stored.

(** ** The dimension loads *)

Lemma load_dim_customer_stored {RT : Runtime} (now : Z) (w w' : Warehouse)
    (customers_df : list Customers.row) :
  load_dim_customer now w customers_df = (w', Done) ->
  exists ps news,
    convert customer_key_of customers_df = Some ps
    /\ dim_customer w' = map (customer_upserted now customers_df) (dim_customer w) ++ news
    /\ map DimCustomer.customer_id news
       = map fst (keep_first Z.eqb fst (map DimCustomer.customer_id (dim_customer w)) ps)
    /\ dim_product w' = dim_product w
    /\ dim_date w' = dim_date w
    /\ fact_sales w' = fact_sales w.
Proof.
  unfold load_dim_customer.
  destruct (execute_values _ _ _ _ _ _ _ _) as [[table|] seq] eqn:E; [|discriminate].
  intros H. injection H as <-.
  destruct (execute_values_update Z.eqb DimCustomer.customer_id customer_key_of
              (new_customer now) Z.eqb_eq (fun _ _ _ => eq_refl)
              (set_customer now) (fun _ _ => eq_refl) _ _ _ _ _
              (fun _ _ _ => eq_refl) E) as (ps & news & Ec & Ht & Hk).
  exists ps, news. cbn [dim_customer dim_product dim_date fact_sales]. auto 10.
Qed.

Lemma load_dim_customer_raised {RT : Runtime} (now : Z) (w w' : Warehouse)
    (customers_df : list Customers.row) :
  load_dim_customer now w customers_df = (w', Raised) ->
  dim_customer w' = dim_customer w /\ dim_product w' = dim_product w
  /\ dim_date w' = dim_date w /\ fact_sales w' = fact_sales w.
Proof.
  unfold load_dim_customer.
  destruct (execute_values _ _ _ _ _ _ _ _) as [[table|] seq]; [discriminate|].
  intros H. injection H as <-. auto.
Qed.

(** X17.  When [load_dim_customer] returns, every customer stored before
    is at its place with its surrogate key and its [customer_id]; its
    other columns are those of the last record of the frame with its
    [customer_id], with [updated_at] set to the time of the load, and the
    row is as it was when the frame has no such record.  The rows that
    follow are new: each has the [customer_id] of a record of the frame
    that was not stored.  Every record of the frame has its row, no
    [customer_id] is stored twice if none was, and the other tables are
    not written. *)
Theorem load_dim_customer_upsert :
  forall (RT : Runtime) (now : Z) (w w' : Warehouse) (customers_df : list Customers.row),
    load_dim_customer now w customers_df = (w', Done) ->
    (exists news,
        dim_customer w' = map (customer_upserted now customers_df) (dim_customer w) ++ news
        /\ forall row, In row news ->
             ~ In (DimCustomer.customer_id row)
                 (map DimCustomer.customer_id (dim_customer w))
             /\ exists r, In r customers_df
                          /\ customer_key_of r = Some (DimCustomer.customer_id row))
    /\ (forall old,
          let new := customer_upserted now customers_df old in
          DimCustomer.customer_key new = DimCustomer.customer_key old
          /\ DimCustomer.customer_id new = DimCustomer.customer_id old
          /\ match last_record Z.eqb customer_key_of (DimCustomer.customer_id old)
                     customers_df with
             | Some r =>
                 DimCustomer.customer_name new = Customers.customer_name r
                 /\ DimCustomer.email new = Customers.email r
                 /\ DimCustomer.city new = Customers.city r
                 /\ DimCustomer.country new = Customers.country r
                 /\ DimCustomer.updated_at new = now
             | None => new = old
             end)
    /\ (forall r, In r customers_df ->
          exists row, In row (dim_customer w')
                      /\ customer_key_of r = Some (DimCustomer.customer_id row))
    /\ (NoDup (map DimCustomer.customer_id (dim_customer w)) ->
        NoDup (map DimCustomer.customer_id (dim_customer w')))
    /\ dim_product w' = dim_product w
    /\ dim_date w' = dim_date w
    /\ fact_sales w' = fact_sales w.
Proof.
  intros RT now w w' df E.
  destruct (load_dim_customer_stored _ _ _ _ E) as (ps & news & Ec & Ht & Hk & Hp & Hd & Hf).
  destruct (news_keys Z.eqb DimCustomer.customer_id customer_key_of Z.eqb_eq
              (dim_customer w) news df ps Ec Hk) as (Hnd & Hnews & Hall).
  assert (Hids : map DimCustomer.customer_id (dim_customer w')
                 = map DimCustomer.customer_id (dim_customer w)
                   ++ map DimCustomer.customer_id news).
  { rewrite Ht, map_app, map_map. f_equal. apply map_ext. intros old.
    unfold customer_upserted, upsert_row. now destruct (last_record _ _ _ _). }
  split; [|split; [|split; [|split]]]; auto.
  - exists news. split; [exact Ht|]. intros row Hrow. split; [|now apply Hnews].
    apply (in_map DimCustomer.customer_id) in Hrow. rewrite Hk in Hrow.
    apply in_map_iff in Hrow. destruct Hrow as (p & <- & Hp').
    apply (keep_first_In Z.eqb fst Z.eqb_eq) in Hp'. tauto.
  - intros old new. subst new. unfold customer_upserted, upsert_row.
    destruct (last_record _ _ _ _); cbn; auto 10.
  - intros r Hr. destruct (Hall r Hr) as (k & Ek & Hin). rewrite <- Hids in Hin.
    apply in_map_iff in Hin. destruct Hin as (row & <- & Hrow). eauto.
  - intros Hnd0. rewrite Hids. auto.
Qed.

Lemma load_dim_customer_upsert_witness :
  load_dim_customer (RT := example_runtime) 9 stale_fact_warehouse [bob; alice_moved]
  = (moved_warehouse, Done)
  /\ exists news,
       dim_customer moved_warehouse
       = map (customer_upserted (RT := example_runtime) 9 [bob; alice_moved])
           (dim_customer stale_fact_warehouse) ++ news.
Proof.
  split; [reflexivity|].
  destruct (load_dim_customer_upsert example_runtime 9 stale_fact_warehouse
              moved_warehouse [bob; alice_moved] eq_refl) as ((news & Hnews & _) & _).
  exists news. exact Hnews.
Defined.

Lemma load_dim_product_stored {RT : Runtime} (now : Z) (w w' : Warehouse)
    (products_df : list Products.row) :
  load_dim_product now w products_df = (w', Done) ->
  exists ps news,
    convert product_key_of products_df = Some ps
    /\ dim_product w' = map (product_upserted now products_df) (dim_product w) ++ news
    /\ map DimProduct.product_id news
       = map fst (keep_first Z.eqb fst (map DimProduct.product_id (dim_product w)) ps)
    /\ dim_customer w' = dim_customer w
    /\ dim_date w' = dim_date w
    /\ fact_sales w' = fact_sales w.
Proof.
  unfold load_dim_product.
  destruct (execute_values _ _ _ _ _ _ _ _) as [[table|] seq] eqn:E; [|discriminate].
  intros H. injection H as <-.
  destruct (execute_values_update Z.eqb DimProduct.product_id product_key_of
              (new_product now) Z.eqb_eq (fun _ _ _ => eq_refl)
              (set_product now) (fun _ _ => eq_refl) _ _ _ _ _
              (fun _ _ _ => eq_refl) E) as (ps & news & Ec & Ht & Hk).
  exists ps, news. cbn [dim_customer dim_product dim_date fact_sales]. auto 10.
Qed.

Lemma load_dim_product_raised {RT : Runtime} (now : Z) (w w' : Warehouse)
    (products_df : list Products.row) :
  load_dim_product now w products_df = (w', Raised) ->
  dim_customer w' = dim_customer w /\ dim_product w' = dim_product w
  /\ dim_date w' = dim_date w /\ fact_sales w' = fact_sales w.
Proof.
  unfold load_dim_product.
  destruct (execute_values _ _ _ _ _ _ _ _) as [[table|] seq]; [discriminate|].
  intros H. injection H as <-. auto.
Qed.

(** X18.  When [load_dim_product] returns, every product stored before is
    at its place with its surrogate key and its [product_id]; its other
    columns, [unit_cost] among them, are those of the last record of the
    frame with its [product_id], with [updated_at] set to the time of the
    load, and the row is as it was when the frame has no such record.  The
    rows that follow are new: each has the [product_id] of a record of the
    frame that was not stored.  Every record of the frame has its row, no
    [product_id] is stored twice if none was, and the other tables are not
    written. *)
Theorem load_dim_product_upsert :
  forall (RT : Runtime) (now : Z) (w w' : Warehouse) (products_df : list Products.row),
    load_dim_product now w products_df = (w', Done) ->
    (exists news,
        dim_product w' = map (product_upserted now products_df) (dim_product w) ++ news
        /\ forall row, In row news ->
             ~ In (DimProduct.product_id row)
                 (map DimProduct.product_id (dim_product w))
             /\ exists r, In r products_df
                          /\ product_key_of r = Some (DimProduct.product_id row))
    /\ (forall old,
          let new := product_upserted now products_df old in
          DimProduct.product_key new = DimProduct.product_key old
          /\ DimProduct.product_id new = DimProduct.product_id old
          /\ match last_record Z.eqb product_key_of (DimProduct.product_id old)
                     products_df with
             | Some r =>
                 DimProduct.product_name new = Products.product_name r
                 /\ DimProduct.category new = Products.category r
                 /\ DimProduct.subcategory new = Products.subcategory r
                 /\ DimProduct.unit_cost new = Products.unit_cost r
                 /\ DimProduct.updated_at new = now
             | None => new = old
             end)
    /\ (forall r, In r products_df ->
          exists row, In row (dim_product w')
                      /\ product_key_of r = Some (DimProduct.product_id row))
    /\ (NoDup (map DimProduct.product_id (dim_product w)) ->
        NoDup (map DimProduct.product_id (dim_product w')))
    /\ dim_customer w' = dim_customer w
    /\ dim_date w' = dim_date w
    /\ fact_sales w' = fact_sales w.
Proof.
  intros RT now w w' df E.
  destruct (load_dim_product_stored _ _ _ _ E) as (ps & news & Ec & Ht & Hk & Hc & Hd & Hf).
  destruct (news_keys Z.eqb DimProduct.product_id product_key_of Z.eqb_eq
              (dim_product w) news df ps Ec Hk) as (Hnd & Hnews & Hall).
  assert (Hids : map DimProduct.product_id (dim_product w')
                 = map DimProduct.product_id (dim_product w)
                   ++ map DimProduct.product_id news).
  { rewrite Ht, map_app, map_map. f_equal. apply map_ext. intros old.
    unfold product_upserted, upsert_row. now destruct (last_record _ _ _ _). }
  split; [|split; [|split; [|split]]]; auto.
  - exists news. split; [exact Ht|]. intros row Hrow. split; [|now apply Hnews].
    apply (in_map DimProduct.product_id) in Hrow. rewrite Hk in Hrow.
    apply in_map_iff in Hrow. destruct Hrow as (p & <- & Hp').
    apply (keep_first_In Z.eqb fst Z.eqb_eq) in Hp'. tauto.
  - intros old new. subst new. unfold product_upserted, upsert_row.
    destruct (last_record _ _ _ _); cbn; auto 10.
  - intros r Hr. destruct (Hall r Hr) as (k & Ek & Hin). rewrite <- Hids in Hin.
    apply in_map_iff in Hin. destruct Hin as (row & <- & Hrow). eauto.
  - intros Hnd0. rewrite Hids. auto.
Qed.

Lemma load_dim_product_upsert_witness :
  load_dim_product (RT := example_runtime) 9 stale_fact_warehouse [widget]
  = (repriced_warehouse, Done)
  /\ exists news,
       dim_product repriced_warehouse
       = map (product_upserted (RT := example_runtime) 9 [widget])
           (dim_product stale_fact_warehouse) ++ news.
Proof.
  split; [reflexivity|].
  destruct (load_dim_product_upsert example_runtime 9 stale_fact_warehouse
              repriced_warehouse [widget] eq_refl) as ((news & Hnews & _) & _).
  exists news. exact Hnews.
Defined.

Lemma new_date_same (s : Z) (r : DateDim.row) :
  DimDate.record (new_date s (DateDim.sale_date r) r) = r.
Proof. now destruct r. Qed.

Lemma load_dim_date_stored (w : Warehouse) (date_df : list DateDim.row) :
  exists news seq,
    load_dim_date w date_df
    = (mkWarehouse (dim_customer w) (dim_product w) (dim_date w ++ news) (fact_sales w)
         (customer_key_seq w) (product_key_seq w) seq, Done)
    /\ map DimDate.record news
       = keep_first date_eqb DateDim.sale_date (map DimDate.sale_date (dim_date w))
           date_df.
Proof.
  unfold load_dim_date.
  destruct (execute_values_nothing date_eqb DimDate.sale_date
              (fun r => Some (DateDim.sale_date r)) new_date
              (fun _ _ _ => eq_refl) (dim_date w) (date_key_seq w) date_df _
              (convert_total DateDim.sale_date date_df))
    as (news & seq & -> & Hnews & _).
  exists news, seq. split; [reflexivity|].
  rewrite keep_first_map in Hnews.
  rewrite <- (map_id (keep_first _ _ _ date_df)).
  rewrite <- (map_map (fun r => (DateDim.sale_date r, r)) snd).
  apply (Forall2_map_eq_in _ _ _ _ _ Hnews).
  intros p row Hp (s & ->). apply in_map_iff in Hp. destruct Hp as (r & <- & _).
  apply new_date_same.
Qed.

Lemma load_dim_date_spec :
  forall (w : Warehouse) (date_df : list DateDim.row),
  exists news seq,
    load_dim_date w date_df
    = (mkWarehouse (dim_customer w) (dim_product w) (dim_date w ++ news) (fact_sales w)
         (customer_key_seq w) (product_key_seq w) seq, Done)
    /\ map DimDate.record news
       = keep_first date_eqb DateDim.sale_date (map DimDate.sale_date (dim_date w))
           date_df
    /\ (forall r, In r date_df ->
          exists row, In row (dim_date w ++ news)
                      /\ DimDate.sale_date row = DateDim.sale_date r)
    /\ (NoDup (map DimDate.sale_date (dim_date w)) ->
        NoDup (map DimDate.sale_date (dim_date w ++ news))).
Proof.
  intros w date_df.
  destruct (load_dim_date_stored w date_df) as (news & seq & E & Hnews).
  exists news, seq. split; [exact E|]. split; [exact Hnews|].
  assert (Hdates : map DimDate.sale_date news
                   = map DateDim.sale_date
                       (keep_first date_eqb DateDim.sale_date
                          (map DimDate.sale_date (dim_date w)) date_df)).
  { rewrite <- Hnews, map_map. reflexivity. }
  split.
  - intros r Hr.
    destruct (existsb (date_eqb (DateDim.sale_date r))
                (map DimDate.sale_date (dim_date w))) eqn:Es.
    + apply (existsb_eqb_In date_eqb date_eqb_eq) in Es. apply in_map_iff in Es.
      destruct Es as (row & Erow & Hrow). exists row. split; [|exact Erow].
      apply in_or_app. now left.
    + assert (Hout : ~ In (DateDim.sale_date r) (map DimDate.sale_date (dim_date w))).
      { intros Hin. apply (existsb_eqb_In date_eqb date_eqb_eq) in Hin. congruence. }
      destruct (keep_first_complete date_eqb DateDim.sale_date date_eqb_eq _ _ _ Hr Hout)
        as (r' & Hr' & Er').
      apply (in_map DateDim.sale_date) in Hr'. rewrite <- Hdates in Hr'.
      apply in_map_iff in Hr'. destruct Hr' as (row & Erow & Hrow).
      exists row. split; [apply in_or_app; now right | congruence].
  - intros Hnd. rewrite map_app, Hdates.
    now apply NoDup_keep_first_app; [apply date_eqb_eq|].
Qed.

(** The date keys of the new rows come from the sequence. *)
Lemma load_dim_date_serial (w : Warehouse) (date_df : list DateDim.row)
    (news : list DimDate.row) (seq : Z) :
  load_dim_date w date_df
  = (mkWarehouse (dim_customer w) (dim_product w) (dim_date w ++ news) (fact_sales w)
       (customer_key_seq w) (product_key_seq w) seq, Done) ->
  forall row, In row news -> date_key_seq w <= DimDate.date_key row.
Proof.
  unfold load_dim_date. intros E row Hrow.
  destruct (execute_values _ _ _ _ _ _ _ _) as [[table|] seq'] eqn:Ex; [|discriminate].
  injection E as -> ->.
  pose proof (execute_values_serial date_eqb DimDate.sale_date
                (fun r => Some (DateDim.sale_date r)) new_date
                (dim_date w) (date_key_seq w) date_df _ news seq
                (convert_total DateDim.sale_date date_df) Ex) as Hser.
  rewrite Forall_forall in Hser.
  destruct (Hser row Hrow) as (s & k & rec & -> & Hs). exact Hs.
Qed.

(** The two upserts of the dimensions leave the dates and their sequence. *)
Lemma load_dim_customer_dates {RT : Runtime} (now : Z) (w : Warehouse)
    (df : list Customers.row) :
  dim_date (fst (load_dim_customer now w df)) = dim_date w
  /\ date_key_seq (fst (load_dim_customer now w df)) = date_key_seq w.
Proof.
  unfold load_dim_customer.
  destruct (execute_values _ _ _ _ _ _ _ _) as [[t|] s]; split; reflexivity.
Qed.

Lemma load_dim_product_dates {RT : Runtime} (now : Z) (w : Warehouse)
    (df : list Products.row) :
  dim_date (fst (load_dim_product now w df)) = dim_date w
  /\ date_key_seq (fst (load_dim_product now w df)) = date_key_seq w.
Proof.
  unfold load_dim_product.
  destruct (execute_values _ _ _ _ _ _ _ _) as [[t|] s]; split; reflexivity.
Qed.

(** X19.  [load_dim_date] never raises and never rewrites a stored date:
    the rows stored before stay as they are, and the rows that follow hold
    the first row of the frame for each [sale_date] that was not stored,
    in the order of the frame.  Every date of the frame is stored
    afterwards, no date is stored twice if none was, and the other tables
    are not written. *)
Theorem load_dim_date_insert_only :
  forall (w : Warehouse) (date_df : list DateDim.row),
  exists news seq,
    load_dim_date w date_df
    = (mkWarehouse (dim_customer w) (dim_product w) (dim_date w ++ news) (fact_sales w)
         (customer_key_seq w) (product_key_seq w) seq, Done)
    /\ map DimDate.record news
       = keep_first date_eqb DateDim.sale_date (map DimDate.sale_date (dim_date w))
           date_df
    /\ (forall r, In r date_df ->
          exists row, In row (dim_date w ++ news)
                      /\ DimDate.sale_date row = DateDim.sale_date r)
    /\ (NoDup (map DimDate.sale_date (dim_date w)) ->
        NoDup (map DimDate.sale_date (dim_date w ++ news))).
Proof. exact load_dim_date_spec. Qed.

(** ** The fact load and the whole load *)

Lemma load_fact_sales_closed {RT : Runtime} (w w' : Warehouse) (sales_df : list Sales.row) :
  load_fact_sales w sales_df = (w', Done) ->
  exists fact_records skipped,
    fact_loop w sales_df [] O = Some (fact_records, skipped)
    /\ fact_sales w'
       = map (upserted fact_records)
           (fact_sales w ++ inserted (fact_sales w) fact_records)
    /\ dim_customer w' = dim_customer w
    /\ dim_product w' = dim_product w
    /\ dim_date w' = dim_date w.
Proof.
  unfold load_fact_sales.
  destruct (fact_loop w sales_df [] O) as [[fact_records skipped]|]; [|discriminate].
  unfold execute_values.
  pose proof (execute_pages_update Z.eqb FactSales.sale_id (fun _ => new_fact)
                set_fact_measures Z.eqb_eq (fun _ _ _ => eq_refl) (fun _ _ => eq_refl)
                (fun r => Some (FactSales.sale_id r))
                (paginate 100 fact_records) (fact_sales w) 0) as Hpages.
  destruct (execute_pages _ _ _ _ _ _ _ _) as [[table|] seq]; [|discriminate].
  intros E. injection E as <-. cbn [fst] in Hpages.
  destruct (proposals Z.eqb _ (paginate 100 fact_records)) as [ps|] eqn:Ep;
    [|discriminate].
  apply proposals_total in Ep. rewrite paginate_concat in Ep. subst ps.
  cbn [option_map] in Hpages. injection Hpages as ->.
  rewrite (fold_apply1_closed Z.eqb FactSales.sale_id (fun _ => new_fact)
             set_fact_measures Z.eqb_eq (fun _ _ _ => eq_refl) (fun _ _ => eq_refl)
             (fun _ _ _ _ => eq_refl) (fun _ _ _ => eq_refl)).
  exists fact_records, skipped. cbn [fact_sales dim_customer dim_product dim_date].
  split; [reflexivity|]. split; [|auto].
  rewrite (map_ext _ _ (updates_upserted fact_records)). f_equal. f_equal.
  rewrite keep_first_map, map_map. cbn [fst snd]. unfold inserted.
  rewrite (map_ext _ _ new_fact_same). apply map_id.
Qed.

Lemma load_fact_sales_raised {RT : Runtime} (w w' : Warehouse) (sales_df : list Sales.row) :
  load_fact_sales w sales_df = (w', Raised) -> w' = w.
Proof.
  unfold load_fact_sales.
  destruct (fact_loop w sales_df [] O) as [[fact_records skipped]|].
  - destruct (execute_values _ _ _ _ _ _ _ _) as [[table|] seq]; [discriminate|].
    intros E. now injection E as <-.
  - intros E. now injection E as <-.
Qed.

Lemma upserted_keys (fact_records : list FactSales.row) (old : FactSales.row) :
  FactSales.sale_id (upserted fact_records old) = FactSales.sale_id old
  /\ FactSales.date_key (upserted fact_records old) = FactSales.date_key old
  /\ FactSales.customer_key (upserted fact_records old) = FactSales.customer_key old
  /\ FactSales.product_key (upserted fact_records old) = FactSales.product_key old.
Proof.
  unfold upserted. destruct (last_with_sale_id _ _); repeat split.
Qed.

(** A fact row stays linked when every dimension keeps its surrogate
    keys. *)
Lemma linked_ext (w w' : Warehouse) (f f' : FactSales.row) :
  (forall d, In d (dim_date w) ->
     exists d', In d' (dim_date w') /\ DimDate.date_key d' = DimDate.date_key d) ->
  (forall c, In c (dim_customer w) ->
     exists c', In c' (dim_customer w')
                /\ DimCustomer.customer_key c' = DimCustomer.customer_key c) ->
  (forall p, In p (dim_product w) ->
     exists p', In p' (dim_product w')
                /\ DimProduct.product_key p' = DimProduct.product_key p) ->
  FactSales.date_key f' = FactSales.date_key f ->
  FactSales.customer_key f' = FactSales.customer_key f ->
  FactSales.product_key f' = FactSales.product_key f ->
  linked w f -> linked w' f'.
Proof.
  intros Hd Hc Hp Ed Ec Ep ((d & Hdin & Kd) & (c & Hcin & Kc) & (p & Hpin & Kp)).
  destruct (Hd d Hdin) as (d' & Hd' & Kd').
  destruct (Hc c Hcin) as (c' & Hc' & Kc').
  destruct (Hp p Hpin) as (p' & Hp' & Kp').
  unfold linked. rewrite Ed, Ec, Ep.
  repeat split; eexists; (split; [eassumption | congruence]).
Qed.

Lemma same_rows {A : Type} (key : A -> Z) (l l' : list A) :
  l' = l -> forall x, In x l -> exists x', In x' l' /\ key x' = key x.
Proof. intros -> x Hx. eauto. Qed.

Ltac keeps_rows :=
  first [ apply (same_rows DimDate.date_key)
        | apply (same_rows DimCustomer.customer_key)
        | apply (same_rows DimProduct.product_key) ];
  assumption.

Lemma load_fact_sales_consistent {RT : Runtime} (w w' : Warehouse) (st : status)
    (sales_df : list Sales.row) :
  load_fact_sales w sales_df = (w', st) -> consistent w -> consistent w'.
Proof.
  destruct st; [|intros E; now rewrite (load_fact_sales_raised _ _ _ E)].
  intros E (Hc & Hp & Hd & Hs & Hl).
  destruct (load_fact_sales_closed _ _ _ E) as (facts & skipped & Eloop & Ef & Ec & Ep & Ed).
  unfold consistent. rewrite Ec, Ep, Ed. do 3 (split; [assumption|]). split.
  - rewrite Ef, map_map.
    rewrite (map_ext _ _ (fun old => proj1 (upserted_keys facts old))).
    rewrite map_app. unfold inserted. now apply NoDup_keep_first_app; [apply Z.eqb_eq|].
  - intros f' Hf'. rewrite Ef in Hf'. apply in_map_iff in Hf'.
    destruct Hf' as (f & <- & Hf).
    destruct (upserted_keys facts f) as (_ & Kd & Kc & Kp).
    apply (linked_ext w w' f); [keeps_rows | keeps_rows | keeps_rows | assumption.. |].
    apply in_app_or in Hf. destruct Hf as [Hf | Hf]; [now apply Hl|].
    apply (keep_first_In Z.eqb FactSales.sale_id Z.eqb_eq) in Hf. destruct Hf as [Hf _].
    destruct (fact_loop_In _ _ _ _ _ _ _ Eloop Hf) as [[] | (s & Hs' & Hem)].
    destruct (emitted_resolved _ _ _ Hem) as (d & c & p & Hdin & Hcin & Hpin & Hres).
    destruct Hres as (_ & _ & _ & Kd' & Kc' & Kp' & _).
    unfold linked. repeat split; eexists; (split; [eassumption | congruence]).
Qed.

Lemma load_dim_customer_consistent {RT : Runtime} (now : Z) (w w' : Warehouse)
    (st : status) (customers_df : list Customers.row) :
  load_dim_customer now w customers_df = (w', st) -> consistent w -> consistent w'.
Proof.
  intros E (Hc & Hp & Hd & Hs & Hl). destruct st.
  - destruct (load_dim_customer_stored _ _ _ _ E) as (ps & news & Ec & Ht & Hk & Ep & Ed & Ef).
    destruct (news_keys Z.eqb DimCustomer.customer_id customer_key_of Z.eqb_eq
                (dim_customer w) news customers_df ps Ec Hk) as (Hnd & _ & _).
    unfold consistent. rewrite Ep, Ed, Ef. split; [|auto 6].
    + rewrite Ht, map_app, map_map.
      rewrite (map_ext _ (DimCustomer.customer_id)); [now apply Hnd|].
      intros old. unfold customer_upserted, upsert_row. now destruct (last_record _ _ _ _).
    + do 3 (split; [assumption|]). intros f Hf.
      apply (linked_ext w w' f); [keeps_rows | | keeps_rows | reflexivity.. | now apply Hl].
      intros c Hcin. exists (customer_upserted now customers_df c). split.
      * rewrite Ht. apply in_or_app. left. now apply in_map.
      * unfold customer_upserted, upsert_row. now destruct (last_record _ _ _ _).
  - destruct (load_dim_customer_raised _ _ _ _ E) as (Ec & Ep & Ed & Ef).
    unfold consistent. rewrite Ec, Ep, Ed, Ef. do 4 (split; [assumption|]).
    intros f Hf.
    apply (linked_ext w w' f);
      [keeps_rows | keeps_rows | keeps_rows | reflexivity.. | now apply Hl].
Qed.

Lemma load_dim_product_consistent {RT : Runtime} (now : Z) (w w' : Warehouse)
    (st : status) (products_df : list Products.row) :
  load_dim_product now w products_df = (w', st) -> consistent w -> consistent w'.
Proof.
  intros E (Hc & Hp & Hd & Hs & Hl). destruct st.
  - destruct (load_dim_product_stored _ _ _ _ E) as (ps & news & Ec & Ht & Hk & Ecu & Ed & Ef).
    destruct (news_keys Z.eqb DimProduct.product_id product_key_of Z.eqb_eq
                (dim_product w) news products_df ps Ec Hk) as (Hnd & _ & _).
    unfold consistent. rewrite Ecu, Ed, Ef. split; [assumption|]. split.
    + rewrite Ht, map_app, map_map.
      rewrite (map_ext _ (DimProduct.product_id)); [now apply Hnd|].
      intros old. unfold product_upserted, upsert_row. now destruct (last_record _ _ _ _).
    + do 2 (split; [assumption|]). intros f Hf.
      apply (linked_ext w w' f); [keeps_rows | keeps_rows | | reflexivity.. | now apply Hl].
      intros p Hpin. exists (product_upserted now products_df p). split.
      * rewrite Ht. apply in_or_app. left. now apply in_map.
      * unfold product_upserted, upsert_row. now destruct (last_record _ _ _ _).
  - destruct (load_dim_product_raised _ _ _ _ E) as (Ec & Ep & Ed & Ef).
    unfold consistent. rewrite Ec, Ep, Ed, Ef. do 4 (split; [assumption|]).
    intros f Hf.
    apply (linked_ext w w' f);
      [keeps_rows | keeps_rows | keeps_rows | reflexivity.. | now apply Hl].
Qed.

Lemma load_dim_date_consistent (w w' : Warehouse) (st : status)
    (date_df : list DateDim.row) :
  load_dim_date w date_df = (w', st) -> consistent w -> consistent w'.
Proof.
  intros E (Hc & Hp & Hd & Hs & Hl).
  destruct (load_dim_date_stored w date_df) as (news & seq & E' & Hnews).
  rewrite E' in E. injection E as <- <-.
  unfold consistent. cbn [dim_customer dim_product dim_date fact_sales].
  do 2 (split; [assumption|]). split; [|split; [assumption|]].
  - rewrite map_app.
    replace (map DimDate.sale_date news)
      with (map DateDim.sale_date
              (keep_first date_eqb DateDim.sale_date
                 (map DimDate.sale_date (dim_date w)) date_df))
      by (rewrite <- Hnews, map_map; reflexivity).
    now apply NoDup_keep_first_app; [apply date_eqb_eq|].
  - intros f Hf. destruct (Hl f Hf) as ((d & Hdin & Kd) & Hcu & Hpr).
    split; [|split; assumption].
    exists d. split; [|exact Kd]. cbn [dim_date]. apply in_or_app. now left.
Qed.

Lemma load_all_consistent {RT : Runtime} (t_customer t_product : Z) (w w' : Warehouse)
    (st : status) (sales_df : list Sales.row) (customers_df : list Customers.row)
    (products_df : list Products.row) (date_df : list DateDim.row) :
  load_all t_customer t_product w sales_df customers_df products_df date_df = (w', st) ->
  consistent w -> consistent w'.
Proof.
  unfold load_all. intros E H.
  destruct (load_dim_customer t_customer w customers_df) as [w1 [|]] eqn:E1.
  - apply (load_dim_customer_consistent _ _ _ _ _ E1) in H.
    destruct (load_dim_product t_product w1 products_df) as [w2 [|]] eqn:E2.
    + apply (load_dim_product_consistent _ _ _ _ _ E2) in H.
      destruct (load_dim_date w2 date_df) as [w3 [|]] eqn:E3.
      * apply (load_dim_date_consistent _ _ _ _ E3) in H.
        now apply (load_fact_sales_consistent _ _ _ _ E) in H.
      * apply (load_dim_date_consistent _ _ _ _ E3) in H. now injection E as <- <-.
    + apply (load_dim_product_consistent _ _ _ _ _ E2) in H. now injection E as <- <-.
  - apply (load_dim_customer_consistent _ _ _ _ _ E1) in H. now injection E as <- <-.
Qed.

(** X20.  [load_fact_sales] keeps the warehouse consistent, however it
    ends: if each natural key and each [sale_id] was stored once and every
    fact row carried the surrogate keys of stored dimension rows, the same
    holds of the warehouse it leaves. *)
Theorem load_fact_sales_keeps_consistent :
  forall (RT : Runtime) (w w' : Warehouse) (st : status) (sales_df : list Sales.row),
    load_fact_sales w sales_df = (w', st) -> consistent w -> consistent w'.
Proof. intros RT w w' st sales_df. apply load_fact_sales_consistent. Qed.

(** X21.  [load_all], and [main] with it, keep the warehouse consistent
    wherever they stop: after a complete load, and after a load that
    raised in any of the four stages or in the transformation, each
    natural key and each [sale_id] is stored once and every fact row
    carries the surrogate keys of stored dimension rows, if this held
    before. *)
Theorem load_all_keeps_consistent :
  forall (RT : Runtime) (t_customer t_product : Z) (w : Warehouse)
         (sales customers products : _) (date_df : list DateDim.row),
    consistent w ->
    consistent (fst (load_all t_customer t_product w sales customers products date_df))
    /\ forall raw_sales raw_customers raw_products,
         consistent (fst (main t_customer t_product w raw_sales raw_customers
                            raw_products)).
Proof.
  intros RT t1 t2 w sales customers products date_df H. split.
  - destruct (load_all t1 t2 w sales customers products date_df) as [w' st] eqn:E.
    now apply (load_all_consistent _ _ _ _ _ _ _ _ _ E).
  - intros raw_sales raw_customers raw_products. unfold main.
    destruct (transform_all raw_sales raw_customers raw_products)
      as [[[[sales_t customers_t] products_t] date_dim]|]; [|exact H].
    destruct (load_all t1 t2 w sales_t customers_t products_t date_dim) as [w' st] eqn:E.
    now apply (load_all_consistent _ _ _ _ _ _ _ _ _ E).
Qed.

Lemma empty_warehouse_consistent : consistent empty_warehouse.
Proof.
  unfold consistent, empty_warehouse. cbn.
  do 4 (split; [constructor|]). intros f [].
Qed.

Lemma first_run_warehouse_consistent : consistent first_run_warehouse.
Proof.
  unfold consistent. vm_compute.
  do 4 (split; [constructor; [intros [] | constructor]|]).
  intros f [<- | []]. repeat split; eexists; (split; [left; reflexivity | reflexivity]).
Qed.

Lemma load_fact_sales_keeps_consistent_witness :
  load_fact_sales (RT := example_runtime) first_run_warehouse [cleaned_sale_100]
  = (first_run_warehouse, Done)
  /\ consistent first_run_warehouse.
Proof.
  split; [reflexivity|].
  exact (load_fact_sales_keeps_consistent example_runtime first_run_warehouse
           first_run_warehouse Done [cleaned_sale_100] eq_refl
           first_run_warehouse_consistent).
Defined.

Lemma load_all_keeps_consistent_witness :
  consistent empty_warehouse /\ consistent first_run_warehouse.
Proof.
  split; [exact empty_warehouse_consistent|].
  exact (proj2 (load_all_keeps_consistent example_runtime 5 6 empty_warehouse
                  [cleaned_sale_100] [alice] [widget] [march_15_row]
                  empty_warehouse_consistent)
           [sale_100] [alice] [widget]).
Defined.

(** ** The whole run *)

(** X22.  In a run of [main] that returns, on a warehouse whose stored
    date keys are not 0 and whose date sequence is above 0 (a SERIAL
    column starts at 1), no cleaned sale is skipped for its date: every
    cleaned sale has a date, the lookup by date that the fact load fills
    answers it with a key, and the key is true in the test of the skip. *)
Theorem main_resolves_dates :
  forall (RT : Runtime) (t_customer t_product : Z) (w w' : Warehouse)
         (sales : list Sales.row) (customers : list Customers.row)
         (products : list Products.row),
    (forall row, In row (dim_date w) -> DimDate.date_key row <> 0) ->
    0 < date_key_seq w ->
    main t_customer t_product w sales customers products = (w', Done) ->
    exists sales_clean loaded,
      transform_sales_data sales = Some sales_clean
      /\ load_fact_sales loaded sales_clean = (w', Done)
      /\ forall c, In c sales_clean ->
           exists d date_key,
             to_date (Sales.sale_date c) = Some (Some d)
             /\ get_date (date_lookup loaded) (Some d) = Some date_key
             /\ truthy (Some date_key) = true.
Proof.
  intros RT t1 t2 w w' sales customers products Hkeys Hseq. unfold main.
  destruct (transform_all sales customers products)
    as [[[[sc cc] pc] dd]|] eqn:Et; [|discriminate].
  destruct (transform_all_inv _ _ _ _ _ _ _ _ Et) as (Es & _ & _ & _ & _ & Hcov & _).
  unfold load_all.
  destruct (load_dim_customer_dates t1 w cc) as (Hd1 & Hs1).
  destruct (load_dim_customer t1 w cc) as [w1 [|]]; [|discriminate].
  destruct (load_dim_product_dates t2 w1 pc) as (Hd2 & Hs2).
  destruct (load_dim_product t2 w1 pc) as [w2 [|]]; [|discriminate].
  cbn [fst] in Hd1, Hs1, Hd2, Hs2.
  destruct (load_dim_date_spec w2 dd) as (news & seq & E3 & _ & Hall & _).
  pose proof (load_dim_date_serial w2 dd news seq E3) as Hser.
  rewrite E3. intros E4.
  exists sc. eexists. split; [exact Es|]. split; [exact E4|].
  intros c Hc. cbn [get_date].
  destruct (Hcov c Hc) as (t & r & Ht & Hr & Hrec).
  destruct (Hall r Hr) as (row & Hrow & Erow).
  assert (Ed : DateDim.sale_date r = ts_date t) by apply Hrec.
  exists (ts_date t).
  destruct (lookup_stored date_eqb date_eqb_eq DimDate.sale_date DimDate.date_key
              (dim_date w2 ++ news) row Hrow) as (v & Hv).
  exists v. split; [now rewrite Ht|].
  unfold date_lookup. cbn [dim_date]. rewrite <- Ed, <- Erow.
  split; [exact Hv|].
  apply lookup_hit in Hv; [|exact date_eqb_eq].
  destruct Hv as (row' & Hrow' & _ & <-).
  cbn [truthy]. apply negb_true_iff, Z.eqb_neq.
  apply in_app_or in Hrow'. destruct Hrow' as [Hold | Hnew].
  - apply Hkeys. now rewrite <- Hd1, <- Hd2.
  - specialize (Hser row' Hnew). lia.
Qed.

Lemma main_resolves_dates_witness :
  exists w',
    main (RT := example_runtime) 7 8 first_run_warehouse [sale_100; leap_day_sale]
      [alice] [widget]
    = (w', Done)
    /\ exists sales_clean loaded,
         transform_sales_data (RT := example_runtime) [sale_100; leap_day_sale]
         = Some sales_clean
         /\ load_fact_sales (RT := example_runtime) loaded sales_clean = (w', Done)
         /\ forall c, In c sales_clean ->
              exists d date_key,
                to_date (RT := example_runtime) (Sales.sale_date c) = Some (Some d)
                /\ get_date (date_lookup loaded) (Some d) = Some date_key
                /\ truthy (Some date_key) = true.
Proof.
  eexists. split; [vm_compute; reflexivity|].
  apply (main_resolves_dates example_runtime 7 8 first_run_warehouse _
           [sale_100; leap_day_sale] [alice] [widget]).
  - intros row Hrow. vm_compute in Hrow. destruct Hrow as [<- | []]. cbn. lia.
  - reflexivity.
  - vm_compute. reflexivity.
Defined.

(** ** When a DO UPDATE load returns *)

Section Accepted.
Context {Row Rec Key : Type}.
Variable key_eqb : Key -> Key -> bool.
Variable row_key : Row -> Key.
Variable rec_key : Rec -> option Key.
Variable new_row : Z -> Key -> Rec -> Row.
Variable set : Rec -> Row -> Row.
Hypothesis key_eqb_eq : forall a b, key_eqb a b = true <-> a = b.
Hypothesis new_row_key : forall s k rec, row_key (new_row s k rec) = k.
Hypothesis set_key : forall rec row, row_key (set rec row) = row_key row.

Lemma distinct_from_NoDup (ks : list Key) :
  forall affected,
    distinct_from key_eqb affected ks = true
    <-> NoDup ks /\ forall k, In k ks -> ~ In k affected.
Proof.
  induction ks as [|k ks IH]; intros affected; cbn [distinct_from].
  - split; [intros _; split; [constructor | intros k []] | reflexivity].
  - rewrite andb_true_iff, negb_true_iff, IH, NoDup_cons_iff. split.
    + intros (Hk & Hnd & Hout). split; [split; [|exact Hnd]|].
      * intros Hin. apply (Hout k Hin). now left.
      * intros k' [<- | Hk'] Hin.
        -- apply (existsb_eqb_In key_eqb key_eqb_eq) in Hin. congruence.
        -- apply (Hout k' Hk'). now right.
    + intros ((Hk & Hnd) & Hout). split; [|split; [exact Hnd|]].
      * destruct (existsb (key_eqb k) affected) eqn:E; [|reflexivity].
        apply (existsb_eqb_In key_eqb key_eqb_eq) in E.
        exfalso. apply (Hout k); [now left | exact E].
      * intros k' Hk' [<- | Hin]; [contradiction|].
        apply (Hout k'); [now right | exact Hin].
Qed.

Lemma proposals_distinct (pages : list (list Rec)) :
  forall ps,
    convert rec_key (concat pages) = Some ps ->
    NoDup (map fst ps) ->
    proposals key_eqb rec_key pages = Some ps.
Proof.
  unfold proposals.
  induction pages as [|page rest IH]; intros ps; cbn [concat traverse].
  - intros E _. cbn in E. now injection E as <-.
  - rewrite convert_app. unfold page_accepted at 1.
    destruct (convert rec_key page) as [a|]; [|discriminate].
    destruct (convert rec_key (concat rest)) as [b|]; [|discriminate].
    intros E Hnd. injection E as <-. rewrite map_app in Hnd.
    replace (distinct_from key_eqb [] (map fst a)) with true.
    + specialize (IH b eq_refl (NoDup_app_remove_l _ _ Hnd)).
      destruct (traverse _ rest) as [pps|]; [|discriminate].
      cbn [option_map concat] in *. now injection IH as ->.
    + symmetry. apply distinct_from_NoDup.
      split; [exact (NoDup_app_remove_r _ _ Hnd) | intros k _ []].
Qed.

(** [execute_values] with DO UPDATE returns when the keys convert and no
    key is proposed twice. *)
Lemma execute_values_update_returns (table : list Row) (seq : Z) (df : list Rec)
    (ps : list (Key * Rec)) :
  convert rec_key df = Some ps ->
  NoDup (map fst ps) ->
  exists table' seq',
    execute_values key_eqb row_key rec_key new_row (Some set) table seq df
    = (Some table', seq').
Proof.
  intros Ec Hnd. unfold execute_values.
  pose proof (execute_pages_update key_eqb row_key new_row set key_eqb_eq new_row_key
                set_key rec_key (paginate 100 df) table seq) as Hpages.
  rewrite (proposals_distinct _ ps) in Hpages;
    [|now rewrite paginate_concat | exact Hnd].
  destruct (execute_pages _ _ _ _ _ _ _ _) as [[t|] s]; [eauto | discriminate].
Qed.

(** It raises when a frame of one page proposes a key twice, or holds a
    key that the column refuses. *)
Lemma execute_values_update_raises (table : list Row) (seq : Z) (df : list Rec) :
  (length df <= 100)%nat ->
  (forall ps, convert rec_key df = Some ps -> ~ NoDup (map fst ps)) ->
  fst (execute_values key_eqb row_key rec_key new_row (Some set) table seq df) = None.
Proof.
  intros Hlen Hdup. unfold execute_values, paginate.
  destruct df as [|r df].
  - exfalso. apply (Hdup [] eq_refl). constructor.
  - cbn [length paginate_fuel].
    rewrite firstn_all2 by exact Hlen.
    rewrite skipn_all2 by exact Hlen.
    replace (paginate_fuel (length df) 100 []) with (@nil (list Rec))
      by (now destruct (length df)).
    cbn [execute_pages]. fold (convert rec_key (r :: df)).
    destruct (convert rec_key (r :: df)) as [ps|] eqn:Ec; [|reflexivity].
    specialize (Hdup ps eq_refl).
    pose proof (insert_rows_refused key_eqb row_key new_row set key_eqb_eq new_row_key
                  set_key ps table seq [] (fun k (H : In k []) => match H with end))
      as Href.
    destruct (distinct_from key_eqb [] (map fst ps)) eqn:Ed.
    + exfalso. apply Hdup. now apply distinct_from_NoDup in Ed.
    + specialize (Href eq_refl).
      now destruct (insert_rows _ _ _ _ _ _ _ _) as [[t|] s].
Qed.

End Accepted.

(** ** From the cleaned frames to the dimension tables *)

Lemma Qred_inject_Z (z : Z) : Qred (inject_Z z) = inject_Z z.
Proof.
  unfold Qred, inject_Z.
  pose proof (Z.ggcd_gcd z 1) as Hg.
  pose proof (Z.ggcd_correct_divisors z 1) as Hd.
  destruct (Z.ggcd z 1) as [g [aa bb]]. cbn [fst snd] in *.
  rewrite Z.gcd_1_r in Hg. subst g. destruct Hd as [Ha Hb].
  rewrite Z.mul_1_l in Ha, Hb. subst aa bb. reflexivity.
Qed.

Lemma truncate_of_Z (z : Z) : truncate (of_Z z) = z.
Proof.
  unfold truncate, of_Z, Q2Qc. cbn [this]. rewrite Qred_inject_Z. cbn.
  apply Z.quot_1_r.
Qed.

Lemma is_whole_of_Z (z : Z) : is_whole (of_Z z) = true.
Proof. unfold is_whole. rewrite truncate_of_Z. now apply Qc_eqb_eq. Qed.

Lemma sql_integer_of_Z {RT : Runtime} (z : Z) :
  sql_integer (Num (of_Z z)) = if in_int32 z then Some z else None.
Proof. unfold sql_integer. now rewrite is_whole_of_Z, truncate_of_Z. Qed.

(** The proposed rows of a frame whose identifiers are whole numbers have
    as many distinct keys as the frame has identifiers. *)
Lemma cleaned_keys {RT : Runtime} {R : Type} (id : R -> cell) (cleaned : list R)
    (ps : list (Z * R)) :
  (forall c, In c cleaned -> exists z, id c = Num (of_Z z)) ->
  convert (fun r => sql_integer (id r)) cleaned = Some ps ->
  NoDup (map id cleaned) <-> NoDup (map fst ps).
Proof.
  intros Hid Ec.
  set (h := fun c : cell => match c with Num q => truncate q | _ => 0 end).
  assert (Hkeys : map fst ps = map h (map id cleaned)).
  { rewrite map_map. apply convert_inv in Ec.
    apply (Forall2_map_eq_in _ _ _ _ _ Ec). intros c p Hc [Ek _].
    destruct (Hid c Hc) as (z & Ez). rewrite Ez, sql_integer_of_Z in Ek.
    destruct (in_int32 z); [|discriminate].
    injection Ek as <-. rewrite Ez. cbn. now rewrite truncate_of_Z. }
  rewrite Hkeys. split; [|apply NoDup_map_inv].
  apply NoDup_map_inj_on. intros x y Hx Hy Exy.
  apply in_map_iff in Hx, Hy.
  destruct Hx as (cx & <- & Hcx), Hy as (cy & <- & Hcy).
  destruct (Hid cx Hcx) as (zx & Ex). destruct (Hid cy Hcy) as (zy & Ey).
  rewrite Ex, Ey in Exy |- *. cbn in Exy. rewrite !truncate_of_Z in Exy. now subst zy.
Qed.

(** They exist when an INTEGER column takes every identifier. *)
Lemma cleaned_keys_convert {RT : Runtime} {R : Type} (id : R -> cell) (cleaned : list R) :
  (forall c, In c cleaned -> exists z, id c = Num (of_Z z) /\ in_int32 z = true) ->
  exists ps, convert (fun r => sql_integer (id r)) cleaned = Some ps.
Proof.
  intros Hid. apply traverse_total. intros c Hc.
  destruct (Hid c Hc) as (z & -> & Hz). rewrite sql_integer_of_Z, Hz. cbn. eauto.
Qed.

Lemma cleaned_customer_ids {RT : Runtime} (customers_df cleaned : list Customers.row) :
  transform_customers_data customers_df = Some cleaned ->
  forall c, In c cleaned -> exists z, Customers.customer_id c = Num (of_Z z).
Proof.
  intros E c Hc.
  destruct (transform_customers_data_In _ _ _ E Hc) as (r & _ & _ & (q & _ & Eq) & _).
  eauto.
Qed.

Lemma cleaned_product_ids {RT : Runtime} (products_df cleaned : list Products.row) :
  transform_products_data products_df = Some cleaned ->
  forall c, In c cleaned -> exists z, Products.product_id c = Num (of_Z z).
Proof.
  intros E c Hc.
  destruct (transform_products_data_In _ _ _ E Hc) as (r & _ & _ & (q & _ & Eq) & _).
  eauto.
Qed.

(** X23.  A cleaned customers frame that holds each [customer_id] once,
    each of them an integer of 32 bits, passes the two checks of the
    INSERT command that the frame decides: the INTEGER column takes every
    identifier and no page proposes a row twice, so [load_dim_customer]
    returns. *)
Theorem cleaned_customers_load_returns :
  forall (RT : Runtime) (now : Z) (w : Warehouse)
         (customers_df cleaned : list Customers.row),
    transform_customers_data customers_df = Some cleaned ->
    NoDup (map Customers.customer_id cleaned) ->
    (forall c, In c cleaned ->
       exists z, Customers.customer_id c = Num (of_Z z) /\ in_int32 z = true) ->
    exists w', load_dim_customer now w cleaned = (w', Done).
Proof.
  intros RT now w customers_df cleaned E Hnd Hrange.
  destruct (cleaned_keys_convert Customers.customer_id cleaned Hrange) as (ps & Ec).
  pose proof (cleaned_keys Customers.customer_id cleaned ps
                (cleaned_customer_ids _ _ E) Ec) as Hiff.
  destruct (execute_values_update_returns Z.eqb DimCustomer.customer_id
              customer_key_of (new_customer now) (set_customer now) Z.eqb_eq
              (fun _ _ _ => eq_refl) (fun _ _ => eq_refl)
              (dim_customer w) (customer_key_seq w) cleaned ps Ec (proj1 Hiff Hnd))
    as (table & seq & Ex).
  unfold load_dim_customer. unfold customer_key_of in Ex. rewrite Ex. eauto.
Qed.

Lemma cleaned_customers_load_returns_witness :
  transform_customers_data (RT := example_runtime) [alice; bob; carol; alice]
  = Some [alice; bob]
  /\ exists w',
       load_dim_customer (RT := example_runtime) 9 stale_fact_warehouse [alice; bob]
       = (w', Done).
Proof.
  split; [reflexivity|].
  apply (cleaned_customers_load_returns example_runtime 9 stale_fact_warehouse
           [alice; bob; carol; alice] [alice; bob] eq_refl).
  - repeat constructor; cbn; intuition discriminate.
  - intros c [<- | [<- | []]]; [exists 1 | exists 2]; split; reflexivity.
Defined.

(** X24.  A cleaned customers frame of at most 100 rows that holds a
    [customer_id] twice is not loaded: the INSERT command would update a
    row a second time, [load_dim_customer] raises, and the four tables are
    as they were. *)
Theorem cleaned_customers_load_raises :
  forall (RT : Runtime) (now : Z) (w : Warehouse)
         (customers_df cleaned : list Customers.row),
    transform_customers_data customers_df = Some cleaned ->
    (length cleaned <= 100)%nat ->
    ~ NoDup (map Customers.customer_id cleaned) ->
    exists w',
      load_dim_customer now w cleaned = (w', Raised)
      /\ dim_customer w' = dim_customer w
      /\ dim_product w' = dim_product w
      /\ dim_date w' = dim_date w
      /\ fact_sales w' = fact_sales w.
Proof.
  intros RT now w customers_df cleaned E Hlen Hdup.
  pose proof (execute_values_update_raises Z.eqb DimCustomer.customer_id
                customer_key_of (new_customer now) (set_customer now) Z.eqb_eq
                (fun _ _ _ => eq_refl) (fun _ _ => eq_refl)
                (dim_customer w) (customer_key_seq w) cleaned Hlen) as Ex.
  unfold load_dim_customer. unfold customer_key_of in Ex.
  destruct (execute_values _ _ _ _ _ _ _ _) as [[table|] seq].
  - exfalso. cbn [fst] in Ex. discriminate Ex. intros ps Ec Hnd. apply Hdup.
    now apply (cleaned_keys Customers.customer_id cleaned ps
                 (cleaned_customer_ids _ _ E) Ec).
  - eexists. split; [reflexivity|]. cbn. auto.
Qed.

Lemma cleaned_customers_load_raises_witness :
  transform_customers_data (RT := example_runtime) [dave; erin]
  = Some [Customers.set_customer_id (num 1 1) dave;
          Customers.set_customer_id (num 1 1) erin]
  /\ exists w',
       load_dim_customer (RT := example_runtime) 9 stale_fact_warehouse
         [Customers.set_customer_id (num 1 1) dave;
          Customers.set_customer_id (num 1 1) erin]
       = (w', Raised)
       /\ dim_customer w' = dim_customer stale_fact_warehouse.
Proof.
  split; [reflexivity|].
  destruct (cleaned_customers_load_raises example_runtime 9 stale_fact_warehouse
              [dave; erin]
              [Customers.set_customer_id (num 1 1) dave;
               Customers.set_customer_id (num 1 1) erin] eq_refl)
    as (w' & Ew & Hc & _).
  - cbn. lia.
  - intros Hnd. apply NoDup_cons_iff in Hnd. destruct Hnd as [Hin _].
    apply Hin. left. reflexivity.
  - exists w'. auto.
Defined.

(** X25.  A cleaned products frame that holds each [product_id] once,
    each of them an integer of 32 bits, and a finite [unit_cost] in every
    row passes the two checks of the INSERT command that the frame
    decides, so [load_dim_product] returns. *)
Theorem cleaned_products_load_returns :
  forall (RT : Runtime) (now : Z) (w : Warehouse)
         (products_df cleaned : list Products.row),
    transform_products_data products_df = Some cleaned ->
    NoDup (map Products.product_id cleaned) ->
    (forall c, In c cleaned ->
       (exists z, Products.product_id c = Num (of_Z z) /\ in_int32 z = true)
       /\ finite (Products.unit_cost c)) ->
    exists w', load_dim_product now w cleaned = (w', Done).
Proof.
  intros RT now w products_df cleaned E Hnd Hrange.
  destruct (cleaned_keys_convert Products.product_id cleaned
              (fun c Hc => proj1 (Hrange c Hc))) as (ps & Ec).
  pose proof (cleaned_keys Products.product_id cleaned ps
                (cleaned_product_ids _ _ E) Ec) as Hiff.
  destruct (execute_values_update_returns Z.eqb DimProduct.product_id
              product_key_of (new_product now) (set_product now) Z.eqb_eq
              (fun _ _ _ => eq_refl) (fun _ _ => eq_refl)
              (dim_product w) (product_key_seq w) cleaned ps Ec (proj1 Hiff Hnd))
    as (table & seq & Ex).
  unfold load_dim_product. unfold product_key_of in Ex. rewrite Ex. eauto.
Qed.

Lemma cleaned_products_load_returns_witness :
  transform_products_data (RT := example_runtime) [widget; no_cost_product]
  = Some [widget]
  /\ exists w',
       load_dim_product (RT := example_runtime) 9 stale_fact_warehouse [widget]
       = (w', Done).
Proof.
  split; [reflexivity|].
  apply (cleaned_products_load_returns example_runtime 9 stale_fact_warehouse
           [widget; no_cost_product] [widget] eq_refl).
  - repeat constructor; cbn; intuition discriminate.
  - intros c [<- | []]. split; [exists 10; split; reflexivity|].
    eexists. reflexivity.
Defined.

(** ** The fact loop on a cleaned frame *)

Lemma fact_loop_total {RT : Runtime} (w : Warehouse) (rows : list Sales.row) :
  (forall row, In row rows ->
     ((exists t, Sales.sale_date row = Time t) \/ Sales.sale_date row = NA)
     /\ finite (Sales.sale_id row)
     /\ finite (Sales.customer_id row)
     /\ finite (Sales.product_id row)
     /\ finite (Sales.quantity row)
     /\ finite (Sales.unit_price row)
     /\ finite (Sales.total_amount row)) ->
  forall acc sk, exists fact_records skipped,
    fact_loop w rows acc sk = Some (fact_records, skipped).
Proof.
  induction rows as [|row rest IH]; intros Hrows acc sk; cbn [fact_loop]; [eauto|].
  destruct (Hrows row (or_introl eq_refl))
    as (Hd & (i & Ei) & (c & Ec) & (p & Ep) & (q & Eq) & (u & Eu) & (a & Ea)).
  rewrite Ei, Ec, Ep, Eq, Eu, Ea.
  destruct Hd as [(t & ->) | ->];
    cbn [to_date to_datetime option_map py_int py_float];
    destruct (negb _); apply IH; intros row' H'; apply Hrows; now right.
Qed.

(** X26.  The loop over a cleaned sales frame raises no conversion error
    when the identifiers and the measures of the frame are finite numbers
    (the cleaning lets an infinite measure pass, and [int] raises on it),
    also when a date of the frame is [NaT]: it ends with its fact records
    and its count of skipped rows, which add up to the rows of the frame,
    whatever the warehouse holds. *)
Theorem fact_loop_returns_on_cleaned :
  forall (RT : Runtime) (w : Warehouse) (sales_df cleaned : list Sales.row),
    transform_sales_data sales_df = Some cleaned ->
    (forall c, In c cleaned ->
       finite (Sales.sale_id c) /\ finite (Sales.customer_id c)
       /\ finite (Sales.product_id c) /\ finite (Sales.quantity c)
       /\ finite (Sales.unit_price c) /\ finite (Sales.total_amount c)) ->
    exists fact_records skipped,
      fact_loop w cleaned [] O = Some (fact_records, skipped)
      /\ (length fact_records + skipped = length cleaned)%nat.
Proof.
  intros RT w sales_df cleaned E Hids.
  destruct (fact_loop_total w cleaned) with (acc := @nil FactSales.row) (sk := O)
    as (facts & skipped & El).
  - intros row Hrow.
    destruct (cleaned_sales_row _ _ _ E Hrow) as (_ & Ht & _).
    destruct (Hids row Hrow) as (Hi & Hc & Hp & Hq & Hu & Ha). auto 10.
  - exists facts, skipped. split; [exact El|].
    destruct (fact_loop_accounts _ _ _ _ _ _ El) as (emitted & -> & Hlen & _).
    cbn [app] in *. lia.
Qed.

Lemma fact_loop_returns_on_cleaned_witness :
  transform_sales_data (RT := example_runtime)
    [good_sale; zero_quantity_sale; nat_date_sale; text_total_sale]
  = Some [cleaned_good_sale; cleaned_nat_date_sale]
  /\ exists fact_records skipped,
       fact_loop (RT := example_runtime) first_run_warehouse
         [cleaned_good_sale; cleaned_nat_date_sale] [] O
       = Some (fact_records, skipped)
       /\ (length fact_records + skipped
           = length [cleaned_good_sale; cleaned_nat_date_sale])%nat.
Proof.
  split; [reflexivity|].
  apply (fact_loop_returns_on_cleaned example_runtime first_run_warehouse
           [good_sale; zero_quantity_sale; nat_date_sale; text_total_sale]
           [cleaned_good_sale; cleaned_nat_date_sale] eq_refl).
  intros c [<- | [<- | []]]; repeat split; eexists; reflexivity.
Defined.

(** ** The casts at their limits *)

(** An infinite identifier makes the cleaning raise; an identifier beyond
    int64 is wrapped by the cast. *)
Lemma customer_id_casts :
  transform_customers_data (RT := example_runtime) [alice; infinite_id_customer] = None
  /\ transform_customers_data (RT := example_runtime) [huge_id_customer]
     = Some [Customers.set_customer_id (Num (of_Z (- 2 ^ 63))) huge_id_customer]
  /\ transform_products_data (RT := example_runtime) [infinite_id_product; widget] = None.
Proof. repeat split; reflexivity. Qed.

(** An identifier beyond 32 bits passes the cleaning, and the INTEGER
    column refuses it: the load raises and stores nothing. *)
Lemma customer_id_out_of_range :
  transform_customers_data (RT := example_runtime) [alice; wide_id_customer]
  = Some [alice; wide_id_customer]
  /\ snd (load_dim_customer (RT := example_runtime) 5 empty_warehouse
            [alice; wide_id_customer]) = Raised
  /\ dim_customer (fst (load_dim_customer (RT := example_runtime) 5 empty_warehouse
                          [alice; wide_id_customer])) = [].
Proof. repeat split; reflexivity. Qed.

(** An infinite quantity passes the cleaning, and [int] raises on it in
    the loop of the fact load. *)
Lemma infinite_quantity_raises :
  transform_sales_data (RT := example_runtime) [infinite_quantity_sale]
  = Some [cleaned_infinite_quantity_sale]
  /\ fact_loop (RT := example_runtime) first_run_warehouse
       [cleaned_infinite_quantity_sale] [] O = None.
Proof. split; reflexivity. Qed.
